(** * Device-state core of the Sixaxis / guitar HID driver

    A shallow embedding of the report codec, the identity registry, the
    numeric-id pool and the output scheduler of the driver (the trimmed
    [hid-sony.c]), followed by the properties claimed for them.

    Conventions.
    - C integers are [Z].  A [u8] holds a value in [0, 255]; a store of a
      wider value into a [u8] is written out with [to_u8].
    - C truth values are integers: zero is false, anything else is true.
    - The raw report pointer [u8 *rd] is a view of memory, [Z -> Z]: the
      report occupies offsets [0 .. size-1], and offsets from [size] on are
      whatever memory follows the report.
    - Objects owned by the kernel that the driver only talks to (the sensor
      input device, the HID transport, the work item) are modelled by what
      they have been told so far. *)

From Stdlib Require Import ZArith List Lia Bool.
From stdpp Require Import base numbers list gmap.
Import ListNotations.
Local Open Scope Z_scope.

(** ** Constants *)

Definition BIT (n : Z) : Z := Z.shiftl 1 n.

Definition SIXAXIS_CONTROLLER_USB : Z := BIT 1.
Definition SIXAXIS_CONTROLLER_BT : Z := BIT 2.
Definition GH_GUITAR_CONTROLLER : Z := BIT 14.

Definition SIXAXIS_CONTROLLER : Z :=
  Z.lor SIXAXIS_CONTROLLER_USB SIXAXIS_CONTROLLER_BT.
Definition SONY_LED_SUPPORT : Z := SIXAXIS_CONTROLLER.
Definition SONY_BATTERY_SUPPORT : Z := SIXAXIS_CONTROLLER.
Definition SONY_FF_SUPPORT : Z := SIXAXIS_CONTROLLER.
Definition SONY_BT_DEVICE : Z := SIXAXIS_CONTROLLER_BT.

Definition MAX_LEDS : Z := 4.
Definition MOTION_REPORT_0x02_SIZE : Z := 49.
Definition SIXAXIS_INPUT_REPORT_ACC_X_OFFSET : Z := 41.

(** Error numbers of the kernel's [errno-base.h]. *)
Definition ENOMEM : Z := 12.
Definition EEXIST : Z := 17.
Definition EINVAL : Z := 22.

(** [enum power_supply_status] values used by the driver; a zeroed session
    starts at [POWER_SUPPLY_STATUS_UNKNOWN]. *)
Inductive power_supply_status : Set :=
| POWER_SUPPLY_STATUS_UNKNOWN
| POWER_SUPPLY_STATUS_CHARGING
| POWER_SUPPLY_STATUS_DISCHARGING
| POWER_SUPPLY_STATUS_NOT_CHARGING
| POWER_SUPPLY_STATUS_FULL.

(** Absolute axes of the sensor device. *)
Inductive abs_axis : Set := ABS_X | ABS_Y | ABS_Z.

(** What the sensor input device is told: [input_report_abs] and
    [input_sync]. *)
Inductive input_event : Set :=
| Report_abs (axis : abs_axis) (val : Z)
| Sync.

(** What the transport is asked to send: [hid_hw_request] on an output
    report whose first field holds [value], and [hid_hw_raw_request] of a
    byte buffer under a report number. *)
Inductive hid_tx : Set :=
| Hw_request (value : list Z)
| Hw_raw_request (reportnum : Z) (buf : list Z).

(** [struct work_struct]: only its pending bit matters here. *)
Record work_struct : Set := mk_work { pending : bool }.

(** The [send_output_report] function pointer: null, or the one encoder
    this driver has. *)
Inductive output_report_fn : Set :=
| send_null
| send_sixaxis.

Inductive sony_worker : Set := SONY_WORKER_STATE.

(** ** C helpers *)

Definition to_u8 (z : Z) : Z := Z.land z 255.

(** C's [!x]. *)
Definition c_not (z : Z) : Z := if z =? 0 then 1 else 0.

(** C's truth test of an integer. *)
Definition truthy (z : Z) : bool := negb (z =? 0).

(** Fixed-size [u8] arrays are lists read and written by index.  The
    driver's indices stay inside its arrays; on a list, a read past the
    end gives 0 and a write past the end is dropped. *)
Definition arr_get (a : list Z) (n : Z) : Z := a !!! Z.to_nat n.
Definition arr_set (a : list Z) (n : Z) (v : Z) : list Z :=
  <[Z.to_nat n := v]> a.

(** ** The session, [struct sony_sc] *)

Record sony_sc : Set := mk_sony_sc {
  hdev : list hid_tx;            (* requests handed to the transport, oldest first *)
  sensor_dev : list input_event; (* events reported to the sensor device, oldest first *)
  leds : list Z;                 (* addresses of the registered led_classdev *)
  quirks : Z;
  state_worker : work_struct;
  send_output_report : output_report_fn;
  device_id : Z;
  left : Z;
  right : Z;
  mac_address : list Z;
  state_worker_initialized : Z;
  defer_initialization : Z;
  battery_capacity : Z;
  battery_status : power_supply_status;
  led_state : list Z;
  led_delay_on : list Z;
  led_delay_off : list Z;
  led_count : Z
}.

Definition set_hdev (v : list hid_tx) (sc : sony_sc) : sony_sc :=
  let 'mk_sony_sc _ sd ls q sw so id l r mac swi di bc bs st don doff lc := sc in
  mk_sony_sc v sd ls q sw so id l r mac swi di bc bs st don doff lc.

Definition set_sensor_dev (v : list input_event) (sc : sony_sc) : sony_sc :=
  let 'mk_sony_sc hd _ ls q sw so id l r mac swi di bc bs st don doff lc := sc in
  mk_sony_sc hd v ls q sw so id l r mac swi di bc bs st don doff lc.

Definition set_state_worker (v : work_struct) (sc : sony_sc) : sony_sc :=
  let 'mk_sony_sc hd sd ls q _ so id l r mac swi di bc bs st don doff lc := sc in
  mk_sony_sc hd sd ls q v so id l r mac swi di bc bs st don doff lc.

Definition set_device_id (v : Z) (sc : sony_sc) : sony_sc :=
  let 'mk_sony_sc hd sd ls q sw so _ l r mac swi di bc bs st don doff lc := sc in
  mk_sony_sc hd sd ls q sw so v l r mac swi di bc bs st don doff lc.

Definition set_defer_initialization (v : Z) (sc : sony_sc) : sony_sc :=
  let 'mk_sony_sc hd sd ls q sw so id l r mac swi _ bc bs st don doff lc := sc in
  mk_sony_sc hd sd ls q sw so id l r mac swi v bc bs st don doff lc.

Definition set_battery_capacity (v : Z) (sc : sony_sc) : sony_sc :=
  let 'mk_sony_sc hd sd ls q sw so id l r mac swi di _ bs st don doff lc := sc in
  mk_sony_sc hd sd ls q sw so id l r mac swi di v bs st don doff lc.

Definition set_battery_status (v : power_supply_status) (sc : sony_sc) : sony_sc :=
  let 'mk_sony_sc hd sd ls q sw so id l r mac swi di bc _ st don doff lc := sc in
  mk_sony_sc hd sd ls q sw so id l r mac swi di bc v st don doff lc.

Definition set_led_state (v : list Z) (sc : sony_sc) : sony_sc :=
  let 'mk_sony_sc hd sd ls q sw so id l r mac swi di bc bs _ don doff lc := sc in
  mk_sony_sc hd sd ls q sw so id l r mac swi di bc bs v don doff lc.

Definition set_led_delay_on (v : list Z) (sc : sony_sc) : sony_sc :=
  let 'mk_sony_sc hd sd ls q sw so id l r mac swi di bc bs st _ doff lc := sc in
  mk_sony_sc hd sd ls q sw so id l r mac swi di bc bs st v doff lc.

Definition set_led_delay_off (v : list Z) (sc : sony_sc) : sony_sc :=
  let 'mk_sony_sc hd sd ls q sw so id l r mac swi di bc bs st don _ lc := sc in
  mk_sony_sc hd sd ls q sw so id l r mac swi di bc bs st don v lc.

(** ** Raw report memory *)

Definition buffer : Type := Z -> Z.

(** [rd[i] = v]. *)
Definition buf_store (rd : buffer) (i v : Z) : buffer :=
  fun k => if k =? i then v else rd k.

(** The kernel's [swap(rd[i], rd[j])]: save, overwrite, restore. *)
Definition buf_swap (rd : buffer) (i j : Z) : buffer :=
  let tmp := rd i in
  let rd1 := buf_store rd i (rd j) in
  buf_store rd1 j tmp.

(** A report given by its bytes, followed in memory by [beyond]. *)
Definition buffer_of_list (report : list Z) (beyond : buffer) : buffer :=
  fun k =>
    if (0 <=? k) && (k <? Z.of_nat (length report))
    then nth (Z.to_nat k) report 0
    else beyond k.

(** Every cell of the memory holds a [u8]. *)
Definition u8_buffer (rd : buffer) : Prop := forall i, 0 <= rd i < 256.

(** ** Output scheduler *)

(** The workqueue's [schedule_work]: queueing an item that is already
    pending changes nothing. *)
Definition schedule_work (w : work_struct) : work_struct :=
  if pending w then w else mk_work true.

Definition sony_schedule_work (sc : sony_sc) (which : sony_worker) : sony_sc :=
  match which with
  | SONY_WORKER_STATE =>
      if truthy (c_not (defer_initialization sc))
         && truthy (state_worker_initialized sc)
      then set_state_worker (schedule_work (state_worker sc)) sc
      else sc
  end.

(** ** Report codec: decode *)

Definition sixaxis_battery_capacity : list Z := [0; 1; 25; 50; 75; 100].

Definition sixaxis_parse_report (sc : sony_sc) (rd : buffer) (size : Z) : sony_sc :=
  let '(capacity, status) :=
    if rd 30 >=? 0xee then
      (100,
       if truthy (Z.land (rd 30) 0x01)
       then POWER_SUPPLY_STATUS_FULL else POWER_SUPPLY_STATUS_CHARGING)
    else
      let index := if rd 30 <=? 5 then rd 30 else 5 in
      (arr_get sixaxis_battery_capacity index, POWER_SUPPLY_STATUS_DISCHARGING) in
  let sc := set_battery_capacity capacity sc in
  let sc := set_battery_status status sc in
  if truthy (Z.land (quirks sc) SIXAXIS_CONTROLLER) then
    let offset := SIXAXIS_INPUT_REPORT_ACC_X_OFFSET in
    let x := Z.lor (Z.shiftl (rd (offset + 1)) 8) (rd offset) - 511 in
    (* Y and Z are swapped and inversed; offset + 35 is 76, which lies
       past the 49 bytes of the report *)
    let y := 511 - Z.lor (Z.shiftl (rd (offset + 35)) 8) (rd (offset + 4)) in
    let z := 511 - Z.lor (Z.shiftl (rd (offset + 3)) 8) (rd (offset + 2)) in
    set_sensor_dev
      (sensor_dev sc ++ [Report_abs ABS_X x; Report_abs ABS_Y y;
                         Report_abs ABS_Z z; Sync]) sc
  else sc.

(** The four byte swaps of [sony_raw_event]. *)
Definition sixaxis_swap_axes (rd : buffer) : buffer :=
  let rd := buf_swap rd 41 42 in
  let rd := buf_swap rd 43 44 in
  let rd := buf_swap rd 45 46 in
  buf_swap rd 47 48.

(** The tail of [sony_raw_event], after the Sixaxis block: the deferred
    first flush. *)
Definition sony_raw_event_deferred (sc : sony_sc) : sony_sc :=
  if truthy (defer_initialization sc) then
    let sc := set_defer_initialization 0 sc in
    sony_schedule_work sc SONY_WORKER_STATE
  else sc.

(** [sony_raw_event]: the return value, the session and the report memory
    after the call. *)
Definition sony_raw_event (sc : sony_sc) (rd : buffer) (size : Z)
  : Z * sony_sc * buffer :=
  if truthy (Z.land (quirks sc) SIXAXIS_CONTROLLER)
     && (rd 0 =? 0x01) && (size =? 49)
  then
    if rd 1 =? 0xff then (- EINVAL, sc, rd)
    else
      let rd := sixaxis_swap_axes rd in
      let sc := sixaxis_parse_report sc rd size in
      (0, sony_raw_event_deferred sc, rd)
  else (0, sony_raw_event_deferred sc, rd).

(** ** Report codec: encode *)

(** [struct sixaxis_led], five packed bytes. *)
Record sixaxis_led : Set := mk_sixaxis_led {
  time_enabled : Z;
  duty_length : Z;
  enabled : Z;
  duty_off : Z;
  duty_on : Z
}.

(** [struct sixaxis_rumble], five packed bytes. *)
Record sixaxis_rumble : Set := mk_sixaxis_rumble {
  rumble_padding : Z;
  right_duration : Z;
  right_motor_on : Z;
  left_duration : Z;
  left_motor_force : Z
}.

(** [struct sixaxis_output_report], 36 packed bytes. *)
Record sixaxis_output_report : Set := mk_sixaxis_output_report {
  report_id : Z;
  rumble : sixaxis_rumble;
  padding : list Z;
  leds_bitmap : Z;
  led : list sixaxis_led;
  reserved : sixaxis_led
}.

Definition set_leds_bitmap (v : Z) (r : sixaxis_output_report) : sixaxis_output_report :=
  mk_sixaxis_output_report
    (report_id r) (rumble r) (padding r) v (led r) (reserved r).

Definition set_led (v : list sixaxis_led) (r : sixaxis_output_report) : sixaxis_output_report :=
  mk_sixaxis_output_report
    (report_id r) (rumble r) (padding r) (leds_bitmap r) v (reserved r).

Definition set_rumble (v : sixaxis_rumble) (r : sixaxis_output_report) : sixaxis_output_report :=
  mk_sixaxis_output_report
    (report_id r) v (padding r) (leds_bitmap r) (led r) (reserved r).

(** Byte offsets of the packed layout. *)
Definition LEDS_BITMAP_OFFSET : nat := 10.
Definition LED_OFFSET (slot : nat) : nat := 11 + 5 * slot.

Definition led_of_buf (buf : list Z) (off : nat) : sixaxis_led :=
  mk_sixaxis_led (nth off buf 0) (nth (off + 1) buf 0) (nth (off + 2) buf 0)
                 (nth (off + 3) buf 0) (nth (off + 4) buf 0).

Definition buf_of_led (l : sixaxis_led) : list Z :=
  [time_enabled l; duty_length l; enabled l; duty_off l; duty_on l].

(** The struct view of the 36-byte union. *)
Definition report_of_buf (buf : list Z) : sixaxis_output_report :=
  mk_sixaxis_output_report
    (nth 0%nat buf 0)
    (mk_sixaxis_rumble (nth 1%nat buf 0) (nth 2%nat buf 0) (nth 3%nat buf 0)
                       (nth 4%nat buf 0) (nth 5%nat buf 0))
    [nth 6%nat buf 0; nth 7%nat buf 0; nth 8%nat buf 0; nth 9%nat buf 0]
    (nth LEDS_BITMAP_OFFSET buf 0)
    [led_of_buf buf (LED_OFFSET 0); led_of_buf buf (LED_OFFSET 1);
     led_of_buf buf (LED_OFFSET 2); led_of_buf buf (LED_OFFSET 3)]
    (led_of_buf buf (LED_OFFSET 4)).

(** The bytes of the struct, as handed to the transport. *)
Definition buf_of_report (r : sixaxis_output_report) : list Z :=
  [report_id r]
  ++ [rumble_padding (rumble r); right_duration (rumble r);
      right_motor_on (rumble r); left_duration (rumble r);
      left_motor_force (rumble r)]
  ++ padding r
  ++ [leds_bitmap r]
  ++ concat (map buf_of_led (led r))
  ++ buf_of_led (reserved r).

Definition default_report : list Z :=
  [0x01;
   0x01; 0xff; 0x00; 0xff; 0x00;
   0x00; 0x00; 0x00; 0x00; 0x00;
   0xff; 0x27; 0x10; 0x00; 0x32;
   0xff; 0x27; 0x10; 0x00; 0x32;
   0xff; 0x27; 0x10; 0x00; 0x32;
   0xff; 0x27; 0x10; 0x00; 0x32;
   0x00; 0x00; 0x00; 0x00; 0x00].

(** [report->leds_bitmap |= v], stored back into a [u8]. *)
Definition or_leds_bitmap (v : Z) (r : sixaxis_output_report) : sixaxis_output_report :=
  set_leds_bitmap (to_u8 (Z.lor (leds_bitmap r) v)) r.

(** One round of the timing loop, for logical LED [n]. *)
Definition sixaxis_led_timing (sc : sony_sc) (r : sixaxis_output_report) (n : Z)
  : sixaxis_output_report :=
  if truthy (arr_get (led_delay_on sc) n) || truthy (arr_get (led_delay_off sc) n)
  then
    set_led
      (alter (fun l => mk_sixaxis_led (time_enabled l) (duty_length l) (enabled l)
                         (arr_get (led_delay_off sc) n)
                         (arr_get (led_delay_on sc) n))
             (Z.to_nat (3 - n)) (led r)) r
  else r.

(** The report that [sixaxis_send_output_report] builds before sending it.
    [CONFIG_SONY_FF] is the build option that compiles the rumble lines. *)
Definition sixaxis_build_report (CONFIG_SONY_FF : bool) (sc : sony_sc)
  : sixaxis_output_report :=
  (* Initialize the report with default values *)
  let report := report_of_buf default_report in
  let report :=
    if CONFIG_SONY_FF then
      set_rumble
        (mk_sixaxis_rumble (rumble_padding (rumble report))
           (right_duration (rumble report))
           (if truthy (right sc) then 1 else 0)
           (left_duration (rumble report))
           (left sc)) report
    else report in
  let report := or_leds_bitmap (Z.shiftl (arr_get (led_state sc) 0) 1) report in
  let report := or_leds_bitmap (Z.shiftl (arr_get (led_state sc) 1) 2) report in
  let report := or_leds_bitmap (Z.shiftl (arr_get (led_state sc) 2) 3) report in
  let report := or_leds_bitmap (Z.shiftl (arr_get (led_state sc) 3) 4) report in
  (* Set flag for all leds off, required for 3rd party INTEC controller *)
  let report :=
    if Z.land (leds_bitmap report) 0x1E =? 0
    then or_leds_bitmap 0x20 report else report in
  fold_left (sixaxis_led_timing sc) [0; 1; 2; 3] report.

Definition sixaxis_send_output_report (CONFIG_SONY_FF : bool) (sc : sony_sc) : sony_sc :=
  let report := sixaxis_build_report CONFIG_SONY_FF sc in
  set_hdev (hdev sc ++ [Hw_raw_request (report_id report) (buf_of_report report)]) sc.

(** ** The state worker and the workqueue *)

(** [sony_state_worker] calls through the function pointer; [None] is the
    call through a null pointer. *)
Definition sony_state_worker (CONFIG_SONY_FF : bool) (sc : sony_sc) : option sony_sc :=
  match send_output_report sc with
  | send_sixaxis => Some (sixaxis_send_output_report CONFIG_SONY_FF sc)
  | send_null => None
  end.

(** One scheduler tick of the kernel workqueue: a pending item has its
    pending bit cleared and its function run once; nothing runs otherwise. *)
Definition workqueue_tick (CONFIG_SONY_FF : bool) (sc : sony_sc) : option sony_sc :=
  if pending (state_worker sc)
  then sony_state_worker CONFIG_SONY_FF (set_state_worker (mk_work false) sc)
  else Some sc.

(** ** LED mutators *)

Definition sixaxis_leds : list (list Z) :=
  [[0x01; 0x00; 0x00; 0x00];
   [0x00; 0x01; 0x00; 0x00];
   [0x00; 0x00; 0x01; 0x00];
   [0x00; 0x00; 0x00; 0x01];
   [0x01; 0x00; 0x00; 0x01];
   [0x00; 0x01; 0x00; 0x01];
   [0x00; 0x00; 0x01; 0x01];
   [0x01; 0x00; 0x01; 0x01];
   [0x00; 0x01; 0x01; 0x01];
   [0x01; 0x01; 0x01; 0x01]].

(** [sixaxis_set_leds_from_id]: the [memcpy] overwrites the first four
    LED states with the row of the table. *)
Definition sixaxis_set_leds_from_id (sc : sony_sc) : sony_sc :=
  let id := device_id sc in
  if id <? 0 then sc
  else
    let id := Z.rem id 10 in
    let row := nth (Z.to_nat id) sixaxis_leds [] in
    set_led_state (row ++ skipn (length row) (led_state sc)) sc.

Definition buzz_set_leds (sc : sony_sc) : sony_sc :=
  let value :=
    [0x00;
     if truthy (arr_get (led_state sc) 0) then 0xff else 0x00;
     if truthy (arr_get (led_state sc) 1) then 0xff else 0x00;
     if truthy (arr_get (led_state sc) 2) then 0xff else 0x00;
     if truthy (arr_get (led_state sc) 3) then 0xff else 0x00;
     0x00;
     0x00] in
  set_hdev (hdev sc ++ [Hw_request value]) sc.

Definition sony_set_leds (sc : sony_sc) : sony_sc := buzz_set_leds sc.

(** The indices [0 .. led_count - 1] that the LED loops walk. *)
Definition led_indices (sc : sony_sc) : list Z :=
  map Z.of_nat (seq 0 (Z.to_nat (led_count sc))).

Fixpoint led_set_brightness_loop (ns : list Z) (sc : sony_sc) (led0 value force_update : Z)
  : sony_sc :=
  match ns with
  | [] => sc
  | n :: rest =>
      if (led0 =? arr_get (leds sc) n)
         && (truthy force_update
             || (negb (value =? arr_get (led_state sc) n)
                 || truthy (arr_get (led_delay_on sc) n)
                 || truthy (arr_get (led_delay_off sc) n)))
      then
        let sc := set_led_state (arr_set (led_state sc) n (to_u8 value)) sc in
        (* Setting the brightness stops the blinking *)
        let sc := set_led_delay_on (arr_set (led_delay_on sc) n 0) sc in
        let sc := set_led_delay_off (arr_set (led_delay_off sc) n 0) sc in
        sony_set_leds sc
      else led_set_brightness_loop rest sc led0 value force_update
  end.

(** [sony_led_set_brightness] for the LED object at address [led0] of a
    device that has its driver data. *)
Definition sony_led_set_brightness (sc : sony_sc) (led0 value : Z) : sony_sc :=
  let force_update := c_not (c_not (Z.land (quirks sc) SIXAXIS_CONTROLLER_USB)) in
  led_set_brightness_loop (led_indices sc) sc led0 value force_update.

(** The search loop of [sony_led_blink_set]: the first index whose LED is
    [led0], or [led_count] when the loop runs out. *)
Fixpoint led_blink_find (ns : list Z) (sc : sony_sc) (led0 : Z) : Z :=
  match ns with
  | [] => led_count sc
  | n :: rest => if led0 =? arr_get (leds sc) n then n else led_blink_find rest sc led0
  end.

(** [sony_led_blink_set]: the return value, the session, and the two
    delays written back through the pointers. *)
Definition sony_led_blink_set (sc : sony_sc) (led0 delay_on delay_off : Z)
  : Z * sony_sc * Z * Z :=
  (* Max delay is 255 deciseconds or 2550 milliseconds *)
  let delay_on := if delay_on >? 2550 then 2550 else delay_on in
  let delay_off := if delay_off >? 2550 then 2550 else delay_off in
  (* Blink at 1 Hz if both values are zero *)
  let '(delay_on, delay_off) :=
    if (delay_on =? 0) && (delay_off =? 0) then (500, 500)
    else (delay_on, delay_off) in
  let new_on := to_u8 (delay_on / 10) in
  let new_off := to_u8 (delay_off / 10) in
  let n := led_blink_find (led_indices sc) sc led0 in
  (* This LED is not registered on this device *)
  if n >=? led_count sc then (- EINVAL, sc, delay_on, delay_off)
  else
    (* Don't schedule work if the values didn't change *)
    if negb (new_on =? arr_get (led_delay_on sc) n)
       || negb (new_off =? arr_get (led_delay_off sc) n)
    then
      let sc := set_led_delay_on (arr_set (led_delay_on sc) n new_on) sc in
      let sc := set_led_delay_off (arr_set (led_delay_off sc) n new_off) sc in
      (0, sony_schedule_work sc SONY_WORKER_STATE, delay_on, delay_off)
    else (0, sc, delay_on, delay_off).

(** ** Identity registry *)

(** [memcmp] over the first [n] bytes: zero when they agree, else the
    difference of the first pair that differs. *)
Fixpoint memcmp (s1 s2 : list Z) (n : nat) : Z :=
  match n, s1, s2 with
  | S k, a :: s1', b :: s2' => if a =? b then memcmp s1' s2' k else a - b
  | _, _, _ => 0
  end.

Definition sony_compare_connection_type (sc0 sc1 : sony_sc) : Z :=
  let sc0_not_bt := c_not (Z.land (quirks sc0) SONY_BT_DEVICE) in
  let sc1_not_bt := c_not (Z.land (quirks sc1) SONY_BT_DEVICE) in
  if sc0_not_bt =? sc1_not_bt then 1 else 0.

(** The scan of [sony_check_add_dev_list]: the result decided at the first
    entry with the same address, or [None] when the walk ends. *)
Fixpoint dev_list_scan (sc : sony_sc) (entries : list sony_sc) : option Z :=
  match entries with
  | [] => None
  | entry :: rest =>
      let ret := memcmp (mac_address sc) (mac_address entry) 6 in
      if truthy (c_not ret) then
        if truthy (sony_compare_connection_type sc entry)
        then Some 1
        else Some (- EEXIST)
      else dev_list_scan sc rest
  end.

(** [sony_check_add_dev_list] on the global [sony_device_list]: the return
    value and the list after the call ([list_add] links at the head). *)
Definition sony_check_add_dev_list (sc : sony_sc) (sony_device_list : list sony_sc)
  : Z * list sony_sc :=
  match dev_list_scan sc sony_device_list with
  | Some ret => (ret, sony_device_list)
  | None => (0, sc :: sony_device_list)
  end.

(** ** Numeric device ids *)

(** The id allocator: the ids handed out and not yet freed, and the
    [ida_free] calls received so far, oldest first. *)
Record ida : Type := mk_ida {
  ida_allocated : gset Z;
  ida_free_calls : list Z
}.

Definition ida_free (a : ida) (id : Z) : ida :=
  mk_ida (ida_allocated a ∖ {[id]}) (ida_free_calls a ++ [id]).

(** [sony_release_device_id] on the session and the global allocator. *)
Definition sony_release_device_id (sc : sony_sc) (sony_device_id_allocator : ida)
  : sony_sc * ida :=
  if device_id sc >=? 0 then
    let a := ida_free sony_device_id_allocator (device_id sc) in
    (set_device_id (-1) sc, a)
  else (sc, sony_device_id_allocator).

(** ** Sessions used in examples *)

(** A session as [devm_kzalloc] leaves it, with [quirks] filled in by the
    probe. *)
Definition fresh_sc (q : Z) : sony_sc :=
  mk_sony_sc [] [] [0; 0; 0; 0] q (mk_work false) send_null 0 0 0
             [0; 0; 0; 0; 0; 0] 0 0 0 POWER_SUPPLY_STATUS_UNKNOWN
             [0; 0; 0; 0] [0; 0; 0; 0] [0; 0; 0; 0] 0.

(** A 49-byte report with the given bytes at offsets 0, 1, 30 and 41..48,
    zero elsewhere. *)
Definition report49 (b0 b1 b30 : Z) (acc : list Z) : list Z :=
  [b0; b1] ++ repeat 0 28%nat ++ [b30] ++ repeat 0 10%nat ++ firstn 8 (acc ++ repeat 0 8%nat).

(** A Sixaxis session after [sony_input_configured]: worker initialised,
    encoder installed, four LEDs registered at addresses 101..104, numeric
    id 0 and its LED pattern.  [defer] is the deferred-first-flush latch. *)
Definition sixaxis_session (q defer : Z) : sony_sc :=
  mk_sony_sc [] [] [101; 102; 103; 104] q (mk_work false) send_sixaxis 0 0 0
             [0x11; 0x22; 0x33; 0x44; 0x55; 0x66] 1 defer 100
             POWER_SUPPLY_STATUS_UNKNOWN
             [1; 0; 0; 0] [0; 0; 0; 0] [0; 0; 0; 0] 4.

(** The session a registration of address [mac] over the transport of
    [q] brings to the registry. *)
Definition session_with_mac (q : Z) (mac : list Z) : sony_sc :=
  mk_sony_sc [] [] [0; 0; 0; 0] q (mk_work false) send_null 0 0 0
             mac 0 0 0 POWER_SUPPLY_STATUS_UNKNOWN
             [0; 0; 0; 0] [0; 0; 0; 0] [0; 0; 0; 0] 0.

(** ** Vocabulary of the statements *)

(** The offset of the incoming report whose byte is found at offset [k]
    once [sony_raw_event] has swapped: the pairs 41/42, 43/44, 45/46 and
    47/48 are exchanged, every other offset is itself. *)
Definition wire_offset (k : Z) : Z :=
  if k =? 41 then 42 else if k =? 42 then 41
  else if k =? 43 then 44 else if k =? 44 then 43
  else if k =? 45 then 46 else if k =? 46 then 45
  else if k =? 47 then 48 else if k =? 48 then 47
  else k.

(** A run of [sony_led_set_brightness] calls, each an LED address and a
    brightness, in order. *)
Definition set_led_calls (calls : list (Z * Z)) (sc : sony_sc) : sony_sc :=
  fold_left (fun sc c => sony_led_set_brightness sc (fst c) (snd c)) calls sc.

(** A run of [sony_led_blink_set] calls, each an LED address and the two
    delays, in order. *)
Definition blink_set_calls (calls : list (Z * Z * Z)) (sc : sony_sc) : sony_sc :=
  fold_left
    (fun sc c =>
       let '(led0, delay_on, delay_off) := c in
       let '(_, sc', _, _) := sony_led_blink_set sc led0 delay_on delay_off in
       sc')
    calls sc.

(** The raw request that a flush of session [sc] puts on the transport. *)
Definition flush_of (CONFIG_SONY_FF : bool) (sc : sony_sc) : hid_tx :=
  Hw_raw_request (report_id (sixaxis_build_report CONFIG_SONY_FF sc))
                 (buf_of_report (sixaxis_build_report CONFIG_SONY_FF sc)).

(** The four LED states are 0 or 1: what the id table holds, and what the
    LED class passes to [sony_led_set_brightness] for LEDs registered, as
    [sony_leds_init] does, with a maximum brightness of 1. *)
Definition led_states_boolean (sc : sony_sc) : Prop :=
  forall n, 0 <= n < 4 ->
    arr_get (led_state sc) n = 0 \/ arr_get (led_state sc) n = 1.

(** The is-Bluetooth classification of a connection. *)
Definition is_bluetooth (sc : sony_sc) : bool :=
  truthy (Z.land (quirks sc) SONY_BT_DEVICE).

(** The timing slot [k] of the factory-default template. *)
Definition default_led (k : nat) : sixaxis_led :=
  led_of_buf default_report (LED_OFFSET k).

(** The timing slot [k] of a report; slots past the array read as the
    reserved fifth entry. *)
Definition led_slot (r : sixaxis_output_report) (k : nat) : sixaxis_led :=
  nth k (led r) (reserved r).

(** ** The rest of the driver *)

Definition set_send_output_report (v : output_report_fn) (sc : sony_sc) : sony_sc :=
  let 'mk_sony_sc hd sd ls q sw _ id l r mac swi di bc bs st don doff lc := sc in
  mk_sony_sc hd sd ls q sw v id l r mac swi di bc bs st don doff lc.

Definition set_left (v : Z) (sc : sony_sc) : sony_sc :=
  let 'mk_sony_sc hd sd ls q sw so id _ r mac swi di bc bs st don doff lc := sc in
  mk_sony_sc hd sd ls q sw so id v r mac swi di bc bs st don doff lc.

Definition set_right (v : Z) (sc : sony_sc) : sony_sc :=
  let 'mk_sony_sc hd sd ls q sw so id l _ mac swi di bc bs st don doff lc := sc in
  mk_sony_sc hd sd ls q sw so id l v mac swi di bc bs st don doff lc.

Definition set_mac_address (v : list Z) (sc : sony_sc) : sony_sc :=
  let 'mk_sony_sc hd sd ls q sw so id l r _ swi di bc bs st don doff lc := sc in
  mk_sony_sc hd sd ls q sw so id l r v swi di bc bs st don doff lc.

Definition set_state_worker_initialized (v : Z) (sc : sony_sc) : sony_sc :=
  let 'mk_sony_sc hd sd ls q sw so id l r mac _ di bc bs st don doff lc := sc in
  mk_sony_sc hd sd ls q sw so id l r mac v di bc bs st don doff lc.

(** [sony_report_fixup] on a descriptor of [*rsize = length rdesc] bytes:
    the descriptor after the call. *)
Definition sony_report_fixup (sc : sony_sc) (rdesc : list Z) : list Z :=
  let rsize := Z.of_nat (length rdesc) in
  if truthy (Z.land (quirks sc) SIXAXIS_CONTROLLER_USB) && (rsize >=? 45)
     (* Report Count (13) *)
     && (arr_get rdesc 23 =? 0x95) && (arr_get rdesc 24 =? 0x0D)
     (* Usage Maximum (13) *)
     && (arr_get rdesc 37 =? 0x29) && (arr_get rdesc 38 =? 0x0D)
     (* Report Count (3) *)
     && (arr_get rdesc 43 =? 0x95) && (arr_get rdesc 44 =? 0x03)
  then
    let rdesc := arr_set rdesc 24 0x10 in
    let rdesc := arr_set rdesc 38 0x10 in
    arr_set rdesc 44 0x00
  else rdesc.

(** Usage masks and event codes of the kernel's [hid.h] and
    [input-event-codes.h]. *)
Definition HID_USAGE_PAGE : Z := 0xffff0000.
Definition HID_UP_MSVENDOR : Z := 0xff000000.
Definition HID_USAGE : Z := 0x0000ffff.
Definition GUITAR_TILT_USAGE : Z := 44.
Definition EV_ABS : Z := 0x03.
Definition ABS_RY : Z := 0x04.
Definition FF_RUMBLE : Z := 0x50.
Definition LED_OFF : Z := 0.

(** [guitar_mapping] on the usage [usage->hid]: the return value and the
    (event type, code) pair handed to [hid_map_usage_clear], if any. *)
Definition guitar_mapping (usage_hid : Z) : Z * option (Z * Z) :=
  if Z.land usage_hid HID_USAGE_PAGE =? HID_UP_MSVENDOR then
    let abs := Z.land usage_hid HID_USAGE in
    if abs =? GUITAR_TILT_USAGE then (1, Some (EV_ABS, ABS_RY))
    else (0, None)
  else (0, None).

Fixpoint led_get_brightness_loop (ns : list Z) (sc : sony_sc) (led0 : Z) : Z :=
  match ns with
  | [] => LED_OFF
  | n :: rest =>
      if led0 =? arr_get (leds sc) n then arr_get (led_state sc) n
      else led_get_brightness_loop rest sc led0
  end.

(** [sony_led_get_brightness] for the LED object at address [led0] of a
    device that has its driver data. *)
Definition sony_led_get_brightness (sc : sony_sc) (led0 : Z) : Z :=
  led_get_brightness_loop (led_indices sc) sc led0.

(** The properties [sony_battery_get_property] tells apart; every other
    member of [enum power_supply_property] is [POWER_SUPPLY_PROP_other]. *)
Inductive power_supply_property : Set :=
| POWER_SUPPLY_PROP_PRESENT
| POWER_SUPPLY_PROP_CAPACITY
| POWER_SUPPLY_PROP_SCOPE
| POWER_SUPPLY_PROP_STATUS
| POWER_SUPPLY_PROP_other (psp : Z).

(** The integer of an [enum power_supply_status] member. *)
Definition power_supply_status_value (s : power_supply_status) : Z :=
  match s with
  | POWER_SUPPLY_STATUS_UNKNOWN => 0
  | POWER_SUPPLY_STATUS_CHARGING => 1
  | POWER_SUPPLY_STATUS_DISCHARGING => 2
  | POWER_SUPPLY_STATUS_NOT_CHARGING => 3
  | POWER_SUPPLY_STATUS_FULL => 4
  end.

Definition POWER_SUPPLY_SCOPE_DEVICE : Z := 2.

(** [sony_battery_get_property]: the return value and [val->intval] after
    the call, [intval] being what it held before. *)
Definition sony_battery_get_property (sc : sony_sc) (psp : power_supply_property)
    (intval : Z) : Z * Z :=
  let battery_capacity := battery_capacity sc in
  let battery_status := battery_status sc in
  match psp with
  | POWER_SUPPLY_PROP_PRESENT => (0, 1)
  | POWER_SUPPLY_PROP_SCOPE => (0, POWER_SUPPLY_SCOPE_DEVICE)
  | POWER_SUPPLY_PROP_CAPACITY => (0, battery_capacity)
  | POWER_SUPPLY_PROP_STATUS => (0, power_supply_status_value battery_status)
  | POWER_SUPPLY_PROP_other _ => (- EINVAL, intval)
  end.

(** [sony_play_effect] (built with [CONFIG_SONY_FF]) for an effect of type
    [effect_type] with the two rumble magnitudes. *)
Definition sony_play_effect (sc : sony_sc)
    (effect_type strong_magnitude weak_magnitude : Z) : Z * sony_sc :=
  if negb (effect_type =? FF_RUMBLE) then (0, sc)
  else
    let sc := set_left (to_u8 (strong_magnitude / 256)) sc in
    let sc := set_right (to_u8 (weak_magnitude / 256)) sc in
    (0, sony_schedule_work sc SONY_WORKER_STATE).

(** [sony_send_output_report] (built with [CONFIG_SONY_FF]): the call
    through the function pointer, skipped when the pointer is null. *)
Definition sony_send_output_report (sc : sony_sc) : sony_sc :=
  match send_output_report sc with
  | send_sixaxis => sixaxis_send_output_report true sc
  | send_null => sc
  end.

(** [sony_suspend]: the return value and the session. *)
Definition sony_suspend (CONFIG_SONY_FF : bool) (sc : sony_sc) : Z * sony_sc :=
  if CONFIG_SONY_FF then
    (* On suspend stop any running force-feedback events *)
    if truthy SONY_FF_SUPPORT then
      let sc := set_right 0 sc in
      let sc := set_left (right sc) sc in
      (0, sony_send_output_report sc)
    else (0, sc)
  else (0, sc).

Definition sony_init_output_report (sc : sony_sc) (fn : output_report_fn) : sony_sc :=
  let sc := set_send_output_report fn sc in
  let sc :=
    if truthy (c_not (state_worker_initialized sc))
    then set_state_worker (mk_work false) sc   (* INIT_WORK *)
    else sc in
  set_state_worker_initialized 1 sc.

(** The workqueue's [cancel_work_sync]: on return the item is neither
    pending nor running. *)
Definition cancel_work_sync (w : work_struct) : work_struct := mk_work false.

Definition sony_cancel_work_sync (sc : sony_sc) : sony_sc :=
  if truthy (state_worker_initialized sc) then
    let sc := set_state_worker_initialized 0 sc in
    set_state_worker (cancel_work_sync (state_worker sc)) sc
  else sc.

(** The search of [ida_alloc]: the first id from [id] on that is not
    allocated, looking at [fuel] ids at most before settling. *)
Fixpoint ida_first_free (allocated : gset Z) (fuel : nat) (id : Z) : Z :=
  match fuel with
  | O => id
  | S fuel' =>
      if decide (id ∈ allocated) then ida_first_free allocated fuel' (id + 1)
      else id
  end.

(** The kernel's [ida_alloc]: the smallest id not in use, or the negative
    error [failure] when the allocation cannot be made. *)
Definition ida_alloc (a : ida) (failure : option Z) : Z * ida :=
  match failure with
  | Some err => (err, a)
  | None =>
      let id := ida_first_free (ida_allocated a) (size (ida_allocated a)) 0 in
      (id, mk_ida ({[id]} ∪ ida_allocated a) (ida_free_calls a))
  end.

(** [sony_set_device_id] on the session and the global allocator. *)
Definition sony_set_device_id (sc : sony_sc) (sony_device_id_allocator : ida)
    (failure : option Z) : Z * sony_sc * ida :=
  (* Only Sixaxis controllers get an id.  All others are set to -1. *)
  if truthy (Z.land (quirks sc) SIXAXIS_CONTROLLER) then
    let '(ret, a) := ida_alloc sony_device_id_allocator failure in
    if ret <? 0 then (ret, set_device_id (-1) sc, a)
    else (0, set_device_id ret sc, a)
  else (0, set_device_id (-1) sc, sony_device_id_allocator).

(** The copy loop of [sony_check_add]: [mac_address[5-n] = buf[4+n]]. *)
Definition sixaxis_mac_of_report (sc : sony_sc) (buf : list Z) : sony_sc :=
  fold_left
    (fun sc n =>
       set_mac_address (arr_set (mac_address sc) (5 - n) (arr_get buf (4 + n))) sc)
    [0; 1; 2; 3; 4; 5] sc.

(** [sony_check_add].  What the calls that leave the driver answer is
    given: [bt_devaddr] is the return value of [sony_get_bt_devaddr] and
    the address bytes it leaves in the session; [f2] is [None] when
    [kmalloc] fails, and otherwise the return value of the feature request
    0xf2 and the buffer it filled.  The result is the return value, the
    session and the device list.  The [uniq] string that the USB branch
    rewrites belongs to the HID device and is not part of the session. *)
Definition sony_check_add (sc : sony_sc) (bt_devaddr : Z * list Z)
    (f2 : option (Z * list Z)) (sony_device_list : list sony_sc)
  : Z * sony_sc * list sony_sc :=
  if truthy (Z.land (quirks sc) SIXAXIS_CONTROLLER_BT) then
    let sc := set_mac_address (snd bt_devaddr) sc in
    if fst bt_devaddr <? 0 then (0, sc, sony_device_list)
    else
      let '(ret, l) := sony_check_add_dev_list sc sony_device_list in
      (ret, sc, l)
  else if truthy (Z.land (quirks sc) SIXAXIS_CONTROLLER_USB) then
    match f2 with
    | None => (- ENOMEM, sc, sony_device_list)
    | Some (ret, buf) =>
        if negb (ret =? 17) then
          ((if ret <? 0 then ret else - EINVAL), sc, sony_device_list)
        else
          let sc := sixaxis_mac_of_report sc buf in
          let '(ret, l) := sony_check_add_dev_list sc sony_device_list in
          (ret, sc, l)
    end
  else (0, sc, sony_device_list).

(** The mutators that reach the transport through the scheduler. *)
Inductive scheduled_mutation : Set :=
| Blink_set (led0 delay_on delay_off : Z)
| Play_effect (effect_type strong_magnitude weak_magnitude : Z).

Definition apply_mutation (sc : sony_sc) (m : scheduled_mutation) : sony_sc :=
  match m with
  | Blink_set led0 delay_on delay_off =>
      let '(_, sc', _, _) := sony_led_blink_set sc led0 delay_on delay_off in sc'
  | Play_effect effect_type strong weak =>
      snd (sony_play_effect sc effect_type strong weak)
  end.

(** A run of such mutations, in order. *)
Definition apply_mutations (ms : list scheduled_mutation) (sc : sony_sc) : sony_sc :=
  fold_left apply_mutation ms sc.

(** The arrays of the session have their declared sizes. *)
Definition sc_arrays_sized (sc : sony_sc) : Prop :=
  length (leds sc) = 4%nat /\ length (led_state sc) = 4%nat /\
  length (led_delay_on sc) = 4%nat /\ length (led_delay_off sc) = 4%nat /\
  length (mac_address sc) = 6%nat /\ 0 <= led_count sc <= 4.

(** The session has its four LEDs registered, as [sony_leds_init] leaves
    it: four distinct LED objects and a count of 4. *)
Definition leds_registered (sc : sony_sc) : Prop :=
  sc_arrays_sized sc /\ led_count sc = 4 /\ NoDup (leds sc).

(** The delays that [sony_led_blink_set] settles on and writes back: each
    capped at 2550 ms, and 500 ms each when both are zero. *)
Definition blink_delays (delay_on delay_off : Z) : Z * Z :=
  let delay_on := if delay_on >? 2550 then 2550 else delay_on in
  let delay_off := if delay_off >? 2550 then 2550 else delay_off in
  if (delay_on =? 0) && (delay_off =? 0) then (500, 500)
  else (delay_on, delay_off).

(** ** Proof steps used throughout *)

(** Case analysis on the condition of a conditional in the goal. *)
Ltac destruct_if :=
  match goal with |- context [if ?c then _ else _] => destruct c end.

(** The four values of an LED index. *)
Ltac led_index_cases n :=
  let Hc := fresh "Hc" in
  assert (Hc : n = 0 \/ n = 1 \/ n = 2 \/ n = 3) by lia;
  destruct Hc as [-> | [-> | [-> | ->]]].

(* ================================================================== *)
(** * Properties *)

(** ** Basic facts *)

Lemma truthy_land_1 (x : Z) : truthy (Z.land x 1) = Z.testbit x 0.
Proof.
  unfold truthy. change 1 with (Z.ones 1). rewrite Z.land_ones by lia.
  change (2 ^ 1) with 2. rewrite <- Z.bit0_mod.
  destruct (Z.testbit x 0); reflexivity.
Qed.

Lemma truthy_true (z : Z) : truthy z = true <-> z <> 0.
Proof. unfold truthy. destruct (Z.eqb_spec z 0); simpl; split; congruence. Qed.

Lemma truthy_false (z : Z) : truthy z = false <-> z = 0.
Proof. unfold truthy. destruct (Z.eqb_spec z 0); simpl; split; congruence. Qed.

Lemma truthy_c_not (z : Z) : truthy (c_not z) = (z =? 0).
Proof. unfold truthy, c_not. destruct (z =? 0); reflexivity. Qed.

(** The battery fields that [sixaxis_parse_report] stores do not depend on
    the accelerometer branch. *)
Lemma sixaxis_parse_report_battery (sc : sony_sc) (rd : buffer) (size : Z) :
  (battery_capacity (sixaxis_parse_report sc rd size),
   battery_status (sixaxis_parse_report sc rd size)) =
  if rd 30 >=? 0xee then
    (100, if truthy (Z.land (rd 30) 0x01)
          then POWER_SUPPLY_STATUS_FULL else POWER_SUPPLY_STATUS_CHARGING)
  else
    (arr_get sixaxis_battery_capacity (if rd 30 <=? 5 then rd 30 else 5),
     POWER_SUPPLY_STATUS_DISCHARGING).
Proof.
  unfold sixaxis_parse_report. destruct sc; simpl.
  destruct (rd 30 >=? 238); simpl;
    match goal with |- context [truthy (Z.land ?q SIXAXIS_CONTROLLER)] =>
      destruct (truthy (Z.land q SIXAXIS_CONTROLLER)) end; reflexivity.
Qed.

(** ** C2: battery byte *)

(** C2. The battery byte at offset 30 of a decoded report: a raw value of
    at least 0xEE gives capacity 100, status Full when the low bit is set
    and Charging when it is clear; a raw value below 0xEE is clamped to at
    most 5 and looked up in the table 0, 1, 25, 50, 75, 100, with status
    Discharging. *)
Theorem sixaxis_battery_mapping (sc : sony_sc) (rd : buffer) (size : Z)
    (Hbyte : 0 <= rd 30 < 256) :
  let sc' := sixaxis_parse_report sc rd size in
  (0xEE <= rd 30 ->
     battery_capacity sc' = 100 /\
     battery_status sc' =
       if Z.testbit (rd 30) 0
       then POWER_SUPPLY_STATUS_FULL else POWER_SUPPLY_STATUS_CHARGING) /\
  (rd 30 < 0xEE ->
     battery_capacity sc' = nth (Z.to_nat (Z.min (rd 30) 5)) [0; 1; 25; 50; 75; 100] 0 /\
     battery_status sc' = POWER_SUPPLY_STATUS_DISCHARGING).
Proof.
  intros sc'. pose proof (sixaxis_parse_report_battery sc rd size) as H.
  fold sc' in H. split; intros Hraw.
  - destruct (Z.geb_spec (rd 30) 0xee) as [_|]; [|lia].
    rewrite truthy_land_1 in H. injection H as -> ->. split; reflexivity.
  - destruct (Z.geb_spec (rd 30) 0xee) as [|_]; [lia|].
    injection H as -> ->. split; [|reflexivity].
    destruct (Z.leb_spec (rd 30) 5) as [Hle|Hgt].
    + rewrite Z.min_l by lia. unfold arr_get.
      assert (Hc : rd 30 = 0 \/ rd 30 = 1 \/ rd 30 = 2 \/ rd 30 = 3
                   \/ rd 30 = 4 \/ rd 30 = 5) by lia.
      destruct Hc as [-> | [-> | [-> | [-> | [-> | ->]]]]]; reflexivity.
    + rewrite Z.min_r by lia. reflexivity.
Qed.

Lemma sixaxis_battery_mapping_witness :
  let rd := buffer_of_list (report49 1 0 3 []) (fun _ => 0) in
  let sc' := sixaxis_parse_report (fresh_sc SIXAXIS_CONTROLLER_USB) rd 49 in
  0 <= rd 30 < 256 /\
  battery_capacity sc' = 50 /\
  battery_status sc' = POWER_SUPPLY_STATUS_DISCHARGING.
Proof.
  intros rd sc'.
  assert (Hb : 0 <= rd 30 < 256) by (vm_compute; split; congruence).
  split; [exact Hb|].
  exact (proj2 (sixaxis_battery_mapping (fresh_sc SIXAXIS_CONTROLLER_USB) rd 49 Hb)
               ltac:(vm_compute; reflexivity)).
Defined.

(** The worked values of the battery mapping: raw 3 is 50 per cent and raw
    9 is clamped to the last entry, both discharging; 0xEE is charging and
    0xEF is full, both at 100 per cent. *)
Example sixaxis_battery_examples :
  let decode raw :=
    let sc' := sixaxis_parse_report (fresh_sc SIXAXIS_CONTROLLER_BT)
                 (buffer_of_list (report49 1 0 raw []) (fun _ => 0)) 49 in
    (battery_capacity sc', battery_status sc') in
  decode 3 = (50, POWER_SUPPLY_STATUS_DISCHARGING) /\
  decode 9 = (100, POWER_SUPPLY_STATUS_DISCHARGING) /\
  decode 0xEE = (100, POWER_SUPPLY_STATUS_CHARGING) /\
  decode 0xEF = (100, POWER_SUPPLY_STATUS_FULL).
Proof. vm_compute. repeat split. Qed.

(** ** The input path, [sony_raw_event] *)

(** What [sixaxis_parse_report] leaves alone. *)
Lemma sixaxis_parse_report_frame (sc : sony_sc) (rd : buffer) (size : Z) :
  let sc' := sixaxis_parse_report sc rd size in
  hdev sc' = hdev sc /\ state_worker sc' = state_worker sc /\
  defer_initialization sc' = defer_initialization sc /\
  state_worker_initialized sc' = state_worker_initialized sc /\
  send_output_report sc' = send_output_report sc /\
  quirks sc' = quirks sc.
Proof.
  unfold sixaxis_parse_report. destruct sc; simpl.
  destruct (rd 30 >=? 238); simpl;
    match goal with |- context [truthy (Z.land ?q SIXAXIS_CONTROLLER)] =>
      destruct (truthy (Z.land q SIXAXIS_CONTROLLER)) end;
    repeat split; reflexivity.
Qed.

(** The events that [sixaxis_parse_report] reports for a Sixaxis. *)
Lemma sixaxis_parse_report_events (sc : sony_sc) (rd : buffer) (size : Z) :
  Z.land (quirks sc) SIXAXIS_CONTROLLER <> 0 ->
  sensor_dev (sixaxis_parse_report sc rd size) =
  sensor_dev sc ++
    [Report_abs ABS_X (Z.lor (Z.shiftl (rd 42) 8) (rd 41) - 511);
     Report_abs ABS_Y (511 - Z.lor (Z.shiftl (rd 76) 8) (rd 45));
     Report_abs ABS_Z (511 - Z.lor (Z.shiftl (rd 44) 8) (rd 43));
     Sync].
Proof.
  intros Hq. apply truthy_true in Hq.
  unfold sixaxis_parse_report. destruct sc; simpl in *.
  destruct (rd 30 >=? 238); simpl; rewrite Hq; reflexivity.
Qed.

(** The deferred-flush tail only touches the latch and the work item. *)
Lemma sony_raw_event_deferred_frame (sc : sony_sc) :
  let sc' := sony_raw_event_deferred sc in
  hdev sc' = hdev sc /\ sensor_dev sc' = sensor_dev sc /\
  battery_capacity sc' = battery_capacity sc /\
  battery_status sc' = battery_status sc /\
  send_output_report sc' = send_output_report sc /\
  state_worker_initialized sc' = state_worker_initialized sc.
Proof.
  unfold sony_raw_event_deferred, sony_schedule_work. destruct sc; simpl.
  repeat match goal with |- context [if ?b then _ else _] => destruct b; simpl end;
    repeat split; reflexivity.
Qed.

Lemma sony_raw_event_deferred_clear (sc : sony_sc) :
  defer_initialization sc = 0 -> sony_raw_event_deferred sc = sc.
Proof. unfold sony_raw_event_deferred, truthy. intros ->. reflexivity. Qed.

(** With the latch set, the tail clears it and queues the worker when the
    worker is initialised. *)
Lemma sony_raw_event_deferred_set (sc : sony_sc) :
  defer_initialization sc <> 0 ->
  let sc' := sony_raw_event_deferred sc in
  defer_initialization sc' = 0 /\
  pending (state_worker sc') =
    pending (state_worker sc) || truthy (state_worker_initialized sc).
Proof.
  intros Hd. apply truthy_true in Hd.
  unfold sony_raw_event_deferred, sony_schedule_work, schedule_work.
  rewrite Hd. destruct sc as [? ? ? ? [p] ? ? ? ? ? swi ? ? ? ? ? ? ?]; simpl.
  destruct (truthy swi), p; simpl; split; reflexivity.
Qed.

(** The report memory after the four swaps, byte by byte. *)
Lemma sixaxis_swap_axes_spec (rd : buffer) (k : Z) :
  sixaxis_swap_axes rd k = rd (wire_offset k).
Proof.
  unfold sixaxis_swap_axes, buf_swap, buf_store, wire_offset.
  repeat match goal with
         | |- context [?a =? ?b] => destruct (Z.eqb_spec a b); subst; try lia
         end; reflexivity.
Qed.

(** A report that the Sixaxis block takes and does not reject. *)
Lemma sony_raw_event_decoded (sc : sony_sc) (rd : buffer) (size : Z) :
  Z.land (quirks sc) SIXAXIS_CONTROLLER <> 0 ->
  rd 0 = 0x01 -> size = 49 -> rd 1 <> 0xff ->
  sony_raw_event sc rd size =
  (0, sony_raw_event_deferred (sixaxis_parse_report sc (sixaxis_swap_axes rd) size),
   sixaxis_swap_axes rd).
Proof.
  intros Hq H0 Hs H1. unfold sony_raw_event.
  apply truthy_true in Hq. rewrite Hq, H0, Hs. simpl.
  destruct (Z.eqb_spec (rd 1) 255); [contradiction | reflexivity].
Qed.

(** A report that the Sixaxis block does not take. *)
Lemma sony_raw_event_skipped (sc : sony_sc) (rd : buffer) (size : Z) :
  Z.land (quirks sc) SIXAXIS_CONTROLLER = 0 \/ rd 0 <> 0x01 \/ size <> 49 ->
  sony_raw_event sc rd size = (0, sony_raw_event_deferred sc, rd).
Proof.
  intros H. unfold sony_raw_event.
  destruct (truthy (Z.land (quirks sc) SIXAXIS_CONTROLLER)) eqn:Hq;
    destruct (Z.eqb_spec (rd 0) 1); destruct (Z.eqb_spec size 49);
    simpl; try reflexivity.
  apply truthy_true in Hq. destruct H as [H | [H | H]]; contradiction.
Qed.

(** ** C3: accelerometer decode *)

(** C3, as the code has it.  For every accepted 49-byte report of a
    Sixaxis, [sony_raw_event] exchanges four byte pairs (41/42, 43/44,
    45/46, 47/48) and leaves the other bytes alone, then reports
    X = raw - 511 with raw read big-endian from offsets 41..42 of the
    incoming report, Z = 511 - raw with raw read big-endian from offsets
    43..44, and Y = 511 - raw for a raw value whose low byte is the
    incoming byte at offset 46. *)
Theorem sixaxis_accel_decode (sc : sony_sc) (rd : buffer) (size : Z)
    (Hquirk : Z.land (quirks sc) SIXAXIS_CONTROLLER <> 0)
    (Hid : rd 0 = 0x01) (Hsize : size = 49) (Hreal : rd 1 <> 0xff) :
  let '(ret, sc', rd') := sony_raw_event sc rd size in
  ret = 0 /\
  (forall k, rd' k = rd (wire_offset k)) /\
  exists hi,
    sensor_dev sc' =
    sensor_dev sc ++
      [Report_abs ABS_X (Z.lor (Z.shiftl (rd 41) 8) (rd 42) - 511);
       Report_abs ABS_Y (511 - Z.lor (Z.shiftl hi 8) (rd 46));
       Report_abs ABS_Z (511 - Z.lor (Z.shiftl (rd 43) 8) (rd 44));
       Sync].
Proof.
  rewrite sony_raw_event_decoded by assumption.
  split; [reflexivity|]. split; [apply sixaxis_swap_axes_spec|].
  exists (sixaxis_swap_axes rd 76).
  destruct (sony_raw_event_deferred_frame
              (sixaxis_parse_report sc (sixaxis_swap_axes rd) size))
    as (_ & -> & _).
  rewrite sixaxis_parse_report_events
    by (destruct (sixaxis_parse_report_frame sc (sixaxis_swap_axes rd) size)
          as (_ & _ & _ & _ & _ & Hq); exact Hquirk).
  rewrite !sixaxis_swap_axes_spec. reflexivity.
Qed.

Lemma sixaxis_accel_decode_witness :
  let sc := fresh_sc SIXAXIS_CONTROLLER_USB in
  let rd := buffer_of_list (report49 1 0 3 [1; 2; 3; 4; 5; 6; 7; 8]) (fun _ => 0) in
  let '(ret, sc', rd') := sony_raw_event sc rd 49 in
  ret = 0 /\
  (forall k, rd' k = rd (wire_offset k)) /\
  exists hi,
    sensor_dev sc' =
    sensor_dev sc ++
      [Report_abs ABS_X (Z.lor (Z.shiftl (rd 41) 8) (rd 42) - 511);
       Report_abs ABS_Y (511 - Z.lor (Z.shiftl hi 8) (rd 46));
       Report_abs ABS_Z (511 - Z.lor (Z.shiftl (rd 43) 8) (rd 44));
       Sync].
Proof.
  intros sc rd.
  apply (sixaxis_accel_decode sc rd 49);
    vm_compute; congruence.
Defined.

(** C3, as the claim words it, fails on a report whose bytes at offsets
    41..48 are 1..8: the memory after the call has all eight of them
    moved, four pairs and not two; and the Y value follows the byte that
    memory holds 27 bytes past the end of the report, so the same 49-byte
    report decodes to two different Y values. *)
Lemma sixaxis_accel_decode_counterexample :
  let sc := fresh_sc SIXAXIS_CONTROLLER_USB in
  let report := report49 1 0 3 [1; 2; 3; 4; 5; 6; 7; 8] in
  let '(_, sc0, rd0) := sony_raw_event sc (buffer_of_list report (fun _ => 0)) 49 in
  let '(_, sc1, _) := sony_raw_event sc (buffer_of_list report (fun _ => 1)) 49 in
  length report = 49%nat /\
  map rd0 [41; 42; 43; 44; 45; 46; 47; 48] = [2; 1; 4; 3; 6; 5; 8; 7] /\
  sensor_dev sc0 =
    [Report_abs ABS_X (-253); Report_abs ABS_Y 505; Report_abs ABS_Z (-261); Sync] /\
  sensor_dev sc1 =
    [Report_abs ABS_X (-253); Report_abs ABS_Y 249; Report_abs ABS_Z (-261); Sync].
Proof. vm_compute. repeat split. Qed.

(** ** C4: ranges of the decoded values *)

Lemma lor_shiftl_8 (a b : Z) :
  0 <= b < 256 -> Z.lor (Z.shiftl a 8) b = a * 256 + b.
Proof.
  intros Hb. rewrite Z.shiftl_mul_pow2 by lia. change (2 ^ 8) with 256.
  rewrite <- Z.lxor_lor, <- Z.add_nocarry_lxor; [reflexivity| |];
    apply Z.bits_inj'; intros n Hn; rewrite Z.land_spec, Z.bits_0;
    replace (a * 256) with (Z.shiftl a 8)
      by (rewrite Z.shiftl_mul_pow2 by lia; reflexivity);
    destruct (Z.ltb_spec n 8).
  - rewrite Z.shiftl_spec_low by lia. reflexivity.
  - replace b with (b mod 2 ^ 8) by (apply Z.mod_small; exact Hb).
    rewrite Z.mod_pow2_bits_high by lia. apply andb_false_r.
  - rewrite Z.shiftl_spec_low by lia. reflexivity.
  - replace b with (b mod 2 ^ 8) by (apply Z.mod_small; exact Hb).
    rewrite Z.mod_pow2_bits_high by lia. apply andb_false_r.
Qed.

Lemma raw16_range (a b : Z) :
  0 <= a < 256 -> 0 <= b < 256 -> 0 <= Z.lor (Z.shiftl a 8) b <= 65535.
Proof. intros Ha Hb. rewrite lor_shiftl_8 by exact Hb. lia. Qed.

Lemma battery_capacity_in_table (sc : sony_sc) (rd : buffer) (size : Z) :
  0 <= rd 30 < 256 ->
  In (battery_capacity (sixaxis_parse_report sc rd size)) [0; 1; 25; 50; 75; 100].
Proof.
  intros Hb.
  pose proof (sixaxis_parse_report_battery sc rd size) as H.
  destruct (rd 30 >=? 0xee).
  - injection H as -> _. simpl. tauto.
  - injection H as -> _.
    set (index := if rd 30 <=? 5 then rd 30 else 5).
    assert (Hc : index = 0 \/ index = 1 \/ index = 2
                 \/ index = 3 \/ index = 4 \/ index = 5)
      by (unfold index; destruct (Z.leb_spec (rd 30) 5); lia).
    destruct Hc as [-> | [-> | [-> | [-> | [-> | ->]]]]]; simpl; tauto.
Qed.

(** C4, as the code has it.  For every 49-byte report of a Sixaxis whose
    byte at offset 1 is not 0xFF, decoding reports X = rx - 511,
    Y = 511 - ry and Z = 511 - rz for raw values rx, ry, rz of 16 bits, so
    X lies in [-511, 65024] and Y and Z lie in [-65024, 511]; the battery
    capacity is one of 0, 1, 25, 50, 75, 100. *)
Theorem sixaxis_decode_ranges (sc : sony_sc) (rd : buffer) (size : Z)
    (Hbytes : u8_buffer rd)
    (Hquirk : Z.land (quirks sc) SIXAXIS_CONTROLLER <> 0)
    (Hid : rd 0 = 0x01) (Hsize : size = 49) (Hreal : rd 1 <> 0xff) :
  let '(_, sc', _) := sony_raw_event sc rd size in
  (exists rx ry rz,
     0 <= rx <= 65535 /\ 0 <= ry <= 65535 /\ 0 <= rz <= 65535 /\
     sensor_dev sc' =
       sensor_dev sc ++
         [Report_abs ABS_X (rx - 511); Report_abs ABS_Y (511 - ry);
          Report_abs ABS_Z (511 - rz); Sync] /\
     -511 <= rx - 511 <= 65024 /\
     -65024 <= 511 - ry <= 511 /\
     -65024 <= 511 - rz <= 511) /\
  In (battery_capacity sc') [0; 1; 25; 50; 75; 100].
Proof.
  rewrite sony_raw_event_decoded by assumption.
  set (rd' := sixaxis_swap_axes rd).
  assert (Hb' : u8_buffer rd')
    by (intros i; unfold rd'; rewrite sixaxis_swap_axes_spec; apply Hbytes).
  destruct (sony_raw_event_deferred_frame (sixaxis_parse_report sc rd' size))
    as (_ & -> & -> & _).
  split.
  - exists (Z.lor (Z.shiftl (rd' 42) 8) (rd' 41)),
           (Z.lor (Z.shiftl (rd' 76) 8) (rd' 45)),
           (Z.lor (Z.shiftl (rd' 44) 8) (rd' 43)).
    pose proof (raw16_range _ _ (Hb' 42) (Hb' 41)).
    pose proof (raw16_range _ _ (Hb' 76) (Hb' 45)).
    pose proof (raw16_range _ _ (Hb' 44) (Hb' 43)).
    rewrite sixaxis_parse_report_events by exact Hquirk.
    repeat split; lia.
  - apply battery_capacity_in_table, Hb'.
Qed.

Lemma sixaxis_decode_ranges_witness :
  let sc := fresh_sc SIXAXIS_CONTROLLER_BT in
  let rd := buffer_of_list (report49 1 0 2 [1; 2; 3; 4; 5; 6; 7; 8]) (fun _ => 0) in
  let '(_, sc', _) := sony_raw_event sc rd 49 in
  (exists rx ry rz,
     0 <= rx <= 65535 /\ 0 <= ry <= 65535 /\ 0 <= rz <= 65535 /\
     sensor_dev sc' =
       sensor_dev sc ++
         [Report_abs ABS_X (rx - 511); Report_abs ABS_Y (511 - ry);
          Report_abs ABS_Z (511 - rz); Sync] /\
     -511 <= rx - 511 <= 65024 /\
     -65024 <= 511 - ry <= 511 /\
     -65024 <= 511 - rz <= 511) /\
  In (battery_capacity sc') [0; 1; 25; 50; 75; 100].
Proof.
  intros sc rd.
  apply (sixaxis_decode_ranges sc rd 49); try (vm_compute; congruence).
  intros i. unfold rd, buffer_of_list.
  destruct ((0 <=? i) && (i <? Z.of_nat (length (report49 1 0 2 [1; 2; 3; 4; 5; 6; 7; 8])))) eqn:Hin;
    [|lia].
  apply andb_true_iff in Hin as [Hlo Hhi].
  apply Z.leb_le in Hlo. apply Z.ltb_lt in Hhi.
  change (Z.of_nat _) with 49 in Hhi.
  assert (Hnat : (Z.to_nat i < 49)%nat) by lia.
  revert Hnat. generalize (Z.to_nat i). intros n Hn.
  do 49 (destruct n as [|n]; [simpl; lia|]). lia.
Defined.

(** C4, as the claim words it, fails on the report whose bytes at offsets
    41 and 42 are both 0xFF (byte 1 is zero): the X value reported is
    65024, outside [-512, 511]. *)
Lemma sixaxis_decode_ranges_counterexample :
  let sc := fresh_sc SIXAXIS_CONTROLLER_USB in
  let report := report49 1 0 3 [0xff; 0xff] in
  let '(ret, sc', _) := sony_raw_event sc (buffer_of_list report (fun _ => 0)) 49 in
  length report = 49%nat /\ nth 1 report 0 <> 0xff /\ ret = 0 /\
  sensor_dev sc' =
    [Report_abs ABS_X 65024; Report_abs ABS_Y 511; Report_abs ABS_Z 511; Sync] /\
  ~ (-512 <= 65024 <= 511).
Proof. vm_compute. repeat split; try congruence. intros [_ H]. apply H. reflexivity. Qed.

(** ** C5: the spurious report *)

(** C5, as the code has it.  For every 49-byte report with report id 0x01
    delivered to a Sixaxis session, a byte 0xFF at offset 1 makes
    [sony_raw_event] return [-EINVAL] and leave the whole session, the
    deferred-flush latch and the work item included, and the report memory
    exactly as they were. *)
Theorem sony_raw_event_spurious (sc : sony_sc) (rd : buffer) (size : Z)
    (Hquirk : Z.land (quirks sc) SIXAXIS_CONTROLLER <> 0)
    (Hid : rd 0 = 0x01) (Hsize : size = 49) (Hspurious : rd 1 = 0xff) :
  sony_raw_event sc rd size = (- EINVAL, sc, rd).
Proof.
  unfold sony_raw_event. apply truthy_true in Hquirk.
  rewrite Hquirk, Hid, Hsize, Hspurious. reflexivity.
Qed.

Lemma sony_raw_event_spurious_witness :
  let sc := sixaxis_session SIXAXIS_CONTROLLER_USB 1 in
  let rd := buffer_of_list (report49 1 0xff 0 []) (fun _ => 0) in
  sony_raw_event sc rd 49 = (- EINVAL, sc, rd).
Proof.
  intros sc rd.
  apply (sony_raw_event_spurious sc rd 49); vm_compute; congruence.
Defined.

(** C5, as the claim words it, fails on 49-byte reports with 0xFF at
    offset 1 that the Sixaxis block does not take.  With report id 0x02 a
    Sixaxis session whose latch is set accepts the report, clears the
    latch and queues the worker; a guitar session accepts a report with
    id 0x01. *)
Lemma sony_raw_event_spurious_counterexample :
  let report2 := report49 2 0xff 0 [] in
  let report1 := report49 1 0xff 0 [] in
  let sc := sixaxis_session SIXAXIS_CONTROLLER_USB 1 in
  let guitar := fresh_sc GH_GUITAR_CONTROLLER in
  let '(ret, sc', _) := sony_raw_event sc (buffer_of_list report2 (fun _ => 0)) 49 in
  let '(ret_g, _, _) := sony_raw_event guitar (buffer_of_list report1 (fun _ => 0)) 49 in
  length report2 = 49%nat /\ nth 1 report2 0 = 0xff /\
  length report1 = 49%nat /\ nth 1 report1 0 = 0xff /\
  ret = 0 /\
  defer_initialization sc = 1 /\ defer_initialization sc' = 0 /\
  pending (state_worker sc) = false /\ pending (state_worker sc') = true /\
  ret_g = 0.
Proof. vm_compute. repeat split. Qed.

(** ** C7: the deferred first flush *)

Lemma sixaxis_build_report_frame (ff : bool) (sc : sony_sc) (w : work_struct) :
  sixaxis_build_report ff (set_state_worker w sc) = sixaxis_build_report ff sc.
Proof. destruct sc; reflexivity. Qed.

(** A tick on a session whose encoder is installed: one raw request when
    the work item is pending, carrying the state of that moment, and none
    otherwise; the item is idle afterwards. *)
Lemma workqueue_tick_spec (ff : bool) (sc : sony_sc) :
  send_output_report sc = send_sixaxis ->
  exists sc',
    workqueue_tick ff sc = Some sc' /\
    hdev sc' = hdev sc ++ (if pending (state_worker sc) then [flush_of ff sc] else []) /\
    pending (state_worker sc') = false.
Proof.
  intros Hs. unfold workqueue_tick, sony_state_worker.
  destruct (pending (state_worker sc)) eqn:Hp.
  - replace (send_output_report (set_state_worker (mk_work false) sc))
      with send_sixaxis by (destruct sc; exact (eq_sym Hs)).
    eexists; split; [reflexivity|].
    unfold sixaxis_send_output_report, flush_of.
    rewrite sixaxis_build_report_frame. destruct sc; simpl. split; reflexivity.
  - exists sc. rewrite app_nil_r. repeat split. exact Hp.
Qed.

(** C7, as the code has it.  With the latch set on a session whose worker
    is initialised: every report that [sony_raw_event] accepts, decoded or
    not, clears the latch, sends nothing itself and leaves the work item
    pending, so that the next tick sends exactly one report, that of the
    state at the tick, and the tick after it sends none; a report that is
    rejected changes nothing, the latch included; and while the latch is
    set [sony_schedule_work] queues nothing. *)
Theorem deferred_first_flush (ff : bool) (sc : sony_sc) (rd : buffer) (size : Z)
    (Hlatch : defer_initialization sc <> 0)
    (Hworker : state_worker_initialized sc <> 0)
    (Hsender : send_output_report sc = send_sixaxis) :
  let '(ret, sc', _) := sony_raw_event sc rd size in
  (ret = 0 ->
     defer_initialization sc' = 0 /\
     hdev sc' = hdev sc /\
     pending (state_worker sc') = true /\
     exists sc1 sc2,
       workqueue_tick ff sc' = Some sc1 /\
       hdev sc1 = hdev sc ++ [flush_of ff sc'] /\
       workqueue_tick ff sc1 = Some sc2 /\
       hdev sc2 = hdev sc1) /\
  (ret <> 0 -> ret = - EINVAL /\ sc' = sc) /\
  sony_schedule_work sc SONY_WORKER_STATE = sc.
Proof.
  assert (Hsched : sony_schedule_work sc SONY_WORKER_STATE = sc).
  { unfold sony_schedule_work. rewrite truthy_c_not.
    destruct (Z.eqb_spec (defer_initialization sc) 0); [contradiction|reflexivity]. }
  assert (Htail : forall s,
             defer_initialization s = defer_initialization sc ->
             state_worker_initialized s = state_worker_initialized sc ->
             send_output_report s = send_sixaxis ->
             hdev s = hdev sc ->
             let s' := sony_raw_event_deferred s in
             defer_initialization s' = 0 /\ hdev s' = hdev sc /\
             pending (state_worker s') = true /\
             exists sc1 sc2,
               workqueue_tick ff s' = Some sc1 /\
               hdev sc1 = hdev sc ++ [flush_of ff s'] /\
               workqueue_tick ff sc1 = Some sc2 /\
               hdev sc2 = hdev sc1).
  { intros s Hd Hi Hs Hh s'.
    destruct (sony_raw_event_deferred_set s) as [Hclr Hpend]; [congruence|].
    destruct (sony_raw_event_deferred_frame s) as (Hh' & _ & _ & _ & Hs' & _).
    fold s' in Hclr, Hpend, Hh', Hs'.
    assert (Hp : pending (state_worker s') = true).
    { rewrite Hpend, Hi. apply truthy_true in Hworker. rewrite Hworker.
      apply orb_true_r. }
    split; [exact Hclr|]. split; [congruence|]. split; [exact Hp|].
    destruct (workqueue_tick_spec ff s') as (sc1 & Ht1 & Hh1 & Hp1); [congruence|].
    assert (Hs1 : send_output_report sc1 = send_sixaxis).
    { unfold workqueue_tick, sony_state_worker in Ht1. rewrite Hp in Ht1.
      replace (send_output_report (set_state_worker (mk_work false) s'))
        with send_sixaxis in Ht1 by (destruct s'; simpl in *; congruence).
      injection Ht1 as <-. unfold sixaxis_send_output_report.
      destruct s'; simpl in *; congruence. }
    destruct (workqueue_tick_spec ff sc1 Hs1) as (sc2 & Ht2 & Hh2 & _).
    exists sc1, sc2. rewrite Hp in Hh1. rewrite Hp1, app_nil_r in Hh2.
    repeat split; congruence. }
  unfold sony_raw_event.
  destruct (truthy (Z.land (quirks sc) SIXAXIS_CONTROLLER) && (rd 0 =? 1) && (size =? 49)).
  - destruct (rd 1 =? 255).
    + split; [intros H; discriminate H|]. split; [|exact Hsched].
      intros _. split; reflexivity.
    + split; [|split; [intros H; contradiction H; reflexivity | exact Hsched]].
      intros _.
      destruct (sixaxis_parse_report_frame sc (sixaxis_swap_axes rd) size)
        as (Hh & _ & Hd & Hi & Hs & _).
      apply Htail; congruence.
  - split; [|split; [intros H; contradiction H; reflexivity | exact Hsched]].
    intros _. apply Htail; congruence.
Qed.

Lemma deferred_first_flush_witness :
  let sc := sixaxis_session SIXAXIS_CONTROLLER_USB 1 in
  let rd := buffer_of_list (report49 1 0 3 [1; 2; 3; 4; 5; 6; 7; 8]) (fun _ => 0) in
  let '(ret, sc', _) := sony_raw_event sc rd 49 in
  (ret = 0 ->
     defer_initialization sc' = 0 /\
     hdev sc' = hdev sc /\
     pending (state_worker sc') = true /\
     exists sc1 sc2,
       workqueue_tick true sc' = Some sc1 /\
       hdev sc1 = hdev sc ++ [flush_of true sc'] /\
       workqueue_tick true sc1 = Some sc2 /\
       hdev sc2 = hdev sc1) /\
  (ret <> 0 -> ret = - EINVAL /\ sc' = sc) /\
  sony_schedule_work sc SONY_WORKER_STATE = sc.
Proof.
  intros sc rd.
  apply (deferred_first_flush true sc rd 49); vm_compute; congruence.
Defined.

(** C7, as the claim words it, fails on a report that is not decoded: a
    10-byte report reaches no decoder (battery fields and sensor events
    stay as they were), yet it clears the latch and queues the flush. *)
Lemma deferred_first_flush_counterexample :
  let sc := sixaxis_session SIXAXIS_CONTROLLER_USB 1 in
  let short := [1; 0; 0; 0; 0; 0; 0; 0; 0; 0] in
  let '(ret, sc', rd') := sony_raw_event sc (buffer_of_list short (fun _ => 0)) 10 in
  ret = 0 /\
  battery_capacity sc' = battery_capacity sc /\
  battery_status sc' = battery_status sc /\
  sensor_dev sc' = sensor_dev sc /\
  map rd' [0; 1; 2; 3; 4; 5; 6; 7; 8; 9] = short /\
  defer_initialization sc = 1 /\ defer_initialization sc' = 0 /\
  pending (state_worker sc) = false /\ pending (state_worker sc') = true.
Proof. vm_compute. repeat split. Qed.

(** ** LED states stay boolean *)

Lemma sixaxis_set_leds_from_id_boolean (sc : sony_sc) :
  0 <= device_id sc -> led_states_boolean (sixaxis_set_leds_from_id sc).
Proof.
  intros Hid. unfold sixaxis_set_leds_from_id.
  destruct (Z.ltb_spec (device_id sc) 0) as [|_]; [lia|].
  pose proof (Z.rem_bound_pos (device_id sc) 10 Hid ltac:(lia)) as Hrem.
  set (id := Z.rem (device_id sc) 10) in *.
  assert (Hrow : id = 0 \/ id = 1 \/ id = 2 \/ id = 3 \/ id = 4 \/ id = 5
                 \/ id = 6 \/ id = 7 \/ id = 8 \/ id = 9) by lia.
  intros n Hn.
  replace (led_state (set_led_state _ sc))
    with (nth (Z.to_nat id) sixaxis_leds [] ++
          skipn (length (nth (Z.to_nat id) sixaxis_leds [])) (led_state sc))
    by (destruct sc; reflexivity).
  clearbody id.
  destruct Hrow as [-> | [-> | [-> | [-> | [-> | [-> | [-> | [-> | [-> | ->]]]]]]]]];
    led_index_cases n; cbv; tauto.
Qed.

Lemma arr_get_set_boolean (a : list Z) (n v : Z) :
  (forall m, 0 <= m < 4 -> arr_get a m = 0 \/ arr_get a m = 1) ->
  v = 0 \/ v = 1 ->
  forall m, 0 <= m < 4 -> arr_get (arr_set a n v) m = 0 \/ arr_get (arr_set a n v) m = 1.
Proof.
  intros Ha Hv m Hm. unfold arr_get, arr_set.
  rewrite list_lookup_total_insert. case_decide; [exact Hv | apply Ha, Hm].
Qed.

Lemma sony_led_set_brightness_boolean (sc : sony_sc) (led0 value : Z) :
  led_states_boolean sc -> value = 0 \/ value = 1 ->
  led_states_boolean (sony_led_set_brightness sc led0 value).
Proof.
  intros Hsc Hv. unfold sony_led_set_brightness.
  generalize (c_not (c_not (Z.land (quirks sc) SIXAXIS_CONTROLLER_USB))) as force.
  intros force. induction (led_indices sc) as [|n ns IH];
    cbn [led_set_brightness_loop]; [exact Hsc|].
  destruct ((led0 =? arr_get (leds sc) n) && _); [|exact IH].
  intros m Hm.
  replace (led_state (sony_set_leds _))
    with (arr_set (led_state sc) n (to_u8 value)) by (destruct sc; reflexivity). apply arr_get_set_boolean; [exact Hsc | | exact Hm].
  destruct Hv as [-> | ->]; [left | right]; reflexivity.
Qed.

(** ** C8: the LED bitmap *)

Lemma sixaxis_led_timing_bitmap (sc : sony_sc) (ns : list Z) (r : sixaxis_output_report) :
  leds_bitmap (fold_left (sixaxis_led_timing sc) ns r) = leds_bitmap r.
Proof.
  revert r. induction ns as [|n ns IH]; intros r; simpl; [reflexivity|].
  rewrite IH. unfold sixaxis_led_timing.
  destruct (truthy _ || truthy _); reflexivity.
Qed.

(** The bitmap byte, as computed from the four LED states. *)
Lemma sixaxis_build_report_bitmap (ff : bool) (sc : sony_sc) :
  leds_bitmap (sixaxis_build_report ff sc) =
  let b1 := to_u8 (Z.lor 0 (Z.shiftl (arr_get (led_state sc) 0) 1)) in
  let b2 := to_u8 (Z.lor b1 (Z.shiftl (arr_get (led_state sc) 1) 2)) in
  let b3 := to_u8 (Z.lor b2 (Z.shiftl (arr_get (led_state sc) 2) 3)) in
  let b4 := to_u8 (Z.lor b3 (Z.shiftl (arr_get (led_state sc) 3) 4)) in
  if Z.land b4 0x1E =? 0 then to_u8 (Z.lor b4 0x20) else b4.
Proof.
  unfold sixaxis_build_report. rewrite sixaxis_led_timing_bitmap.
  destruct ff; cbv zeta;
    cbn [leds_bitmap or_leds_bitmap set_leds_bitmap set_rumble report_of_buf
         default_report nth LEDS_BITMAP_OFFSET];
    destruct_if;
    reflexivity.
Qed.

(** C8, as the code has it.  For every session the all-off flag, bit 5,
    is set whenever bits 1..4 of the encoded bitmap are all zero, bit 0
    is clear, and the byte sits at offset 10 of the transmitted buffer.
    For every session whose four LED states are 0 or 1 (the values of
    the id table, and the only ones the LED class passes down with the
    maximum brightness of 1 that [sony_leds_init] registers), LED n is
    at bit n + 1, for n = 0..3, the flag is set only when those four
    bits are all zero, and bits 6 and 7 are clear. *)
Theorem sixaxis_leds_bitmap (ff : bool) (sc : sony_sc) :
  let report := sixaxis_build_report ff sc in
  let bitmap := leds_bitmap report in
  ((forall n, 0 <= n < 4 -> Z.testbit bitmap (n + 1) = false) ->
     Z.testbit bitmap 5 = true) /\
  Z.testbit bitmap 0 = false /\
  nth LEDS_BITMAP_OFFSET (buf_of_report report) 0 = bitmap /\
  (led_states_boolean sc ->
     (forall n, 0 <= n < 4 ->
        Z.testbit bitmap (n + 1) = (arr_get (led_state sc) n =? 1)) /\
     (Z.testbit bitmap 5 = true ->
        forall n, 0 <= n < 4 -> Z.testbit bitmap (n + 1) = false) /\
     Z.testbit bitmap 6 = false /\ Z.testbit bitmap 7 = false).
Proof.
  intros report bitmap.
  assert (Hoff : nth LEDS_BITMAP_OFFSET (buf_of_report report) 0 = bitmap).
  { unfold bitmap, report, sixaxis_build_report.
    set (r := if Z.land _ 30 =? 0 then _ else _).
    assert (Hpad : forall ns r0, padding (fold_left (sixaxis_led_timing sc) ns r0)
                                 = padding r0).
    { induction ns as [|n ns IH]; intros r0; simpl; [reflexivity|].
      rewrite IH. unfold sixaxis_led_timing.
      destruct (truthy _ || truthy _); reflexivity. }
    unfold buf_of_report. rewrite Hpad.
    replace (padding r) with [0; 0; 0; 0]
      by (unfold r; destruct ff;
          destruct_if;
          reflexivity).
    reflexivity. }
  assert (Hcases : forall n, 0 <= n < 4 -> n = 0 \/ n = 1 \/ n = 2 \/ n = 3) by lia.
  pose proof (sixaxis_build_report_bitmap ff sc) as Hb. fold report bitmap in Hb.
  clearbody bitmap. cbv zeta in Hb.
  split; [|split; [|split; [exact Hoff|]]].
  - (* the flag, for any four LED states *)
    intros Hall. revert Hb.
    match goal with
    | |- _ = (if Z.land ?b 30 =? 0 then _ else _) -> _ => generalize b
    end.
    intros b4 Hb. destruct (Z.eqb_spec (Z.land b4 30) 0) as [_|Hne].
    + rewrite Hb. unfold to_u8. rewrite Z.land_spec, Z.lor_spec.
      change (Z.testbit 32 5) with true. rewrite orb_true_r. reflexivity.
    + exfalso. apply Hne. clear Hoff. subst bitmap. apply Z.bits_inj'. intros k Hk.
      rewrite Z.land_spec, Z.bits_0.
      destruct (Z.eq_dec k 0) as [-> | H0]; [apply andb_false_r|].
      destruct (Z_lt_le_dec k 5) as [Hlt | Hge].
      * replace k with (k - 1 + 1) by lia. rewrite Hall by lia. reflexivity.
      * rewrite (Z.bits_above_log2 30 k) by (change (Z.log2 30) with 4; lia).
        apply andb_false_r.
  - (* bit 0 is never written *)
    rewrite Hb. unfold to_u8.
    destruct_if;
      repeat (rewrite ?Z.land_spec, ?Z.lor_spec, ?Z.shiftl_spec_low by lia);
      reflexivity.
  - (* LED states 0 or 1 *)
    intros Hbool. unfold led_states_boolean in Hbool.
    destruct (Hbool 0 ltac:(lia)) as [H0|H0], (Hbool 1 ltac:(lia)) as [H1|H1],
             (Hbool 2 ltac:(lia)) as [H2|H2], (Hbool 3 ltac:(lia)) as [H3|H3];
      rewrite H0, H1, H2, H3 in Hb; vm_compute in Hb;
      (split; [intros n Hn; destruct (Hcases n Hn) as [-> | [-> | [-> | ->]]];
               rewrite Hb, ?H0, ?H1, ?H2, ?H3; reflexivity|]);
      (split; [rewrite Hb; intros H5; try discriminate H5;
               intros n Hn; destruct (Hcases n Hn) as [-> | [-> | [-> | ->]]];
               reflexivity|]);
      split; rewrite Hb; reflexivity.
Qed.

Lemma sixaxis_leds_bitmap_witness :
  let sc := sixaxis_session SIXAXIS_CONTROLLER_USB 0 in
  let off := set_led_state [0; 0; 0; 0] sc in
  led_states_boolean sc /\
  Z.testbit (leds_bitmap (sixaxis_build_report true sc)) (0 + 1) = true /\
  Z.testbit (leds_bitmap (sixaxis_build_report true sc)) 5 = false /\
  (forall n, 0 <= n < 4 ->
     Z.testbit (leds_bitmap (sixaxis_build_report true off)) (n + 1) = false) /\
  Z.testbit (leds_bitmap (sixaxis_build_report true off)) 5 = true.
Proof.
  intros sc off.
  assert (Hbool : led_states_boolean sc).
  { intros n Hn.
    led_index_cases n; vm_compute; tauto. }
  assert (Hoff : led_states_boolean off).
  { intros n Hn.
    led_index_cases n; vm_compute; tauto. }
  split; [exact Hbool|].
  destruct (sixaxis_leds_bitmap true sc) as (_ & _ & _ & Hlit).
  destruct (Hlit Hbool) as (Hbits & Hflag & _).
  destruct (sixaxis_leds_bitmap true off) as (Hset & _ & _ & Hdark).
  destruct (Hdark Hoff) as (Hbits' & _).
  assert (Hzero : forall n, 0 <= n < 4 ->
            Z.testbit (leds_bitmap (sixaxis_build_report true off)) (n + 1) = false).
  { intros n Hn. rewrite (Hbits' n Hn). led_index_cases n; reflexivity. }
  split; [apply (Hbits 0); lia|].
  split; [|split; [exact Hzero | exact (Hset Hzero)]].
  destruct (Z.testbit (leds_bitmap (sixaxis_build_report true sc)) 5) eqn:H5;
    [|reflexivity].
  rewrite <- (Hflag eq_refl 0 ltac:(lia)). symmetry. apply (Hbits 0). lia.
Defined.

(** C8, as the claim words it, fails for a session whose LED state is a
    brightness other than 0 or 1.  With LED 0 at brightness 2, stored by
    [sony_led_set_brightness] as it is, and the other three off, the
    bitmap is 0x04: bit 1, the position of LED 0, is clear, and bit 2,
    the position of LED 1, is set. *)
Lemma sixaxis_leds_bitmap_counterexample :
  let sc := sony_led_set_brightness (sixaxis_session SIXAXIS_CONTROLLER_BT 0) 101 2 in
  let bitmap := leds_bitmap (sixaxis_build_report true sc) in
  led_state sc = [2; 0; 0; 0] /\
  bitmap = 0x04 /\
  Z.testbit bitmap (0 + 1) = false /\
  Z.testbit bitmap (1 + 1) = true /\
  ~ (forall n, 0 <= n < 4 ->
       Z.testbit bitmap (n + 1) = truthy (arr_get (led_state sc) n)) /\
  ~ (forall n, 0 <= n < 4 ->
       Z.testbit bitmap (n + 1) = (arr_get (led_state sc) n =? 1)).
Proof.
  intros sc bitmap.
  assert (Hst : led_state sc = [2; 0; 0; 0]) by (vm_compute; reflexivity).
  assert (Hb : bitmap = 0x04) by (vm_compute; reflexivity).
  clearbody bitmap sc. subst bitmap. rewrite Hst.
  repeat split; try reflexivity;
    intros Hall; [specialize (Hall 0 ltac:(lia)) | specialize (Hall 1 ltac:(lia))];
    vm_compute in Hall; discriminate Hall.
Qed.

(** The all-off case: with the four LEDs off the bitmap byte is the flag
    alone, 0x20; with LED 1 and LED 4 on it is 0x12. *)
Example sixaxis_leds_bitmap_examples :
  let with_leds st :=
    leds_bitmap (sixaxis_build_report true
                   (set_led_state st (sixaxis_session SIXAXIS_CONTROLLER_BT 0))) in
  with_leds [0; 0; 0; 0] = 0x20 /\ with_leds [1; 0; 0; 1] = 0x12.
Proof. vm_compute. split; reflexivity. Qed.

(** ** C9: blink timing slots *)

(** The four timing slots of the encoded report, last LED first. *)
Lemma sixaxis_build_report_led (ff : bool) (sc : sony_sc) :
  let slot n :=
    if truthy (arr_get (led_delay_on sc) n) || truthy (arr_get (led_delay_off sc) n)
    then mk_sixaxis_led 0xff 0x27 0x10
           (arr_get (led_delay_off sc) n) (arr_get (led_delay_on sc) n)
    else mk_sixaxis_led 0xff 0x27 0x10 0x00 0x32 in
  led (sixaxis_build_report ff sc) = [slot 3; slot 2; slot 1; slot 0].
Proof.
  cbv zeta. unfold sixaxis_build_report.
  set (r := if Z.land _ 30 =? 0 then _ else _).
  assert (Hr : led r = [mk_sixaxis_led 0xff 0x27 0x10 0x00 0x32;
                        mk_sixaxis_led 0xff 0x27 0x10 0x00 0x32;
                        mk_sixaxis_led 0xff 0x27 0x10 0x00 0x32;
                        mk_sixaxis_led 0xff 0x27 0x10 0x00 0x32]).
  { unfold r. destruct ff;
      destruct_if;
      reflexivity. }
  clearbody r. unfold fold_left, sixaxis_led_timing.
  destruct (truthy (arr_get (led_delay_on sc) 0) || truthy (arr_get (led_delay_off sc) 0));
  destruct (truthy (arr_get (led_delay_on sc) 1) || truthy (arr_get (led_delay_off sc) 1));
  destruct (truthy (arr_get (led_delay_on sc) 2) || truthy (arr_get (led_delay_off sc) 2));
  destruct (truthy (arr_get (led_delay_on sc) 3) || truthy (arr_get (led_delay_off sc) 3));
    cbn [led set_led]; rewrite Hr; reflexivity.
Qed.

(** The bytes of a report with four padding bytes and four timing slots:
    slot [k] has its off and on timing at offsets [LED_OFFSET k + 3] and
    [LED_OFFSET k + 4]. *)
Lemma buf_of_report_timing (r : sixaxis_output_report) (p0 p1 p2 p3 : Z)
    (l0 l1 l2 l3 : sixaxis_led) (k : nat) :
  padding r = [p0; p1; p2; p3] -> led r = [l0; l1; l2; l3] -> (k < 4)%nat ->
  length (buf_of_report r) = 36%nat /\
  nth (LED_OFFSET k + 3) (buf_of_report r) 0 = duty_off (led_slot r k) /\
  nth (LED_OFFSET k + 4) (buf_of_report r) 0 = duty_on (led_slot r k).
Proof.
  intros Hp Hl Hk. unfold buf_of_report, led_slot. rewrite Hp, Hl.
  do 4 (destruct k as [|k]; [repeat split; reflexivity|]). lia.
Qed.

(** C9. For every session and every LED n in 0..3, the encoder puts that
    LED's blink timing into slot 3 - n of the report (LED 0 in the last
    slot), and only when the on or the off timing is non-zero; when both
    are zero the slot keeps the timing bytes of the factory-default
    template.  The other bytes of the slot are the template's either way. *)
Theorem sixaxis_blink_timing (ff : bool) (sc : sony_sc) (n : Z)
    (Hn : 0 <= n < 4) :
  let report := sixaxis_build_report ff sc in
  let k := Z.to_nat (3 - n) in
  let delay_on := arr_get (led_delay_on sc) n in
  let delay_off := arr_get (led_delay_off sc) n in
  (delay_on <> 0 \/ delay_off <> 0 ->
     duty_off (led_slot report k) = delay_off /\
     duty_on (led_slot report k) = delay_on /\
     nth (LED_OFFSET k + 3) (buf_of_report report) 0 = delay_off /\
     nth (LED_OFFSET k + 4) (buf_of_report report) 0 = delay_on) /\
  (delay_on = 0 /\ delay_off = 0 ->
     led_slot report k = default_led k /\
     nth (LED_OFFSET k + 3) (buf_of_report report) 0 = nth (LED_OFFSET k + 3) default_report 0 /\
     nth (LED_OFFSET k + 4) (buf_of_report report) 0 = nth (LED_OFFSET k + 4) default_report 0) /\
  time_enabled (led_slot report k) = time_enabled (default_led k) /\
  duty_length (led_slot report k) = duty_length (default_led k) /\
  enabled (led_slot report k) = enabled (default_led k).
Proof.
  intros report k delay_on delay_off.
  pose proof (sixaxis_build_report_led ff sc) as Hled. cbv zeta in Hled.
  fold report in Hled.
  assert (Hpad : padding report = [0; 0; 0; 0]).
  { unfold report, sixaxis_build_report.
    set (r := if Z.land _ 30 =? 0 then _ else _).
    assert (Hr : padding r = [0; 0; 0; 0]).
    { unfold r. destruct ff;
        destruct_if;
        reflexivity. }
    clearbody r. rewrite <- Hr. clear.
    generalize [0; 1; 2; 3]. intros ns. revert r.
    induction ns as [|m ns IH]; intros r; simpl; [reflexivity|].
    rewrite IH. unfold sixaxis_led_timing.
    destruct (truthy _ || truthy _); reflexivity. }
  assert (Hk : (k < 4)%nat) by (unfold k; lia).
  destruct (buf_of_report_timing report _ _ _ _ _ _ _ _ k Hpad Hled Hk)
    as (_ & Hoff & Hon).
  rewrite Hoff, Hon. clear Hoff Hon Hpad.
  assert (Hslot : led_slot report k =
            if truthy delay_on || truthy delay_off
            then mk_sixaxis_led 0xff 0x27 0x10 delay_off delay_on
            else mk_sixaxis_led 0xff 0x27 0x10 0x00 0x32).
  { unfold led_slot, k, delay_on, delay_off. rewrite Hled.
    led_index_cases n; reflexivity. }
  assert (Hdef : default_led k = mk_sixaxis_led 0xff 0x27 0x10 0x00 0x32
                 /\ nth (LED_OFFSET k + 3) default_report 0 = 0x00
                 /\ nth (LED_OFFSET k + 4) default_report 0 = 0x32).
  { clear -Hk. do 4 (destruct k as [|k]; [repeat split; reflexivity|]). lia. }
  destruct Hdef as (-> & -> & ->). rewrite Hslot. clear Hslot Hled.
  split; [|split].
  - intros Hnz.
    assert (Ht : truthy delay_on || truthy delay_off = true).
    { apply orb_true_iff. destruct Hnz as [H|H]; [left|right]; apply truthy_true, H. }
    rewrite Ht. repeat split.
  - intros [Hon Hoff]. rewrite Hon, Hoff. repeat split.
  - destruct (truthy delay_on || truthy delay_off); repeat split.
Qed.

Lemma sixaxis_blink_timing_witness :
  let sc := set_led_delay_on [0; 0; 7; 0]
              (set_led_delay_off [0; 0; 9; 0]
                 (sixaxis_session SIXAXIS_CONTROLLER_BT 0)) in
  let report := sixaxis_build_report true sc in
  0 <= 2 < 4 /\
  duty_off (led_slot report 1) = 9 /\ duty_on (led_slot report 1) = 7 /\
  nth 19 (buf_of_report report) 0 = 9 /\ nth 20 (buf_of_report report) 0 = 7.
Proof.
  intros sc report.
  assert (Hn : 0 <= 2 < 4) by lia.
  split; [exact Hn|].
  exact (proj1 (sixaxis_blink_timing true sc 2 Hn) ltac:(left; vm_compute; congruence)).
Defined.

(** ** C1: the identity registry *)

Lemma memcmp_same (s : list Z) (n : nat) : memcmp s s n = 0.
Proof.
  revert n. induction s as [|a s IH]; intros [|n]; simpl; try reflexivity.
  rewrite Z.eqb_refl. apply IH.
Qed.

(** On arrays of at least [n] bytes [memcmp] is zero exactly when the
    first [n] bytes agree. *)
Lemma memcmp_zero_iff (s1 s2 : list Z) (n : nat) :
  (n <= length s1)%nat -> (n <= length s2)%nat ->
  memcmp s1 s2 n = 0 <-> firstn n s1 = firstn n s2.
Proof.
  revert s1 s2. induction n as [|n IH]; intros s1 s2 H1 H2; simpl.
  - destruct s1, s2; simpl; tauto.
  - destruct s1 as [|a s1]; [simpl in H1; lia|].
    destruct s2 as [|b s2]; [simpl in H2; lia|].
    simpl in *. destruct (Z.eqb_spec a b) as [->|Hne].
    + rewrite IH by lia. split; [intros ->; reflexivity | intros H; injection H; auto].
    + split; [lia | intros H; injection H; intros; contradiction].
Qed.

(** The connection types compare equal exactly when the two sessions have
    the same is-Bluetooth classification. *)
Lemma sony_compare_connection_type_spec (sc0 sc1 : sony_sc) :
  truthy (sony_compare_connection_type sc0 sc1) =
  Bool.eqb (is_bluetooth sc0) (is_bluetooth sc1).
Proof.
  unfold sony_compare_connection_type, is_bluetooth, truthy, c_not.
  destruct (Z.land (quirks sc0) SONY_BT_DEVICE =? 0),
           (Z.land (quirks sc1) SONY_BT_DEVICE =? 0); reflexivity.
Qed.

(** An address that no entry has walks the whole list. *)
Lemma dev_list_scan_fresh (sc : sony_sc) (entries : list sony_sc) :
  (forall entry, In entry entries ->
     memcmp (mac_address sc) (mac_address entry) 6 <> 0) ->
  dev_list_scan sc entries = None.
Proof.
  induction entries as [|e entries IH]; intros Hfresh; simpl; [reflexivity|].
  rewrite truthy_c_not.
  destruct (Z.eqb_spec (memcmp (mac_address sc) (mac_address e) 6) 0) as [H0|_].
  - exfalso. apply (Hfresh e); [left; reflexivity | exact H0].
  - apply IH. intros entry Hin. apply Hfresh. right. exact Hin.
Qed.

(** The first entry with the same address decides: the entries before it
    are skipped. *)
Lemma dev_list_scan_first (sc entry : sony_sc) (before after : list sony_sc) :
  (forall e, In e before -> memcmp (mac_address sc) (mac_address e) 6 <> 0) ->
  mac_address entry = mac_address sc ->
  dev_list_scan sc (before ++ entry :: after) =
  Some (if Bool.eqb (is_bluetooth sc) (is_bluetooth entry) then 1 else - EEXIST).
Proof.
  intros Hbefore Hsame.
  induction before as [|e before IH]; simpl.
  - rewrite Hsame, memcmp_same, sony_compare_connection_type_spec.
    change (truthy (c_not 0)) with true. cbv iota.
    destruct (Bool.eqb _ _); reflexivity.
  - rewrite truthy_c_not.
    destruct (Z.eqb_spec (memcmp (mac_address sc) (mac_address e) 6) 0) as [H0|_].
    + exfalso. apply (Hbefore e); [left; reflexivity | exact H0].
    + apply IH. intros e' Hin. apply Hbefore. right. exact Hin.
Qed.

(** C1, as the code has it.  A registration whose address matches no
    entry of the list is linked at the head and returns 0.  A second
    registration with the same six address bytes then leaves the list as
    it is, and returns 1 (accepted, flagged as the same physical device)
    when its is-Bluetooth classification equals that of the first, and
    [-EEXIST] when the classifications differ. *)
Theorem register_same_address_twice (sony_device_list : list sony_sc)
    (first second : sony_sc)
    (Hfresh : forall entry, In entry sony_device_list ->
                memcmp (mac_address first) (mac_address entry) 6 <> 0)
    (Hsame : mac_address second = mac_address first) :
  let '(ret1, list1) := sony_check_add_dev_list first sony_device_list in
  let '(ret2, list2) := sony_check_add_dev_list second list1 in
  ret1 = 0 /\ list1 = first :: sony_device_list /\
  list2 = list1 /\
  ret2 = if Bool.eqb (is_bluetooth second) (is_bluetooth first)
         then 1 else - EEXIST.
Proof.
  unfold sony_check_add_dev_list at 1.
  rewrite (dev_list_scan_fresh first sony_device_list Hfresh).
  unfold sony_check_add_dev_list.
  pose proof (dev_list_scan_first second first [] sony_device_list) as Hscan.
  simpl app in Hscan. rewrite Hscan; [repeat split | intros e [] | congruence].
Qed.

Lemma register_same_address_twice_witness :
  let mac := [0x00; 0x1b; 0xfb; 0x12; 0x34; 0x56] in
  let other := session_with_mac SIXAXIS_CONTROLLER_USB [0x00; 0x1b; 0xfb; 0x65; 0x43; 0x21] in
  let first := session_with_mac SIXAXIS_CONTROLLER_USB mac in
  let second := session_with_mac SIXAXIS_CONTROLLER_USB mac in
  let '(ret1, list1) := sony_check_add_dev_list first [other] in
  let '(ret2, list2) := sony_check_add_dev_list second list1 in
  ret1 = 0 /\ list1 = [first; other] /\
  list2 = list1 /\
  ret2 = if Bool.eqb (is_bluetooth second) (is_bluetooth first)
         then 1 else - EEXIST.
Proof.
  intros mac other first second.
  apply (register_same_address_twice [other] first second).
  - intros entry [<- | []]. vm_compute. congruence.
  - reflexivity.
Defined.

(** C1, as the claim words it, fails both ways.  Two USB connections with
    the same address: the second call returns 1, it does not fail.  A
    Bluetooth connection after a USB one with the same address: the second
    call returns [-EEXIST], it does not succeed. *)
Lemma register_same_address_twice_counterexample :
  let mac := [0x00; 0x1b; 0xfb; 0x12; 0x34; 0x56] in
  let usb := session_with_mac SIXAXIS_CONTROLLER_USB mac in
  let bt := session_with_mac SIXAXIS_CONTROLLER_BT mac in
  let registered := snd (sony_check_add_dev_list usb []) in
  is_bluetooth usb = false /\ is_bluetooth bt = true /\
  registered = [usb] /\
  sony_check_add_dev_list usb registered = (1, [usb]) /\
  sony_check_add_dev_list bt registered = (- EEXIST, [usb]).
Proof. vm_compute. repeat split. Qed.

(** ** C10: releasing the numeric id *)

(** C10. [sony_release_device_id] frees a non-negative id once and stores
    -1; on a session that holds no id it changes nothing; and a second
    call after any first call changes nothing, so that two calls in a row
    make at most one [ida_free] call, the one of the first. *)
Theorem sony_release_device_id_idempotent (sc : sony_sc) (allocator : ida) :
  let '(sc1, a1) := sony_release_device_id sc allocator in
  let '(sc2, a2) := sony_release_device_id sc1 a1 in
  (0 <= device_id sc ->
     device_id sc1 = -1 /\ a1 = ida_free allocator (device_id sc) /\
     ida_free_calls a1 = ida_free_calls allocator ++ [device_id sc]) /\
  (device_id sc < 0 -> sc1 = sc /\ a1 = allocator) /\
  sc2 = sc1 /\ a2 = a1 /\
  ida_free_calls a2 = ida_free_calls a1.
Proof.
  unfold sony_release_device_id.
  destruct (Z.geb_spec (device_id sc) 0) as [Hge|Hlt].
  - replace (device_id (set_device_id (-1) sc)) with (-1) by (destruct sc; reflexivity).
    simpl. repeat split; try lia; destruct sc; reflexivity.
  - destruct (Z.geb_spec (device_id sc) 0) as [Hge|_]; [lia|].
    repeat split; lia.
Qed.

(** A session holding id 3 released twice: one [ida_free 3], then nothing;
    a session without an id (-1): nothing at all. *)
Lemma sony_release_device_id_idempotent_witness :
  let sc := set_device_id 3 (sixaxis_session SIXAXIS_CONTROLLER_USB 0) in
  let allocator := mk_ida {[0; 3]} [] in
  let '(sc1, a1) := sony_release_device_id sc allocator in
  let '(sc2, a2) := sony_release_device_id sc1 a1 in
  0 <= device_id sc /\
  device_id sc1 = -1 /\ ida_free_calls a1 = [3] /\
  sc2 = sc1 /\ a2 = a1 /\ ida_free_calls a2 = [3].
Proof.
  intros sc allocator.
  pose proof (sony_release_device_id_idempotent sc allocator) as H.
  destruct (sony_release_device_id sc allocator) as [sc1 a1].
  destruct (sony_release_device_id sc1 a1) as [sc2 a2].
  assert (Hid : 0 <= device_id sc) by (vm_compute; congruence).
  destruct H as (Hfree & _ & H2 & Ha & Hcalls).
  destruct (Hfree Hid) as (H1 & _ & Hlog).
  change (ida_free_calls a1 = [3]) in Hlog.
  repeat split; try assumption; congruence.
Defined.

(** ** C6: LED changes and the scheduler *)

(** The brightness loop hands at most one request to the transport, at
    once, and never touches the work item. *)
Lemma led_set_brightness_loop_frame (ns : list Z) (sc : sony_sc) (led0 value force : Z) :
  let sc' := led_set_brightness_loop ns sc led0 value force in
  state_worker sc' = state_worker sc /\ leds sc' = leds sc /\
  quirks sc' = quirks sc /\ led_count sc' = led_count sc /\
  send_output_report sc' = send_output_report sc /\
  exists sent, hdev sc' = hdev sc ++ sent /\ (length sent <= 1)%nat.
Proof.
  induction ns as [|n ns IH]; simpl.
  - repeat split. exists []. rewrite app_nil_r. split; [reflexivity | simpl; lia].
  - destruct ((led0 =? arr_get (leds sc) n) && _).
    + destruct sc; simpl. repeat split. eexists. split; [reflexivity | simpl; lia].
    + exact IH.
Qed.

(** When updates are forced (Sixaxis on USB) a call for a registered LED
    always sends, whether or not the value changed. *)
Lemma led_set_brightness_loop_forced (ns : list Z) (sc : sony_sc) (led0 value force : Z) :
  force <> 0 ->
  (exists n, In n ns /\ led0 = arr_get (leds sc) n) ->
  exists value_sent,
    hdev (led_set_brightness_loop ns sc led0 value force) =
    hdev sc ++ [Hw_request value_sent].
Proof.
  intros Hf. apply truthy_true in Hf.
  induction ns as [|n ns IH]; intros (m & Hin & Hled); simpl.
  - destruct Hin.
  - rewrite Hf. simpl orb. rewrite andb_true_r.
    destruct (Z.eqb_spec led0 (arr_get (leds sc) n)) as [_|Hne].
    + destruct sc; simpl. eexists. reflexivity.
    + apply IH. exists m. split; [|exact Hled].
      destruct Hin as [<-|Hin]; [contradiction | exact Hin].
Qed.

(** On a USB Sixaxis, K calls for registered LEDs put K requests on the
    transport, one during each call, and leave the work item alone. *)
Lemma set_led_calls_forced (calls : list (Z * Z)) (sc : sony_sc) :
  Z.land (quirks sc) SIXAXIS_CONTROLLER_USB <> 0 ->
  (forall c, In c calls ->
     exists n, In n (led_indices sc) /\ fst c = arr_get (leds sc) n) ->
  let sc' := set_led_calls calls sc in
  length (hdev sc') = (length (hdev sc) + length calls)%nat /\
  state_worker sc' = state_worker sc.
Proof.
  revert sc. induction calls as [|c calls IH]; intros sc Hq Hreg; cbv zeta.
  - simpl. split; [lia | reflexivity].
  - change (set_led_calls (c :: calls) sc)
      with (set_led_calls calls (sony_led_set_brightness sc (fst c) (snd c))).
    set (sc1 := sony_led_set_brightness sc (fst c) (snd c)).
    destruct (led_set_brightness_loop_frame (led_indices sc) sc (fst c) (snd c)
                (c_not (c_not (Z.land (quirks sc) SIXAXIS_CONTROLLER_USB))))
      as (Hw & Hl & Hq1 & Hc & _ & _).
    fold (sony_led_set_brightness sc (fst c) (snd c)) in Hw, Hl, Hq1, Hc.
    fold sc1 in Hw, Hl, Hq1, Hc.
    destruct (led_set_brightness_loop_forced (led_indices sc) sc (fst c) (snd c)
                (c_not (c_not (Z.land (quirks sc) SIXAXIS_CONTROLLER_USB))))
      as (v & Hsent).
    { unfold c_not. destruct (Z.eqb_spec (Z.land (quirks sc) SIXAXIS_CONTROLLER_USB) 0);
        [contradiction | simpl; lia]. }
    { apply Hreg. left. reflexivity. }
    fold (sony_led_set_brightness sc (fst c) (snd c)) in Hsent. fold sc1 in Hsent.
    destruct (IH sc1) as [Hlen Hwork].
    { rewrite Hq1. exact Hq. }
    { intros c' Hin. unfold led_indices. rewrite Hc, Hl. apply Hreg. right. exact Hin. }
    rewrite Hlen, Hwork, Hsent, length_app. simpl. split; [lia | exact Hw].
Qed.

(** C6, on the code.  Two [sony_led_set_brightness] calls on an
    operational Bluetooth Sixaxis, LED 1 switched off and on again, with
    no tick in between: each call has already put its own request on the
    transport, in the layout of [buzz_set_leds], the first carrying the
    intermediate state; no flush was queued, and the tick that follows
    sends nothing. *)
Theorem set_led_sends_every_call :
  let sc := sixaxis_session SIXAXIS_CONTROLLER_BT 0 in
  let sc' := set_led_calls [(101, 0); (101, 1)] sc in
  hdev sc = [] /\
  hdev sc' = [Hw_request [0; 0; 0; 0; 0; 0; 0];
              Hw_request [0; 0xff; 0; 0; 0; 0; 0]] /\
  pending (state_worker sc') = false /\
  workqueue_tick true sc' = Some sc'.
Proof. vm_compute. repeat split. Qed.

(** The sibling mutator does coalesce.  [sony_led_blink_set] sends nothing
    itself and only queues the worker. *)
Lemma sony_led_blink_set_frame (sc : sony_sc) (led0 delay_on delay_off : Z) :
  let '(_, sc', _, _) := sony_led_blink_set sc led0 delay_on delay_off in
  hdev sc' = hdev sc /\ send_output_report sc' = send_output_report sc.
Proof.
  unfold sony_led_blink_set.
  destruct ((_ =? 0) && (_ =? 0)).
  - destruct (_ >=? led_count sc); [split; reflexivity|].
    destruct (negb _ || negb _); [|split; reflexivity].
    unfold sony_schedule_work.
    destruct (truthy _ && truthy _); destruct sc; split; reflexivity.
  - destruct (_ >=? led_count sc); [split; reflexivity|].
    destruct (negb _ || negb _); [|split; reflexivity].
    unfold sony_schedule_work.
    destruct (truthy _ && truthy _); destruct sc; split; reflexivity.
Qed.

(** Any run of blink changes between two ticks puts nothing on the
    transport; the tick then sends one report at most, built from the
    state after the last change. *)
Lemma blink_set_calls_coalesced (ff : bool) (calls : list (Z * Z * Z)) (sc : sony_sc) :
  send_output_report sc = send_sixaxis ->
  let sc' := blink_set_calls calls sc in
  hdev sc' = hdev sc /\
  exists sc'',
    workqueue_tick ff sc' = Some sc'' /\
    hdev sc'' =
      hdev sc ++ (if pending (state_worker sc') then [flush_of ff sc'] else []).
Proof.
  intros Hs.
  assert (Hrun : hdev (blink_set_calls calls sc) = hdev sc /\
                 send_output_report (blink_set_calls calls sc) = send_sixaxis).
  { revert sc Hs. induction calls as [|[[led0 d_on] d_off] calls IH]; intros sc Hs.
    - split; [reflexivity | exact Hs].
    - unfold blink_set_calls. simpl.
      pose proof (sony_led_blink_set_frame sc led0 d_on d_off) as Hf.
      destruct (sony_led_blink_set sc led0 d_on d_off) as [[[ret sc1] o1] o2].
      destruct Hf as [Hh Hs1].
      destruct (IH sc1) as [Hh' Hs']; [congruence|].
      unfold blink_set_calls in Hh', Hs'. split; congruence. }
  destruct Hrun as [Hh Hs']. intros sc'. fold sc' in Hh, Hs'.
  split; [exact Hh|].
  destruct (workqueue_tick_spec ff sc' Hs') as (sc'' & Ht & Hh'' & _).
  exists sc''. split; [exact Ht | congruence].
Qed.

(** Two blink changes of LED 1 and one tick: a single raw request, with
    the timing of the second change (20 on, 30 off deciseconds) in the
    last slot. *)
Example blink_set_calls_example :
  let sc := sixaxis_session SIXAXIS_CONTROLLER_BT 0 in
  let sc' := blink_set_calls [(101, 1000, 1000); (101, 200, 300)] sc in
  hdev sc' = [] /\
  exists sc'' buf,
    workqueue_tick true sc' = Some sc'' /\
    hdev sc'' = [Hw_raw_request 0x01 buf] /\
    nth 29 buf 0 = 30 /\ nth 30 buf 0 = 20.
Proof.
  split; [reflexivity|]. eexists. eexists.
  split; [vm_compute; reflexivity|]. repeat split.
Qed.

(* ================================================================== *)
(** * Further properties of the driver *)

(** ** Report descriptor fixup *)

Lemma sony_report_fixup_cases (sc : sony_sc) (rdesc : list Z) :
  sony_report_fixup sc rdesc = rdesc \/
  ((45 <= length rdesc)%nat /\
   arr_get rdesc 24 = 0x0D /\
   sony_report_fixup sc rdesc =
     arr_set (arr_set (arr_set rdesc 24 0x10) 38 0x10) 44 0x00).
Proof.
  unfold sony_report_fixup.
  destruct (truthy (Z.land (quirks sc) SIXAXIS_CONTROLLER_USB));
    [|left; reflexivity].
  destruct (Z.geb_spec (Z.of_nat (length rdesc)) 45); [|left; reflexivity].
  destruct (arr_get rdesc 23 =? 149); [|left; reflexivity].
  destruct (Z.eqb_spec (arr_get rdesc 24) 13); [|left; reflexivity].
  destruct (arr_get rdesc 37 =? 41); [|left; reflexivity].
  destruct (arr_get rdesc 38 =? 13); [|left; reflexivity].
  destruct (arr_get rdesc 43 =? 149); [|left; reflexivity].
  destruct (arr_get rdesc 44 =? 3); [|left; reflexivity].
  right. repeat split; [lia | assumption].
Qed.

(** The fixup keeps the length of the descriptor and every byte other
    than those at offsets 24, 38 and 44; it changes nothing at all on a
    session that is not a USB Sixaxis or on a descriptor shorter than 45
    bytes. *)
Theorem sony_report_fixup_frame (sc : sony_sc) (rdesc : list Z) :
  length (sony_report_fixup sc rdesc) = length rdesc /\
  (forall i : nat, i <> 24%nat -> i <> 38%nat -> i <> 44%nat ->
     sony_report_fixup sc rdesc !! i = rdesc !! i) /\
  (Z.land (quirks sc) SIXAXIS_CONTROLLER_USB = 0 \/ (length rdesc < 45)%nat ->
     sony_report_fixup sc rdesc = rdesc).
Proof.
  split; [|split].
  - destruct (sony_report_fixup_cases sc rdesc) as [-> | (_ & _ & ->)];
      [reflexivity|]. unfold arr_set. rewrite !length_insert. reflexivity.
  - intros i H24 H38 H44.
    destruct (sony_report_fixup_cases sc rdesc) as [-> | (_ & _ & ->)];
      [reflexivity|]. unfold arr_set.
    rewrite !list_lookup_insert_ne by (simpl; lia). reflexivity.
  - intros H. unfold sony_report_fixup. destruct H as [H | H].
    + apply truthy_false in H. rewrite H. reflexivity.
    + destruct (Z.geb_spec (Z.of_nat (length rdesc)) 45); [lia|].
      rewrite andb_false_r. reflexivity.
Qed.

(** Running the fixup on an already fixed descriptor changes nothing. *)
Theorem sony_report_fixup_idempotent (sc : sony_sc) (rdesc : list Z) :
  sony_report_fixup sc (sony_report_fixup sc rdesc) = sony_report_fixup sc rdesc.
Proof.
  destruct (sony_report_fixup_cases sc rdesc) as [H | (Hlen & _ & ->)];
    [rewrite !H; reflexivity|].
  set (fixed := arr_set (arr_set (arr_set rdesc 24 16) 38 16) 44 0).
  destruct (sony_report_fixup_cases sc fixed) as [-> | (_ & H24 & _)];
    [reflexivity|].
  exfalso. unfold fixed, arr_get, arr_set in H24.
  rewrite !list_lookup_total_insert_ne in H24 by (simpl; lia).
  rewrite list_lookup_total_insert_eq in H24 by (simpl; lia).
  discriminate H24.
Qed.

(** The descriptor of the buggy dongle, cut down to its first 45 bytes
    with the pattern in place, is patched at the three offsets. *)
Example sony_report_fixup_example :
  let rdesc := repeat 0 23%nat ++ [0x95; 0x0D] ++ repeat 0 12%nat
               ++ [0x29; 0x0D] ++ repeat 0 4%nat ++ [0x95; 0x03] in
  let fixed := sony_report_fixup (fresh_sc SIXAXIS_CONTROLLER_USB) rdesc in
  (arr_get fixed 24, arr_get fixed 38, arr_get fixed 44) = (0x10, 0x10, 0x00) /\
  sony_report_fixup (fresh_sc SIXAXIS_CONTROLLER_BT) rdesc = rdesc.
Proof. vm_compute. split; reflexivity. Qed.

(** ** Usage mapping of the guitar *)

(** Among 32-bit usages, [guitar_mapping] maps exactly one, the vendor
    page usage 0xFF00002C (tilt), and it maps it to the absolute axis RY;
    every other usage is left to the generic mapping. *)
Theorem guitar_mapping_tilt_only (usage_hid : Z)
    (Hrange : 0 <= usage_hid < 2 ^ 32) :
  (guitar_mapping usage_hid = (1, Some (EV_ABS, ABS_RY)) <-> usage_hid = 0xFF00002C) /\
  (usage_hid <> 0xFF00002C -> guitar_mapping usage_hid = (0, None)).
Proof.
  assert (Hsplit : usage_hid =
            Z.lor (Z.land usage_hid HID_USAGE_PAGE) (Z.land usage_hid HID_USAGE)).
  { rewrite <- Z.land_lor_distr_r.
    change (Z.lor HID_USAGE_PAGE HID_USAGE) with (Z.ones 32).
    rewrite Z.land_ones by lia. symmetry. apply Z.mod_small. exact Hrange. }
  unfold guitar_mapping.
  destruct (Z.eqb_spec (Z.land usage_hid HID_USAGE_PAGE) HID_UP_MSVENDOR) as [Hp|Hp];
    [destruct (Z.eqb_spec (Z.land usage_hid HID_USAGE) GUITAR_TILT_USAGE) as [Hu|Hu]|].
  - rewrite Hp, Hu in Hsplit. change (Z.lor HID_UP_MSVENDOR GUITAR_TILT_USAGE)
      with 0xFF00002C in Hsplit.
    split; [tauto | contradiction].
  - split; [split; [discriminate|] | reflexivity].
    intros ->. exfalso. apply Hu. reflexivity.
  - split; [split; [discriminate|] | reflexivity].
    intros ->. exfalso. apply Hp. reflexivity.
Qed.

Lemma guitar_mapping_tilt_only_witness :
  0 <= 0xFF00002C < 2 ^ 32 /\
  guitar_mapping 0xFF00002C = (1, Some (EV_ABS, ABS_RY)) /\
  guitar_mapping 0x00090001 = (0, None).
Proof.
  assert (H1 : 0 <= 0xFF00002C < 2 ^ 32) by lia.
  assert (H2 : 0 <= 0x00090001 < 2 ^ 32) by lia.
  split; [exact H1|]. split.
  - apply (proj1 (guitar_mapping_tilt_only 0xFF00002C H1)). reflexivity.
  - apply (proj2 (guitar_mapping_tilt_only 0x00090001 H2)). discriminate.
Defined.

(** ** More on the input path *)

(** The byte swaps of [sony_raw_event] undo themselves: swapping the
    swapped memory gives the incoming memory back, and no byte outside
    offsets 41..48 ever moves. *)
Theorem sixaxis_swap_axes_involution (rd : buffer) (k : Z) :
  sixaxis_swap_axes (sixaxis_swap_axes rd) k = rd k /\
  (k < 41 \/ 48 < k -> sixaxis_swap_axes rd k = rd k).
Proof.
  assert (Hout : k < 41 \/ 48 < k -> wire_offset k = k).
  { intros H. unfold wire_offset.
    repeat match goal with
           | |- context [k =? ?b] => destruct (Z.eqb_spec k b); [lia|]
           end; reflexivity. }
  rewrite !sixaxis_swap_axes_spec. split.
  - assert (Hk : k = 41 \/ k = 42 \/ k = 43 \/ k = 44 \/ k = 45 \/ k = 46
                 \/ k = 47 \/ k = 48 \/ (k < 41 \/ 48 < k)) by lia.
    destruct Hk as [-> | [-> | [-> | [-> | [-> | [-> | [-> | [-> | H]]]]]]]];
      try reflexivity.
    rewrite !(Hout H). reflexivity.
  - intros H. rewrite (Hout H). reflexivity.
Qed.

(** On a session that is not a Sixaxis (the guitar, the one device the
    id table binds) whose latch is clear, every report of every size is
    accepted and leaves the session and the report memory as they were. *)
Theorem sony_raw_event_passthrough (sc : sony_sc) (rd : buffer) (size : Z)
    (Hquirk : Z.land (quirks sc) SIXAXIS_CONTROLLER = 0)
    (Hlatch : defer_initialization sc = 0) :
  sony_raw_event sc rd size = (0, sc, rd).
Proof.
  rewrite sony_raw_event_skipped by (left; exact Hquirk).
  rewrite sony_raw_event_deferred_clear by exact Hlatch. reflexivity.
Qed.

Lemma sony_raw_event_passthrough_witness :
  let sc := fresh_sc GH_GUITAR_CONTROLLER in
  let rd := buffer_of_list (report49 1 0xff 0 [1; 2; 3; 4; 5; 6; 7; 8]) (fun _ => 0) in
  sony_raw_event sc rd 49 = (0, sc, rd).
Proof.
  intros sc rd.
  apply (sony_raw_event_passthrough sc rd 49); reflexivity.
Defined.

(** Whatever it is given, [sony_raw_event] returns 0 or [-EINVAL], hands
    nothing to the transport, and leaves the LED state and timing, the
    rumble levels, the numeric id, the address, the installed encoder and
    the worker's initialised flag as they were; the sensor device is told
    either nothing or one X, Y, Z, sync group. *)
Theorem sony_raw_event_frame (sc : sony_sc) (rd : buffer) (size : Z) :
  let '(ret, sc', _) := sony_raw_event sc rd size in
  (ret = 0 \/ ret = - EINVAL) /\
  hdev sc' = hdev sc /\
  led_state sc' = led_state sc /\
  led_delay_on sc' = led_delay_on sc /\ led_delay_off sc' = led_delay_off sc /\
  left sc' = left sc /\ right sc' = right sc /\
  device_id sc' = device_id sc /\ mac_address sc' = mac_address sc /\
  send_output_report sc' = send_output_report sc /\
  state_worker_initialized sc' = state_worker_initialized sc /\
  (sensor_dev sc' = sensor_dev sc \/
   exists x y z,
     sensor_dev sc' =
     sensor_dev sc ++ [Report_abs ABS_X x; Report_abs ABS_Y y;
                       Report_abs ABS_Z z; Sync]).
Proof.
  assert (Htail : forall s,
            let s' := sony_raw_event_deferred s in
            hdev s' = hdev s /\ led_state s' = led_state s /\
            led_delay_on s' = led_delay_on s /\ led_delay_off s' = led_delay_off s /\
            left s' = left s /\ right s' = right s /\
            device_id s' = device_id s /\ mac_address s' = mac_address s /\
            send_output_report s' = send_output_report s /\
            state_worker_initialized s' = state_worker_initialized s /\
            sensor_dev s' = sensor_dev s).
  { intros s. unfold sony_raw_event_deferred, sony_schedule_work.
    destruct s; simpl. repeat destruct_if; simpl; repeat split. }
  assert (Hparse : forall s b n,
            let s' := sixaxis_parse_report s b n in
            hdev s' = hdev s /\ led_state s' = led_state s /\
            led_delay_on s' = led_delay_on s /\ led_delay_off s' = led_delay_off s /\
            left s' = left s /\ right s' = right s /\
            device_id s' = device_id s /\ mac_address s' = mac_address s /\
            send_output_report s' = send_output_report s /\
            state_worker_initialized s' = state_worker_initialized s /\
            (sensor_dev s' = sensor_dev s \/
             exists x y z,
               sensor_dev s' =
               sensor_dev s ++ [Report_abs ABS_X x; Report_abs ABS_Y y;
                                Report_abs ABS_Z z; Sync])).
  { intros s b n. unfold sixaxis_parse_report. destruct s; simpl.
    destruct (b 30 >=? 238); simpl;
      match goal with |- context [truthy (Z.land ?q SIXAXIS_CONTROLLER)] =>
        destruct (truthy (Z.land q SIXAXIS_CONTROLLER)) end; simpl;
      repeat split; solve [left; reflexivity | right; do 3 eexists; reflexivity]. }
  unfold sony_raw_event.
  destruct (truthy (Z.land (quirks sc) SIXAXIS_CONTROLLER) && (rd 0 =? 1) && (size =? 49)).
  - destruct (rd 1 =? 255).
    + repeat split; solve [right; reflexivity | left; reflexivity].
    + specialize (Hparse sc (sixaxis_swap_axes rd) size).
      specialize (Htail (sixaxis_parse_report sc (sixaxis_swap_axes rd) size)).
      cbv zeta in Hparse, Htail.
      destruct Hparse as (P1 & P2 & P3 & P4 & P5 & P6 & P7 & P8 & P9 & P10 & P11).
      destruct Htail as (T1 & T2 & T3 & T4 & T5 & T6 & T7 & T8 & T9 & T10 & T11).
      rewrite T1, T2, T3, T4, T5, T6, T7, T8, T9, T10, T11.
      repeat split; try assumption. left. reflexivity.
  - specialize (Htail sc). cbv zeta in Htail.
    destruct Htail as (T1 & T2 & T3 & T4 & T5 & T6 & T7 & T8 & T9 & T10 & T11).
    repeat split; try assumption; left; solve [reflexivity | assumption].
Qed.

(** Two memories that agree on the 49 bytes of the report and on the
    byte at offset 76 are decoded alike: the return value and the whole
    session after [sony_raw_event] are the same. *)
Theorem sony_raw_event_reads (sc : sony_sc) (rd1 rd2 : buffer)
    (Hreport : forall k, 0 <= k < 49 -> rd1 k = rd2 k)
    (Hbeyond : rd1 76 = rd2 76) :
  fst (sony_raw_event sc rd1 49) = fst (sony_raw_event sc rd2 49).
Proof.
  assert (Hreads : forall b1 b2 : buffer,
            b1 30 = b2 30 -> b1 41 = b2 41 -> b1 42 = b2 42 -> b1 43 = b2 43 ->
            b1 44 = b2 44 -> b1 45 = b2 45 -> b1 76 = b2 76 ->
            sixaxis_parse_report sc b1 49 = sixaxis_parse_report sc b2 49).
  { intros b1 b2 H30 H41 H42 H43 H44 H45 H76.
    unfold sixaxis_parse_report, SIXAXIS_INPUT_REPORT_ACC_X_OFFSET.
    change (41 + 1) with 42. change (41 + 35) with 76. change (41 + 4) with 45.
    change (41 + 3) with 44. change (41 + 2) with 43.
    rewrite H30, H41, H42, H43, H44, H45, H76. reflexivity. }
  assert (Hparse : sixaxis_parse_report sc (sixaxis_swap_axes rd1) 49 =
                   sixaxis_parse_report sc (sixaxis_swap_axes rd2) 49).
  { apply Hreads; rewrite !sixaxis_swap_axes_spec;
      solve [exact Hbeyond | apply Hreport; cbv; split; congruence]. }
  unfold sony_raw_event.
  rewrite (Hreport 0), (Hreport 1) by lia.
  destruct (truthy (Z.land (quirks sc) SIXAXIS_CONTROLLER) && (rd2 0 =? 1) && (49 =? 49));
    [|reflexivity].
  destruct (rd2 1 =? 255); [reflexivity|].
  simpl. rewrite Hparse. reflexivity.
Qed.

Lemma sony_raw_event_reads_witness :
  let sc := fresh_sc SIXAXIS_CONTROLLER_USB in
  let report := report49 1 0 3 [1; 2; 3; 4; 5; 6; 7; 8] in
  let rd1 := buffer_of_list report (fun k => if k =? 76 then 9 else 0) in
  let rd2 := buffer_of_list report (fun k => if k =? 76 then 9 else 1) in
  fst (sony_raw_event sc rd1 49) = fst (sony_raw_event sc rd2 49).
Proof.
  intros sc report rd1 rd2.
  apply (sony_raw_event_reads sc rd1 rd2).
  - intros k Hk. unfold rd1, rd2, buffer_of_list.
    replace ((0 <=? k) && (k <? Z.of_nat (length report))) with true; [reflexivity|].
    symmetry. apply andb_true_iff. split; [apply Z.leb_le | apply Z.ltb_lt];
      change (Z.of_nat (length report)) with 49; lia.
  - reflexivity.
Defined.

(** What the power-supply class reads back after a report, the bytes
    being [u8].  A report that the Sixaxis block decodes (Sixaxis session,
    report id 0x01, 49 bytes, second byte not 0xff) is accepted, and
    after it the reads are consistent: the capacity is one of the six
    table values, hence between 0 and 100; the status is charging,
    discharging or full; and charging or full always comes with a
    capacity of 100.  After any other report, accepted or rejected,
    every property reads as it did before. *)
Theorem battery_read_after_report (sc : sony_sc) (rd : buffer) (size intval : Z)
    (Hbytes : 0 <= rd 30 < 256) :
  let decoded :=
    truthy (Z.land (quirks sc) SIXAXIS_CONTROLLER) && (rd 0 =? 0x01) && (size =? 49)
    && negb (rd 1 =? 0xff) in
  let '(ret, sc', _) := sony_raw_event sc rd size in
  (decoded = true ->
     ret = 0 /\
     exists capacity status,
       sony_battery_get_property sc' POWER_SUPPLY_PROP_CAPACITY intval = (0, capacity) /\
       sony_battery_get_property sc' POWER_SUPPLY_PROP_STATUS intval = (0, status) /\
       In capacity [0; 1; 25; 50; 75; 100] /\
       (status = power_supply_status_value POWER_SUPPLY_STATUS_CHARGING \/
        status = power_supply_status_value POWER_SUPPLY_STATUS_DISCHARGING \/
        status = power_supply_status_value POWER_SUPPLY_STATUS_FULL) /\
       (status <> power_supply_status_value POWER_SUPPLY_STATUS_DISCHARGING ->
          capacity = 100)) /\
  (decoded = false ->
     forall psp, sony_battery_get_property sc' psp intval
                 = sony_battery_get_property sc psp intval).
Proof.
  intros decoded.
  assert (Hkeep : forall s psp,
            sony_battery_get_property (sony_raw_event_deferred s) psp intval
            = sony_battery_get_property s psp intval).
  { intros s psp.
    destruct (sony_raw_event_deferred_frame s) as (_ & _ & Hc & Hs & _).
    unfold sony_battery_get_property. rewrite Hc, Hs. reflexivity. }
  destruct (truthy (Z.land (quirks sc) SIXAXIS_CONTROLLER)) eqn:Hq;
    (destruct (Z.eqb_spec (rd 0) 1) as [Hid|Hid]);
    (destruct (Z.eqb_spec size 49) as [Hsize|Hsize]);
    (destruct (Z.eqb_spec (rd 1) 255) as [Hreal|Hreal]);
    subst decoded; cbn [andb negb];
    try (rewrite sony_raw_event_skipped
           by (rewrite <- ?truthy_false; tauto);
         split; [discriminate | intros _ psp; apply Hkeep]).
  - (* the rejected report *)
    unfold sony_raw_event.
    rewrite Hq, Hid, Hsize, Hreal. cbn [andb Z.eqb Pos.eqb].
    split; [discriminate | reflexivity].
  - (* the decoded report *)
    apply truthy_true in Hq.
    rewrite sony_raw_event_decoded by assumption.
    split; [intros _ | discriminate].
    split; [reflexivity|].
    set (rd' := sixaxis_swap_axes rd).
    assert (H30 : rd' 30 = rd 30)
      by (unfold rd'; rewrite sixaxis_swap_axes_spec; reflexivity).
    destruct (sony_raw_event_deferred_frame (sixaxis_parse_report sc rd' size))
      as (_ & _ & Hc & Hs & _).
    unfold sony_battery_get_property. rewrite Hc, Hs.
    pose proof (battery_capacity_in_table sc rd' size
                  ltac:(rewrite H30; exact Hbytes)) as Hin.
    pose proof (sixaxis_parse_report_battery sc rd' size) as Hb.
    eexists. eexists. split; [reflexivity|]. split; [reflexivity|].
    split; [exact Hin|].
    destruct (rd' 30 >=? 238).
    + injection Hb as -> ->. destruct (truthy _); simpl; split; auto.
    + injection Hb as _ ->. simpl.
      split; [auto | intros H; contradiction H; reflexivity].
Qed.

Lemma battery_read_after_report_witness :
  let sc := fresh_sc SIXAXIS_CONTROLLER_BT in
  let full := buffer_of_list (report49 1 0 0xEF []) (fun _ => 0) in
  let short := buffer_of_list [1; 0; 0; 0; 0; 0; 0; 0; 0; 0] (fun _ => 0) in
  (let '(ret, sc', _) := sony_raw_event sc full 49 in
   ret = 0 /\
   sony_battery_get_property sc' POWER_SUPPLY_PROP_CAPACITY 7 = (0, 100) /\
   sony_battery_get_property sc' POWER_SUPPLY_PROP_STATUS 7
   = (0, power_supply_status_value POWER_SUPPLY_STATUS_FULL)) /\
  (let '(_, sc', _) := sony_raw_event sc short 10 in
   sony_battery_get_property sc' POWER_SUPPLY_PROP_STATUS 7
   = (0, power_supply_status_value POWER_SUPPLY_STATUS_UNKNOWN)).
Proof.
  intros sc full short. split.
  - pose proof (battery_read_after_report sc full 49 7) as H.
    assert (Hbytes : 0 <= full 30 < 256) by (vm_compute; split; congruence).
    specialize (H Hbytes). cbv zeta in H.
    destruct (sony_raw_event sc full 49) as [[ret sc'] rd'] eqn:Hrun.
    destruct H as [H _]. destruct (H eq_refl) as (Hret & _).
    split; [exact Hret|].
    injection Hrun as _ <- _. split; reflexivity.
  - pose proof (battery_read_after_report sc short 10 7) as H.
    assert (Hbytes : 0 <= short 30 < 256) by (vm_compute; split; congruence).
    specialize (H Hbytes). cbv zeta in H.
    destruct (sony_raw_event sc short 10) as [[ret sc'] rd'].
    destruct H as [_ H]. exact (H eq_refl POWER_SUPPLY_PROP_STATUS).
Defined.

(** ** The bytes of the output report *)

Lemma sixaxis_led_timing_fold_frame (sc : sony_sc) (ns : list Z)
    (r : sixaxis_output_report) :
  let r' := fold_left (sixaxis_led_timing sc) ns r in
  report_id r' = report_id r /\ rumble r' = rumble r /\
  padding r' = padding r /\ reserved r' = reserved r.
Proof.
  revert r. induction ns as [|n ns IH]; intros r; simpl; [repeat split|].
  destruct (IH (sixaxis_led_timing sc r n)) as (-> & -> & -> & ->).
  unfold sixaxis_led_timing. destruct (truthy _ || truthy _); repeat split.
Qed.

(** The transmitted buffer, byte for byte. *)
Lemma sixaxis_report_bytes (ff : bool) (sc : sony_sc) :
  let report := sixaxis_build_report ff sc in
  buf_of_report report =
  [0x01;
   0x01; 0xff; (if ff then if truthy (right sc) then 1 else 0 else 0x00);
   0xff; (if ff then left sc else 0x00);
   0x00; 0x00; 0x00; 0x00; leds_bitmap report;
   0xff; 0x27; 0x10; duty_off (led_slot report 0); duty_on (led_slot report 0);
   0xff; 0x27; 0x10; duty_off (led_slot report 1); duty_on (led_slot report 1);
   0xff; 0x27; 0x10; duty_off (led_slot report 2); duty_on (led_slot report 2);
   0xff; 0x27; 0x10; duty_off (led_slot report 3); duty_on (led_slot report 3);
   0x00; 0x00; 0x00; 0x00; 0x00].
Proof.
  intros report.
  pose proof (sixaxis_build_report_led ff sc) as Hled. cbv zeta in Hled.
  fold report in Hled.
  assert (Hfields :
            report_id report = 1 /\
            rumble report =
              mk_sixaxis_rumble 0x01 0xff
                (if ff then if truthy (right sc) then 1 else 0 else 0x00) 0xff
                (if ff then left sc else 0x00) /\
            padding report = [0; 0; 0; 0] /\
            reserved report = mk_sixaxis_led 0 0 0 0 0).
  { unfold report, sixaxis_build_report.
    set (r := if Z.land _ 30 =? 0 then _ else _).
    destruct (sixaxis_led_timing_fold_frame sc [0; 1; 2; 3] r) as (-> & -> & -> & ->).
    unfold r. destruct ff; destruct_if; repeat split. }
  destruct Hfields as (Hid & Hrumble & Hpad & Hres).
  unfold buf_of_report, led_slot. rewrite Hid, Hrumble, Hpad, Hres, Hled.
  destruct (truthy (arr_get (led_delay_on sc) 0) || truthy (arr_get (led_delay_off sc) 0));
  destruct (truthy (arr_get (led_delay_on sc) 1) || truthy (arr_get (led_delay_off sc) 1));
  destruct (truthy (arr_get (led_delay_on sc) 2) || truthy (arr_get (led_delay_off sc) 2));
  destruct (truthy (arr_get (led_delay_on sc) 3) || truthy (arr_get (led_delay_off sc) 3));
    reflexivity.
Qed.

(** Length, report id and motor bytes of the transmitted buffer. *)
Lemma sixaxis_report_motor_bytes (ff : bool) (sc : sony_sc) :
  let buf := buf_of_report (sixaxis_build_report ff sc) in
  length buf = 36%nat /\ nth 0 buf 0 = 0x01 /\
  nth 3 buf 0 = (if ff then if right sc =? 0 then 0 else 1 else 0) /\
  nth 5 buf 0 = (if ff then left sc else 0).
Proof.
  intros buf. unfold buf. rewrite sixaxis_report_bytes. simpl.
  unfold truthy. destruct ff, (right sc =? 0); repeat split.
Qed.

(** The report handed to the transport always has 36 bytes and report
    id 1, and outside the small motor byte (offset 3), the large motor
    byte (5), the LED bitmap (10) and the eight timing bytes (14, 15, 19,
    20, 24, 25, 29, 30) it is the factory-default template, whatever the
    session holds. *)
Theorem sixaxis_report_template (ff : bool) (sc : sony_sc) :
  let buf := buf_of_report (sixaxis_build_report ff sc) in
  length buf = 36%nat /\
  nth 0 buf 0 = 0x01 /\
  forall i : nat,
    ~ In i [3; 5; 10; 14; 15; 19; 20; 24; 25; 29; 30]%nat ->
    nth i buf 0 = nth i default_report 0.
Proof.
  intros buf. unfold buf. rewrite sixaxis_report_bytes.
  split; [reflexivity|]. split; [reflexivity|].
  intros i Hi.
  do 36 (destruct i as [|i];
         [first [reflexivity | exfalso; apply Hi; simpl; tauto]|]).
  destruct i; reflexivity.
Qed.

(** The two motor bytes: with rumble compiled in, byte 3 is 1 when the
    small-motor level is non-zero and 0 otherwise, and byte 5 is the
    large-motor level; without it both are the template's zero. *)
Theorem sixaxis_report_rumble (ff : bool) (sc : sony_sc) :
  let buf := buf_of_report (sixaxis_build_report ff sc) in
  nth 3 buf 0 = (if ff then if right sc =? 0 then 0 else 1 else 0) /\
  nth 5 buf 0 = (if ff then left sc else 0).
Proof.
  intros buf. unfold buf. rewrite sixaxis_report_bytes. simpl.
  unfold truthy. destruct ff, (right sc =? 0); split; reflexivity.
Qed.

(** The struct view and the byte view of the report are inverse to each
    other: 36 bytes read as the struct and written back are the same
    bytes, and a struct with its four padding bytes and four timing slots
    written out and read back is the same struct. *)
Theorem report_buf_round_trip (buf : list Z) (r : sixaxis_output_report)
    (Hbuf : length buf = 36%nat)
    (Hpadding : length (padding r) = 4%nat) (Hled : length (led r) = 4%nat) :
  buf_of_report (report_of_buf buf) = buf /\
  report_of_buf (buf_of_report r) = r.
Proof.
  split.
  - do 36 (destruct buf as [|? buf]; [discriminate Hbuf|]).
    destruct buf; [reflexivity | discriminate Hbuf].
  - destruct r as [id [rp rd rm ld lf] pad bitmap slots res]. simpl in *.
    do 4 (destruct pad as [|? pad]; [discriminate Hpadding|]).
    destruct pad; [|discriminate Hpadding].
    do 4 (destruct slots as [|[? ? ? ? ?] slots]; [discriminate Hled|]).
    destruct slots; [|discriminate Hled].
    destruct res. reflexivity.
Qed.

Lemma report_buf_round_trip_witness :
  let r := sixaxis_build_report true (sixaxis_session SIXAXIS_CONTROLLER_USB 0) in
  length default_report = 36%nat /\
  buf_of_report (report_of_buf default_report) = default_report /\
  report_of_buf (buf_of_report r) = r.
Proof.
  intros r. split; [reflexivity|].
  apply (report_buf_round_trip default_report r); reflexivity.
Defined.

(** ** The scheduler through the life of a session *)

(** [sony_schedule_work] changes the work item and nothing else, and it
    queues the item exactly when the latch is clear and the worker is
    initialised. *)
Lemma sony_schedule_work_spec (sc : sony_sc) :
  sony_schedule_work sc SONY_WORKER_STATE =
  set_state_worker
    (if (defer_initialization sc =? 0) && truthy (state_worker_initialized sc)
     then mk_work true else state_worker sc) sc.
Proof.
  unfold sony_schedule_work, schedule_work. rewrite truthy_c_not.
  destruct ((defer_initialization sc =? 0) && truthy (state_worker_initialized sc));
    destruct sc as [? ? ? ? [[|]] ? ? ? ? ? ? ? ? ? ? ? ? ?]; reflexivity.
Qed.

(** Closes a goal about the session that [sony_schedule_work] returns,
    by cases on the latch and the initialised flag. *)
Ltac schedule_work_frame sc :=
  let Hd := fresh "Hd" in
  let Hi := fresh "Hi" in
  rewrite sony_schedule_work_spec;
  destruct sc as [hd sd ls q sw so id l r mac swi di bc bs st don doff lc];
  cbn [hdev send_output_report defer_initialization state_worker_initialized
       state_worker set_state_worker set_led_delay_off set_led_delay_on
       set_left set_right led_delay_on led_delay_off];
  destruct (Z.eqb_spec di 0) as [Hd|Hd];
  destruct (truthy swi) eqn:Hi; cbn [andb];
  repeat split; try (left; reflexivity);
  right; apply truthy_true in Hi; repeat split; assumption.

(** A scheduled mutation sends nothing and leaves the encoder, the latch
    and the initialised flag alone; the work item is either untouched or
    pending. *)
Lemma apply_mutation_frame (sc : sony_sc) (m : scheduled_mutation) :
  let sc' := apply_mutation sc m in
  hdev sc' = hdev sc /\
  send_output_report sc' = send_output_report sc /\
  defer_initialization sc' = defer_initialization sc /\
  state_worker_initialized sc' = state_worker_initialized sc /\
  (state_worker sc' = state_worker sc \/
   (defer_initialization sc = 0 /\ state_worker_initialized sc <> 0 /\
    state_worker sc' = mk_work true)).
Proof.
  destruct m as [led0 d_on d_off | effect_type strong weak]; cbv zeta.
  - unfold apply_mutation, sony_led_blink_set.
    destruct ((_ =? 0) && (_ =? 0)); cbv beta iota zeta;
      (destruct (_ >=? led_count sc); [repeat split; left; reflexivity|]);
      (destruct (negb _ || negb _); [|repeat split; left; reflexivity]);
      schedule_work_frame sc.
  - unfold apply_mutation, sony_play_effect.
    destruct (negb (effect_type =? FF_RUMBLE)); cbn [snd];
      [repeat split; left; reflexivity|].
    schedule_work_frame sc.
Qed.

Lemma apply_mutations_frame (ms : list scheduled_mutation) (sc : sony_sc) :
  let sc' := apply_mutations ms sc in
  hdev sc' = hdev sc /\
  send_output_report sc' = send_output_report sc /\
  defer_initialization sc' = defer_initialization sc /\
  state_worker_initialized sc' = state_worker_initialized sc /\
  (state_worker sc' = state_worker sc \/
   (defer_initialization sc = 0 /\ state_worker_initialized sc <> 0 /\
    state_worker sc' = mk_work true)).
Proof.
  revert sc. induction ms as [|m ms IH]; intros sc; cbv zeta.
  - simpl. repeat split. left. reflexivity.
  - change (apply_mutations (m :: ms) sc)
      with (apply_mutations ms (apply_mutation sc m)).
    destruct (apply_mutation_frame sc m) as (H1 & H2 & H3 & H4 & H5).
    destruct (IH (apply_mutation sc m)) as (I1 & I2 & I3 & I4 & I5).
    rewrite I1, I2, I3, I4, H1, H2, H3, H4. repeat split.
    destruct I5 as [I5 | (Id & Ii & I5)].
    + rewrite I5. exact H5.
    + right. rewrite <- H3, <- H4. repeat split; assumption.
Qed.

(** The tick on a session with the encoder installed. *)
Lemma workqueue_tick_sends (ff : bool) (sc : sony_sc) :
  send_output_report sc = send_sixaxis ->
  exists sc',
    workqueue_tick ff sc = Some sc' /\
    hdev sc' = hdev sc ++ (if pending (state_worker sc) then [flush_of ff sc] else []) /\
    pending (state_worker sc') = false /\
    send_output_report sc' = send_sixaxis.
Proof.
  intros Hs. unfold workqueue_tick, sony_state_worker.
  destruct (pending (state_worker sc)) eqn:Hp.
  - replace (send_output_report (set_state_worker (mk_work false) sc))
      with send_sixaxis by (destruct sc; exact (eq_sym Hs)).
    eexists; split; [reflexivity|].
    unfold sixaxis_send_output_report, flush_of.
    rewrite sixaxis_build_report_frame. destruct sc; simpl in *.
    repeat split. exact Hs.
  - exists sc. rewrite app_nil_r. repeat split; assumption.
Qed.

(** Coalescing.  Any run of blink and rumble changes between two ticks,
    in any order and of any length, puts nothing on the transport; the
    tick that follows sends one report at most, built from the state
    after the last change, and leaves nothing pending, so that the tick
    after it sends nothing. *)
Theorem mutations_coalesced (ff : bool) (ms : list scheduled_mutation) (sc : sony_sc)
    (Hsender : send_output_report sc = send_sixaxis) :
  let sc' := apply_mutations ms sc in
  hdev sc' = hdev sc /\
  exists sc1 sc2,
    workqueue_tick ff sc' = Some sc1 /\
    hdev sc1 =
      hdev sc ++ (if pending (state_worker sc') then [flush_of ff sc'] else []) /\
    workqueue_tick ff sc1 = Some sc2 /\
    hdev sc2 = hdev sc1.
Proof.
  intros sc'.
  destruct (apply_mutations_frame ms sc) as (Hh & Hs & _). fold sc' in Hh, Hs.
  split; [exact Hh|].
  destruct (workqueue_tick_sends ff sc') as (sc1 & Ht1 & Hh1 & Hp1 & Hs1);
    [congruence|].
  destruct (workqueue_tick_sends ff sc1 Hs1) as (sc2 & Ht2 & Hh2 & _).
  exists sc1, sc2. rewrite Hp1, app_nil_r in Hh2.
  repeat split; congruence.
Qed.

Lemma mutations_coalesced_witness :
  let sc := sixaxis_session SIXAXIS_CONTROLLER_BT 0 in
  let sc' := apply_mutations
               [Blink_set 101 1000 1000; Play_effect FF_RUMBLE 0x8000 0;
                Blink_set 101 200 300] sc in
  hdev sc' = hdev sc /\
  exists sc1 sc2,
    workqueue_tick true sc' = Some sc1 /\
    hdev sc1 =
      hdev sc ++ (if pending (state_worker sc') then [flush_of true sc'] else []) /\
    workqueue_tick true sc1 = Some sc2 /\
    hdev sc2 = hdev sc1.
Proof.
  intros sc.
  apply (mutations_coalesced true
           [Blink_set 101 1000 1000; Play_effect FF_RUMBLE 0x8000 0;
            Blink_set 101 200 300] sc).
  reflexivity.
Defined.

(** Once [sony_cancel_work_sync] has run on an initialised worker, no
    flush can follow: whatever blink and rumble changes come afterwards,
    nothing is queued, nothing has been sent, and a tick does nothing.
    Cancelling again changes nothing. *)
Theorem sony_cancel_work_sync_final (ff : bool) (ms : list scheduled_mutation)
    (sc : sony_sc)
    (Hinit : state_worker_initialized sc <> 0) :
  let sc0 := sony_cancel_work_sync sc in
  let sc' := apply_mutations ms sc0 in
  state_worker_initialized sc' = 0 /\
  pending (state_worker sc') = false /\
  hdev sc' = hdev sc /\
  workqueue_tick ff sc' = Some sc' /\
  sony_cancel_work_sync sc0 = sc0.
Proof.
  intros sc0 sc'.
  assert (H0 : state_worker_initialized sc0 = 0 /\ state_worker sc0 = mk_work false
               /\ hdev sc0 = hdev sc).
  { unfold sc0, sony_cancel_work_sync. apply truthy_true in Hinit. rewrite Hinit.
    destruct sc; repeat split. }
  destruct H0 as (Hi0 & Hw0 & Hh0).
  destruct (apply_mutations_frame ms sc0) as (Hh & _ & _ & Hi & Hw).
  fold sc' in Hh, Hi, Hw.
  assert (Hp : state_worker sc' = mk_work false).
  { destruct Hw as [Hw | (_ & Hne & _)]; [congruence | contradiction]. }
  split; [congruence|]. split; [rewrite Hp; reflexivity|]. split; [congruence|].
  split.
  - unfold workqueue_tick. rewrite Hp. reflexivity.
  - unfold sony_cancel_work_sync at 1. unfold truthy. rewrite Hi0. reflexivity.
Qed.

Lemma sony_cancel_work_sync_final_witness :
  let sc := snd (sony_play_effect (sixaxis_session SIXAXIS_CONTROLLER_USB 0)
                   FF_RUMBLE 0xffff 0xffff) in
  let sc0 := sony_cancel_work_sync sc in
  let sc' := apply_mutations [Play_effect FF_RUMBLE 0 0; Blink_set 102 10 10] sc0 in
  pending (state_worker sc) = true /\
  state_worker_initialized sc' = 0 /\
  pending (state_worker sc') = false /\
  hdev sc' = hdev sc /\
  workqueue_tick true sc' = Some sc' /\
  sony_cancel_work_sync sc0 = sc0.
Proof.
  intros sc. split; [reflexivity|].
  apply (sony_cancel_work_sync_final true
           [Play_effect FF_RUMBLE 0 0; Blink_set 102 10 10] sc).
  vm_compute. congruence.
Defined.

Lemma to_u8_small (z : Z) : 0 <= z < 256 -> to_u8 z = z.
Proof.
  intros Hz. unfold to_u8. change 255 with (Z.ones 8).
  rewrite Z.land_ones by lia. apply Z.mod_small. exact Hz.
Qed.

(** After [sony_init_output_report] on a session whose latch is clear, a
    rumble request is flushed by the next tick, once: one report is sent,
    built from the state at the tick.  Initialising twice is the same as
    once, and initialising an already initialised worker keeps its work
    item, pending or not. *)
Theorem sony_init_output_report_operational (ff : bool) (sc : sony_sc)
    (strong weak : Z)
    (Hlatch : defer_initialization sc = 0) :
  let sc1 := sony_init_output_report sc send_sixaxis in
  let sc2 := snd (sony_play_effect sc1 FF_RUMBLE strong weak) in
  (exists sc3,
     workqueue_tick ff sc2 = Some sc3 /\
     hdev sc3 = hdev sc ++ [flush_of ff sc2] /\
     pending (state_worker sc3) = false) /\
  sony_init_output_report sc1 send_sixaxis = sc1 /\
  (state_worker_initialized sc <> 0 -> state_worker sc1 = state_worker sc).
Proof.
  intros sc1 sc2.
  assert (H1 : hdev sc1 = hdev sc /\ send_output_report sc1 = send_sixaxis /\
               defer_initialization sc1 = 0 /\ state_worker_initialized sc1 = 1).
  { unfold sc1, sony_init_output_report. destruct sc; simpl in *.
    destruct_if; repeat split; assumption. }
  destruct H1 as (Hh1 & Hs1 & Hd1 & Hi1).
  split; [|split].
  - destruct (apply_mutation_frame sc1 (Play_effect FF_RUMBLE strong weak))
      as (Hh2 & Hs2 & _ & _ & _).
    change (apply_mutation sc1 (Play_effect FF_RUMBLE strong weak)) with sc2 in Hh2, Hs2.
    assert (Hp : pending (state_worker sc2) = true).
    { unfold sc2, sony_play_effect. change (negb (FF_RUMBLE =? FF_RUMBLE)) with false.
      cbv iota. cbn [snd]. rewrite sony_schedule_work_spec.
      replace (defer_initialization (set_right _ (set_left _ sc1))) with 0
        by (destruct sc1; simpl in *; congruence).
      replace (state_worker_initialized (set_right _ (set_left _ sc1))) with 1
        by (destruct sc1; simpl in *; congruence).
      destruct sc1; reflexivity. }
    destruct (workqueue_tick_sends ff sc2) as (sc3 & Ht & Hh3 & Hp3 & _);
      [congruence|].
    exists sc3. rewrite Hp in Hh3. repeat split; congruence.
  - unfold sony_init_output_report at 1.
    replace (state_worker_initialized (set_send_output_report send_sixaxis sc1))
      with 1 by (destruct sc1; simpl in *; congruence).
    change (truthy (c_not 1)) with false. cbv iota.
    clear sc2. clearbody sc1. destruct sc1; simpl in *. congruence.
  - intros Hinit. unfold sc1, sony_init_output_report.
    replace (state_worker_initialized (set_send_output_report send_sixaxis sc))
      with (state_worker_initialized sc) by (destruct sc; reflexivity).
    rewrite truthy_c_not.
    destruct (Z.eqb_spec (state_worker_initialized sc) 0); [contradiction|].
    destruct sc; reflexivity.
Qed.

Lemma sony_init_output_report_operational_witness :
  let sc := fresh_sc SIXAXIS_CONTROLLER_BT in
  let sc1 := sony_init_output_report sc send_sixaxis in
  let sc2 := snd (sony_play_effect sc1 FF_RUMBLE 0x4000 0x100) in
  defer_initialization sc = 0 /\
  exists sc3,
    workqueue_tick true sc2 = Some sc3 /\
    hdev sc3 = hdev sc ++ [flush_of true sc2] /\
    pending (state_worker sc3) = false.
Proof.
  intros sc sc1 sc2. split; [reflexivity|].
  exact (proj1 (sony_init_output_report_operational true sc 0x4000 0x100 eq_refl)).
Defined.

(** A rumble effect on an operational session: the call itself sends
    nothing and stores the two magnitudes divided by 256; the next tick
    sends one report whose byte 5 is the strong magnitude over 256 and
    whose byte 3 is 1 exactly when the weak magnitude is at least 256.  An
    effect of any other type changes nothing. *)
Theorem sony_play_effect_flushed (sc : sony_sc) (effect_type strong weak : Z)
    (Hstrong : 0 <= strong < 65536) (Hweak : 0 <= weak < 65536)
    (Hsender : send_output_report sc = send_sixaxis)
    (Hinit : state_worker_initialized sc <> 0)
    (Hlatch : defer_initialization sc = 0) :
  let sc' := snd (sony_play_effect sc FF_RUMBLE strong weak) in
  hdev sc' = hdev sc /\
  left sc' = strong / 256 /\ right sc' = weak / 256 /\
  (exists sc'' buf,
     workqueue_tick true sc' = Some sc'' /\
     hdev sc'' = hdev sc ++ [Hw_raw_request 0x01 buf] /\
     length buf = 36%nat /\
     nth 5 buf 0 = strong / 256 /\
     nth 3 buf 0 = (if weak <? 256 then 0 else 1)) /\
  (effect_type <> FF_RUMBLE ->
     sony_play_effect sc effect_type strong weak = (0, sc)).
Proof.
  intros sc'.
  assert (Hs8 : to_u8 (strong / 256) = strong / 256).
  { apply to_u8_small. split; [apply Z.div_pos; lia | apply Z.div_lt_upper_bound; lia]. }
  assert (Hw8 : to_u8 (weak / 256) = weak / 256).
  { apply to_u8_small. split; [apply Z.div_pos; lia | apply Z.div_lt_upper_bound; lia]. }
  assert (Hsc' : sc' = set_state_worker (mk_work true)
                         (set_right (weak / 256) (set_left (strong / 256) sc))).
  { unfold sc', sony_play_effect. change (negb (FF_RUMBLE =? FF_RUMBLE)) with false.
    cbv iota. cbn [snd]. rewrite sony_schedule_work_spec, Hs8, Hw8.
    replace (defer_initialization (set_right _ (set_left _ sc))) with 0
      by (destruct sc; simpl in *; congruence).
    replace (state_worker_initialized (set_right _ (set_left _ sc)))
      with (state_worker_initialized sc) by (destruct sc; reflexivity).
    apply truthy_true in Hinit. rewrite Hinit. reflexivity. }
  assert (Hl : left sc' = strong / 256) by (rewrite Hsc'; destruct sc; reflexivity).
  assert (Hr : right sc' = weak / 256) by (rewrite Hsc'; destruct sc; reflexivity).
  assert (Hh : hdev sc' = hdev sc) by (rewrite Hsc'; destruct sc; reflexivity).
  assert (Hp : pending (state_worker sc') = true)
    by (rewrite Hsc'; destruct sc; reflexivity).
  assert (Hs : send_output_report sc' = send_sixaxis)
    by (rewrite Hsc'; destruct sc; exact Hsender).
  split; [exact Hh|]. split; [exact Hl|]. split; [exact Hr|]. split.
  - destruct (workqueue_tick_sends true sc' Hs) as (sc'' & Ht & Hh'' & _).
    rewrite Hp, Hh in Hh''. unfold flush_of in Hh''.
    destruct (sixaxis_report_motor_bytes true sc') as (Hlen & Hid & H3 & H5).
    exists sc'', (buf_of_report (sixaxis_build_report true sc')).
    split; [exact Ht|]. split.
    + rewrite Hh''. do 3 f_equal.
      pose proof (sixaxis_report_bytes true sc') as Hb. cbv zeta in Hb.
      change (report_id (sixaxis_build_report true sc'))
        with (nth 0 [report_id (sixaxis_build_report true sc')] 0).
      transitivity (nth 0 (buf_of_report (sixaxis_build_report true sc')) 0);
        [reflexivity | exact Hid].
    + split; [exact Hlen|]. split; [rewrite H5, Hl; reflexivity|].
      rewrite H3, Hr.
      destruct (Z.ltb_spec weak 256) as [Hlt|Hge].
      * rewrite Z.div_small by lia. reflexivity.
      * destruct (Z.eqb_spec (weak / 256) 0) as [H0|]; [|reflexivity].
        apply Z.div_small_iff in H0; lia.
  - intros Hne. unfold sony_play_effect.
    destruct (Z.eqb_spec effect_type FF_RUMBLE); [contradiction | reflexivity].
Qed.

Lemma sony_play_effect_flushed_witness :
  let sc := sixaxis_session SIXAXIS_CONTROLLER_USB 0 in
  let sc' := snd (sony_play_effect sc FF_RUMBLE 0x8000 0x00ff) in
  hdev sc' = hdev sc /\ left sc' = 128 /\ right sc' = 0 /\
  exists sc'' buf,
    workqueue_tick true sc' = Some sc'' /\
    hdev sc'' = hdev sc ++ [Hw_raw_request 0x01 buf] /\
    length buf = 36%nat /\
    nth 5 buf 0 = 0x8000 / 256 /\
    nth 3 buf 0 = (if 0x00ff <? 256 then 0 else 1).
Proof.
  intros sc sc'.
  destruct (sony_play_effect_flushed sc 0 0x8000 0x00ff) as (H1 & H2 & H3 & H4 & _);
    try (vm_compute; congruence); try lia.
  repeat split; assumption.
Defined.

Lemma sixaxis_build_report_id (ff : bool) (sc : sony_sc) :
  report_id (sixaxis_build_report ff sc) = 0x01.
Proof.
  unfold sixaxis_build_report.
  set (r := if Z.land _ 30 =? 0 then _ else _).
  destruct (sixaxis_led_timing_fold_frame sc [0; 1; 2; 3] r) as (-> & _).
  unfold r. destruct ff; destruct_if; reflexivity.
Qed.

Lemma sixaxis_build_report_hdev (ff : bool) (sc : sony_sc) (h : list hid_tx) :
  sixaxis_build_report ff (set_hdev h sc) = sixaxis_build_report ff sc.
Proof. destruct sc; reflexivity. Qed.

(** Suspend with rumble compiled in stops both motors and, when an
    encoder is installed, sends at once one report with the motor bytes
    at zero and the LED byte as the session has it; the LED state and the
    work item are not touched.  Without an encoder, or without rumble
    compiled in, nothing is sent. *)
Theorem sony_suspend_stops_rumble (sc : sony_sc) :
  let sc' := snd (sony_suspend true sc) in
  fst (sony_suspend true sc) = 0 /\
  left sc' = 0 /\ right sc' = 0 /\
  led_state sc' = led_state sc /\ state_worker sc' = state_worker sc /\
  hdev sc' =
    hdev sc ++
    match send_output_report sc with
    | send_sixaxis =>
        [Hw_raw_request 0x01 (buf_of_report (sixaxis_build_report true sc'))]
    | send_null => []
    end /\
  nth 3 (buf_of_report (sixaxis_build_report true sc')) 0 = 0 /\
  nth 5 (buf_of_report (sixaxis_build_report true sc')) 0 = 0 /\
  leds_bitmap (sixaxis_build_report true sc') = leds_bitmap (sixaxis_build_report true sc) /\
  sony_suspend false sc = (0, sc).
Proof.
  intros sc'.
  set (s0 := set_left 0 (set_right 0 sc)).
  assert (Hsc' : sc' = match send_output_report sc with
                       | send_sixaxis => sixaxis_send_output_report true s0
                       | send_null => s0
                       end).
  { unfold sc', sony_suspend, sony_send_output_report, s0.
    change (truthy SONY_FF_SUPPORT) with true. cbv iota.
    destruct sc as [? ? ? ? ? [|] ? ? ? ? ? ? ? ? ? ? ? ?]; reflexivity. }
  assert (Hfields : left sc' = 0 /\ right sc' = 0 /\ led_state sc' = led_state sc
                    /\ state_worker sc' = state_worker sc).
  { rewrite Hsc'. unfold s0, sixaxis_send_output_report.
    destruct sc as [? ? ? ? ? [|] ? ? ? ? ? ? ? ? ? ? ? ?]; repeat split. }
  destruct Hfields as (Hl & Hr & Hst & Hw).
  destruct (sixaxis_report_motor_bytes true sc') as (_ & _ & H3 & H5).
  rewrite Hr in H3. rewrite Hl in H5.
  split; [reflexivity|]. split; [exact Hl|]. split; [exact Hr|].
  split; [exact Hst|]. split; [exact Hw|].
  split; [|split; [exact H3 | split; [exact H5|split]]].
  - rewrite Hsc' at 1.
    assert (Hbuild : sixaxis_build_report true sc' = sixaxis_build_report true s0).
    { rewrite Hsc'. destruct (send_output_report sc); [reflexivity|].
      unfold sixaxis_send_output_report. apply sixaxis_build_report_hdev. }
    rewrite Hbuild.
    destruct (send_output_report sc).
    + rewrite app_nil_r. unfold s0. destruct sc; reflexivity.
    + unfold sixaxis_send_output_report. rewrite sixaxis_build_report_id.
      replace (hdev (set_hdev _ s0)) with
        (hdev sc ++ [Hw_raw_request 1 (buf_of_report (sixaxis_build_report true s0))]);
        [reflexivity|].
      generalize (Hw_raw_request 1 (buf_of_report (sixaxis_build_report true s0))).
      intros tx. unfold s0. destruct sc; reflexivity.
  - rewrite !sixaxis_build_report_bitmap, Hst. reflexivity.
  - reflexivity.
Qed.

(** ** LEDs *)

(** The default pattern of a numeric id: [sixaxis_set_leds_from_id] stores
    row [id mod 10] of the table, so ids ten apart share a pattern and ids
    that differ modulo 10 never do; every pattern has an LED lit and holds
    only 0 and 1. *)
Theorem sixaxis_set_leds_from_id_pattern (sc sc2 : sony_sc)
    (Hid : 0 <= device_id sc) (Hid2 : 0 <= device_id sc2)
    (Hlen : length (led_state sc) = 4%nat)
    (Hlen2 : length (led_state sc2) = 4%nat) :
  let leds1 := led_state (sixaxis_set_leds_from_id sc) in
  let leds2 := led_state (sixaxis_set_leds_from_id sc2) in
  leds1 = nth (Z.to_nat (device_id sc mod 10)) sixaxis_leds [] /\
  (leds1 = leds2 <-> device_id sc mod 10 = device_id sc2 mod 10) /\
  (exists n, 0 <= n < 4 /\ arr_get leds1 n = 1) /\
  led_states_boolean (sixaxis_set_leds_from_id sc).
Proof.
  assert (Hrow : forall s, 0 <= device_id s -> length (led_state s) = 4%nat ->
            led_state (sixaxis_set_leds_from_id s) =
            nth (Z.to_nat (device_id s mod 10)) sixaxis_leds []).
  { intros s Hs Hl. unfold sixaxis_set_leds_from_id.
    destruct (Z.ltb_spec (device_id s) 0) as [|_]; [lia|].
    rewrite Z.rem_mod_nonneg by lia.
    pose proof (Z.mod_pos_bound (device_id s) 10 ltac:(lia)) as Hm.
    set (id := device_id s mod 10) in *.
    replace (led_state (set_led_state _ s))
      with (nth (Z.to_nat id) sixaxis_leds [] ++
            skipn (length (nth (Z.to_nat id) sixaxis_leds [])) (led_state s))
      by (destruct s; reflexivity).
    destruct (led_state s) as [|a [|b [|c [|d [|]]]]]; try discriminate Hl.
    assert (Hc : id = 0 \/ id = 1 \/ id = 2 \/ id = 3 \/ id = 4 \/ id = 5
                 \/ id = 6 \/ id = 7 \/ id = 8 \/ id = 9) by lia.
    destruct Hc as [-> | [-> | [-> | [-> | [-> | [-> | [-> | [-> | [-> | ->]]]]]]]]];
      reflexivity. }
  intros leds1 leds2. unfold leds1, leds2.
  rewrite (Hrow sc Hid Hlen), (Hrow sc2 Hid2 Hlen2).
  pose proof (Z.mod_pos_bound (device_id sc) 10 ltac:(lia)) as Hm1.
  pose proof (Z.mod_pos_bound (device_id sc2) 10 ltac:(lia)) as Hm2.
  split; [reflexivity|]. split; [|split].
  - set (i := device_id sc mod 10) in *. set (j := device_id sc2 mod 10) in *.
    split; [|intros ->; reflexivity].
    assert (Hi : i = 0 \/ i = 1 \/ i = 2 \/ i = 3 \/ i = 4 \/ i = 5
                 \/ i = 6 \/ i = 7 \/ i = 8 \/ i = 9) by lia.
    assert (Hj : j = 0 \/ j = 1 \/ j = 2 \/ j = 3 \/ j = 4 \/ j = 5
                 \/ j = 6 \/ j = 7 \/ j = 8 \/ j = 9) by lia.
    clearbody i j.
    destruct Hi as [-> | [-> | [-> | [-> | [-> | [-> | [-> | [-> | [-> | ->]]]]]]]]];
    destruct Hj as [-> | [-> | [-> | [-> | [-> | [-> | [-> | [-> | [-> | ->]]]]]]]]];
      intros H; first [reflexivity | discriminate H].
  - set (i := device_id sc mod 10) in *.
    assert (Hi : i = 0 \/ i = 1 \/ i = 2 \/ i = 3 \/ i = 4 \/ i = 5
                 \/ i = 6 \/ i = 7 \/ i = 8 \/ i = 9) by lia.
    clearbody i.
    destruct Hi as [-> | [-> | [-> | [-> | [-> | [-> | [-> | [-> | [-> | ->]]]]]]]]];
      first [exists 0; split; [lia | reflexivity]
            | exists 1; split; [lia | reflexivity]
            | exists 2; split; [lia | reflexivity]
            | exists 3; split; [lia | reflexivity]].
  - apply sixaxis_set_leds_from_id_boolean. exact Hid.
Qed.

Lemma sixaxis_set_leds_from_id_pattern_witness :
  let sc := set_device_id 4 (sixaxis_session SIXAXIS_CONTROLLER_USB 0) in
  let sc2 := set_device_id 14 (sixaxis_session SIXAXIS_CONTROLLER_BT 0) in
  led_state (sixaxis_set_leds_from_id sc) = [1; 0; 0; 1] /\
  led_state (sixaxis_set_leds_from_id sc2) = [1; 0; 0; 1].
Proof.
  intros sc sc2.
  destruct (sixaxis_set_leds_from_id_pattern sc sc2) as (H1 & H2 & _);
    try reflexivity; try (vm_compute; congruence).
  split; [exact H1|]. rewrite <- (proj2 H2 eq_refl). exact H1.
Defined.

Lemma sony_led_set_brightness_boolean_witness :
  let sc := sixaxis_session SIXAXIS_CONTROLLER_USB 0 in
  led_states_boolean (sony_led_set_brightness sc 103 1).
Proof.
  intros sc. apply (sony_led_set_brightness_boolean sc 103 1).
  - intros n Hn. led_index_cases n; vm_compute; tauto.
  - right. reflexivity.
Defined.

(** The shape of a session with its LEDs registered. *)
Lemma leds_registered_shape (sc : sony_sc) :
  leds_registered sc ->
  led_indices sc = [0; 1; 2; 3] /\
  exists a b c d,
    leds sc = [a; b; c; d] /\
    (a =? b) = false /\ (a =? c) = false /\ (a =? d) = false /\
    (b =? a) = false /\ (b =? c) = false /\ (b =? d) = false /\
    (c =? a) = false /\ (c =? b) = false /\ (c =? d) = false /\
    (d =? a) = false /\ (d =? b) = false /\ (d =? c) = false.
Proof.
  intros ((Hl & _) & Hc & Hnd). split.
  - unfold led_indices. rewrite Hc. reflexivity.
  - destruct (leds sc) as [|a [|b [|c [|d [|]]]]]; try discriminate Hl.
    exists a, b, c, d. split; [reflexivity|].
    rewrite !NoDup_cons, !elem_of_cons, !elem_of_nil in Hnd.
    repeat split; apply Z.eqb_neq; intros ->; tauto.
Qed.

Lemma arr_get_set_same (a : list Z) (n v : Z) :
  (Z.to_nat n < length a)%nat -> arr_get (arr_set a n v) n = v.
Proof. intros H. unfold arr_get, arr_set. apply list_lookup_total_insert_eq, H. Qed.

Lemma arr_get_set_other (a : list Z) (n m v : Z) :
  0 <= n -> 0 <= m -> n <> m -> arr_get (arr_set a n v) m = arr_get a m.
Proof.
  intros Hn Hm Hne. unfold arr_get, arr_set.
  apply list_lookup_total_insert_ne. lia.
Qed.

(** What [sony_led_set_brightness] does for the LED registered at index
    [n]: the loop stops there, and only there. *)
Lemma sony_led_set_brightness_registered (sc : sony_sc) (n value : Z) :
  leds_registered sc -> 0 <= n < 4 ->
  sony_led_set_brightness sc (arr_get (leds sc) n) value =
  if truthy (c_not (c_not (Z.land (quirks sc) SIXAXIS_CONTROLLER_USB)))
     || (negb (value =? arr_get (led_state sc) n)
         || truthy (arr_get (led_delay_on sc) n)
         || truthy (arr_get (led_delay_off sc) n))
  then
    sony_set_leds
      (set_led_delay_off (arr_set (led_delay_off sc) n 0)
         (set_led_delay_on (arr_set (led_delay_on sc) n 0)
            (set_led_state (arr_set (led_state sc) n (to_u8 value)) sc)))
  else sc.
Proof.
  intros Hreg Hn.
  destruct (leds_registered_shape sc Hreg)
    as (Hidx & a & b & c & d & Hleds & Hab & Hac & Had & Hba & Hbc & Hbd
        & Hca & Hcb & Hcd & Hda & Hdb & Hdc).
  unfold sony_led_set_brightness. rewrite Hidx.
  generalize (c_not (c_not (Z.land (quirks sc) SIXAXIS_CONTROLLER_USB))).
  intros force. cbn [led_set_brightness_loop]. rewrite Hleds.
  led_index_cases n;
    change (arr_get [a; b; c; d] 0) with a;
    change (arr_get [a; b; c; d] 1) with b;
    change (arr_get [a; b; c; d] 2) with c;
    change (arr_get [a; b; c; d] 3) with d;
    rewrite ?Z.eqb_refl, ?Hab, ?Hac, ?Had, ?Hba, ?Hbc, ?Hbd,
            ?Hca, ?Hcb, ?Hcd, ?Hda, ?Hdb, ?Hdc;
    cbn [andb];
    destruct_if; try reflexivity;
    destruct sc; reflexivity.
Qed.

Lemma sony_led_get_brightness_registered (sc : sony_sc) (n : Z) :
  leds_registered sc -> 0 <= n < 4 ->
  sony_led_get_brightness sc (arr_get (leds sc) n) = arr_get (led_state sc) n.
Proof.
  intros Hreg Hn.
  destruct (leds_registered_shape sc Hreg)
    as (Hidx & a & b & c & d & Hleds & Hab & Hac & Had & Hba & Hbc & Hbd
        & Hca & Hcb & Hcd & Hda & Hdb & Hdc).
  unfold sony_led_get_brightness. rewrite Hidx.
  cbn [led_get_brightness_loop]. rewrite Hleds.
  led_index_cases n;
    change (arr_get [a; b; c; d] 0) with a;
    change (arr_get [a; b; c; d] 1) with b;
    change (arr_get [a; b; c; d] 2) with c;
    change (arr_get [a; b; c; d] 3) with d;
    rewrite ?Z.eqb_refl, ?Hab, ?Hac, ?Had, ?Hba, ?Hbc, ?Hbd,
            ?Hca, ?Hcb, ?Hcd, ?Hda, ?Hdb, ?Hdc;
    reflexivity.
Qed.

(** The session after an effective brightness change of LED [n]. *)
Lemma brightness_update_fields (sc : sony_sc) (n v : Z) :
  let sc' :=
    sony_set_leds
      (set_led_delay_off (arr_set (led_delay_off sc) n 0)
         (set_led_delay_on (arr_set (led_delay_on sc) n 0)
            (set_led_state (arr_set (led_state sc) n v) sc))) in
  leds sc' = leds sc /\ led_count sc' = led_count sc /\
  mac_address sc' = mac_address sc /\
  led_state sc' = arr_set (led_state sc) n v /\
  led_delay_on sc' = arr_set (led_delay_on sc) n 0 /\
  led_delay_off sc' = arr_set (led_delay_off sc) n 0.
Proof. destruct sc; repeat split. Qed.

(** Brightness written and read back.  For the LED registered at index
    [n] and a brightness that fits a byte, [sony_led_get_brightness] after
    [sony_led_set_brightness] returns the value written; the other three
    LEDs read as before; and the LED no longer blinks: both its delays
    are zero, so the encoder leaves the template timing in its slot. *)
Theorem led_brightness_round_trip (ff : bool) (sc : sony_sc) (n value : Z)
    (Hreg : leds_registered sc) (Hn : 0 <= n < 4) (Hvalue : 0 <= value < 256) :
  let led0 := arr_get (leds sc) n in
  let sc' := sony_led_set_brightness sc led0 value in
  sony_led_get_brightness sc' led0 = value /\
  (forall m, 0 <= m < 4 -> m <> n ->
     sony_led_get_brightness sc' (arr_get (leds sc) m) =
     sony_led_get_brightness sc (arr_get (leds sc) m)) /\
  arr_get (led_delay_on sc') n = 0 /\ arr_get (led_delay_off sc') n = 0 /\
  led_slot (sixaxis_build_report ff sc') (Z.to_nat (3 - n)) =
    default_led (Z.to_nat (3 - n)).
Proof.
  intros led0 sc'.
  assert (Hsizes := Hreg). destruct Hsizes as ((Hl & Hst & Hon & Hoff & Hmac & _) & Hc & Hnd).
  assert (Hfacts : leds_registered sc' /\ leds sc' = leds sc /\
                   arr_get (led_state sc') n = value /\
                   (forall m, 0 <= m < 4 -> m <> n ->
                      arr_get (led_state sc') m = arr_get (led_state sc) m) /\
                   arr_get (led_delay_on sc') n = 0 /\
                   arr_get (led_delay_off sc') n = 0).
  { unfold sc', led0. rewrite sony_led_set_brightness_registered by assumption.
    destruct (truthy _ || _) eqn:Hcond.
    - destruct (brightness_update_fields sc n (to_u8 value))
        as (E1 & E2 & E3 & E4 & E5 & E6).
      cbv zeta in E1, E2, E3, E4, E5, E6.
      split; [|split; [exact E1|]].
      + unfold leds_registered, sc_arrays_sized.
        rewrite E1, E2, E3, E4, E5, E6. unfold arr_set.
        rewrite !length_insert. repeat split; try assumption; lia.
      + rewrite E4, E5, E6.
        rewrite !arr_get_set_same by lia. rewrite to_u8_small by exact Hvalue.
        repeat split. intros m Hm Hne. apply arr_get_set_other; lia.
    - apply orb_false_iff in Hcond as [_ Hcond].
      apply orb_false_iff in Hcond as [Hcond Hoff0].
      apply orb_false_iff in Hcond as [Hval Hon0].
      apply negb_false_iff, Z.eqb_eq in Hval.
      apply truthy_false in Hon0. apply truthy_false in Hoff0.
      split; [exact Hreg|]. repeat split; try assumption; congruence. }
  destruct Hfacts as (Hreg' & Hleds & Hval & Hothers & Hon0 & Hoff0).
  split; [|split; [|split; [exact Hon0 | split; [exact Hoff0|]]]].
  - unfold led0. rewrite <- Hleds.
    rewrite sony_led_get_brightness_registered by assumption. exact Hval.
  - intros m Hm Hne. rewrite <- Hleds at 1.
    rewrite !sony_led_get_brightness_registered by assumption.
    apply Hothers; assumption.
  - unfold led_slot.
    pose proof (sixaxis_build_report_led ff sc') as Hled. cbv zeta in Hled.
    rewrite Hled. clear Hled. clearbody sc'.
    led_index_cases n; cbn [Z.to_nat Z.sub Z.opp Z.pos_sub Pos.to_nat Pos.iter_op
                            Init.Nat.add nth Z.add Pos.pred_double];
      rewrite Hon0, Hoff0; reflexivity.
Qed.

Lemma led_registered_example :
  leds_registered (sixaxis_session SIXAXIS_CONTROLLER_BT 0).
Proof.
  unfold leds_registered, sc_arrays_sized. cbn.
  split; [repeat split; lia|]. split; [reflexivity|].
  repeat (apply NoDup_cons_2; [rewrite ?elem_of_cons, elem_of_nil; intuition lia|]).
  apply NoDup_nil_2.
Qed.

Lemma led_brightness_round_trip_witness :
  let sc := sixaxis_session SIXAXIS_CONTROLLER_BT 0 in
  let sc' := sony_led_set_brightness sc 103 1 in
  sony_led_get_brightness sc' 103 = 1 /\
  sony_led_get_brightness sc' 101 = 1 /\
  sony_led_get_brightness sc' 102 = 0.
Proof.
  intros sc sc'.
  destruct (led_brightness_round_trip true sc 2 1 led_registered_example
              ltac:(lia) ltac:(lia)) as (H1 & _).
  split; [exact H1|]. split; reflexivity.
Defined.

(** An LED that is not registered with the session: setting its
    brightness changes nothing and sends nothing, reading it gives
    [LED_OFF], and a blink request is refused with [-EINVAL], the session
    untouched. *)
Theorem led_not_registered (sc : sony_sc) (led0 value delay_on delay_off : Z)
    (Hforeign : forall n, In n (led_indices sc) -> arr_get (leds sc) n <> led0) :
  sony_led_set_brightness sc led0 value = sc /\
  sony_led_get_brightness sc led0 = LED_OFF /\
  exists d_on d_off,
    sony_led_blink_set sc led0 delay_on delay_off = (- EINVAL, sc, d_on, d_off).
Proof.
  assert (Hmiss : forall n, In n (led_indices sc) ->
                    (led0 =? arr_get (leds sc) n) = false).
  { intros n Hin. apply Z.eqb_neq. intros ->. exact (Hforeign n Hin eq_refl). }
  clear Hforeign. split; [|split].
  - unfold sony_led_set_brightness.
    generalize (c_not (c_not (Z.land (quirks sc) SIXAXIS_CONTROLLER_USB))).
    intros force. revert Hmiss. generalize (led_indices sc).
    intros ns. induction ns as [|n ns IH]; intros Hmiss; [reflexivity|].
    cbn [led_set_brightness_loop]. rewrite (Hmiss n) by (left; reflexivity).
    apply IH. intros m Hm. apply Hmiss. right. exact Hm.
  - unfold sony_led_get_brightness. revert Hmiss. generalize (led_indices sc).
    intros ns. induction ns as [|n ns IH]; intros Hmiss; [reflexivity|].
    cbn [led_get_brightness_loop]. rewrite (Hmiss n) by (left; reflexivity).
    apply IH. intros m Hm. apply Hmiss. right. exact Hm.
  - assert (Hfind : led_blink_find (led_indices sc) sc led0 = led_count sc).
    { revert Hmiss. generalize (led_indices sc).
      intros ns. induction ns as [|n ns IH]; intros Hmiss; [reflexivity|].
      cbn [led_blink_find]. rewrite (Hmiss n) by (left; reflexivity).
      apply IH. intros m Hm. apply Hmiss. right. exact Hm. }
    unfold sony_led_blink_set. rewrite Hfind.
    destruct_if; cbv beta iota zeta;
      (destruct (Z.geb_spec (led_count sc) (led_count sc)); [|lia]);
      eexists; eexists; reflexivity.
Qed.

Lemma led_not_registered_witness :
  let sc := sixaxis_session SIXAXIS_CONTROLLER_USB 0 in
  sony_led_set_brightness sc 999 1 = sc /\
  sony_led_get_brightness sc 999 = LED_OFF /\
  exists d_on d_off, sony_led_blink_set sc 999 0 0 = (- EINVAL, sc, d_on, d_off).
Proof.
  intros sc. apply (led_not_registered sc 999 1 0 0).
  intros n Hin. unfold sc in Hin. vm_compute in Hin.
  destruct Hin as [<- | [<- | [<- | [<- | []]]]]; vm_compute; congruence.
Defined.

Lemma led_blink_find_registered (sc : sony_sc) (n : Z) :
  leds_registered sc -> 0 <= n < 4 ->
  led_blink_find (led_indices sc) sc (arr_get (leds sc) n) = n.
Proof.
  intros Hreg Hn.
  destruct (leds_registered_shape sc Hreg)
    as (Hidx & a & b & c & d & Hleds & Hab & Hac & Had & Hba & Hbc & Hbd
        & Hca & Hcb & Hcd & Hda & Hdb & Hdc).
  rewrite Hidx. cbn [led_blink_find]. rewrite Hleds.
  led_index_cases n;
    change (arr_get [a; b; c; d] 0) with a;
    change (arr_get [a; b; c; d] 1) with b;
    change (arr_get [a; b; c; d] 2) with c;
    change (arr_get [a; b; c; d] 3) with d;
    rewrite ?Z.eqb_refl, ?Hab, ?Hac, ?Had, ?Hba, ?Hbc, ?Hbd,
            ?Hca, ?Hcb, ?Hcd, ?Hda, ?Hdb, ?Hdc;
    reflexivity.
Qed.

(** What [sony_led_blink_set] does for the LED registered at index [n]. *)
Lemma sony_led_blink_set_registered (sc : sony_sc) (n delay_on delay_off : Z) :
  leds_registered sc -> 0 <= n < 4 ->
  sony_led_blink_set sc (arr_get (leds sc) n) delay_on delay_off =
  let d := blink_delays delay_on delay_off in
  let new_on := to_u8 (fst d / 10) in
  let new_off := to_u8 (snd d / 10) in
  if negb (new_on =? arr_get (led_delay_on sc) n)
     || negb (new_off =? arr_get (led_delay_off sc) n)
  then
    (0,
     sony_schedule_work
       (set_led_delay_off (arr_set (led_delay_off sc) n new_off)
          (set_led_delay_on (arr_set (led_delay_on sc) n new_on) sc))
       SONY_WORKER_STATE,
     fst d, snd d)
  else (0, sc, fst d, snd d).
Proof.
  intros Hreg Hn. unfold sony_led_blink_set, blink_delays.
  rewrite led_blink_find_registered by assumption.
  destruct Hreg as (_ & Hc & _). rewrite Hc.
  destruct ((_ =? 0) && (_ =? 0)); cbv beta iota zeta; cbn [fst snd];
    (destruct (Z.geb_spec n 4); [lia|]);
    destruct_if; try reflexivity;
    destruct sc; reflexivity.
Qed.

(** A blink request for the LED registered at index [n], with delays in
    milliseconds.  It succeeds; the delays written back are the requested
    ones capped at 2550, or 500 each when both were zero; what is stored
    for the LED is those delays in deciseconds, which fit a byte; the
    call sends nothing and leaves the LED states and the timing of the
    other LEDs alone; and the same request made again changes nothing
    more, so it queues no second flush. *)
Theorem sony_led_blink_set_stored (sc : sony_sc) (n delay_on delay_off : Z)
    (Hreg : leds_registered sc) (Hn : 0 <= n < 4)
    (Hon : 0 <= delay_on) (Hoff : 0 <= delay_off) :
  let led0 := arr_get (leds sc) n in
  let '(ret, sc', d_on, d_off) := sony_led_blink_set sc led0 delay_on delay_off in
  ret = 0 /\
  d_on = (if (delay_on =? 0) && (delay_off =? 0) then 500 else Z.min delay_on 2550) /\
  d_off = (if (delay_on =? 0) && (delay_off =? 0) then 500 else Z.min delay_off 2550) /\
  arr_get (led_delay_on sc') n = d_on / 10 /\
  arr_get (led_delay_off sc') n = d_off / 10 /\
  0 <= d_on / 10 <= 255 /\ 0 <= d_off / 10 <= 255 /\
  (forall m, 0 <= m < 4 -> m <> n ->
     arr_get (led_delay_on sc') m = arr_get (led_delay_on sc) m /\
     arr_get (led_delay_off sc') m = arr_get (led_delay_off sc) m) /\
  led_state sc' = led_state sc /\ hdev sc' = hdev sc /\
  sony_led_blink_set sc' led0 delay_on delay_off = (0, sc', d_on, d_off).
Proof.
  intros led0. unfold led0.
  assert (Hsizes := Hreg).
  destruct Hsizes as ((Hl & Hst & Hlon & Hloff & Hmac & Hcnt) & Hc & Hnd).
  rewrite sony_led_blink_set_registered by assumption. cbv zeta.
  set (d := blink_delays delay_on delay_off).
  assert (Hd : fst d = (if (delay_on =? 0) && (delay_off =? 0) then 500
                        else Z.min delay_on 2550) /\
               snd d = (if (delay_on =? 0) && (delay_off =? 0) then 500
                        else Z.min delay_off 2550)).
  { unfold d, blink_delays.
    destruct (Z.gtb_spec delay_on 2550), (Z.gtb_spec delay_off 2550),
             (Z.eqb_spec delay_on 0), (Z.eqb_spec delay_off 0);
      try lia; cbn [andb fst snd Z.eqb]; split; try reflexivity;
      try (rewrite Z.min_l by lia; reflexivity);
      try (rewrite Z.min_r by lia; reflexivity);
      repeat match goal with
             | |- context [?a =? 0] =>
                 destruct (Z.eqb_spec a 0); try lia; cbn [andb fst snd]
             end;
      try (rewrite Z.min_l by lia; reflexivity);
      try (rewrite Z.min_r by lia; reflexivity). }
  destruct Hd as [Hd1 Hd2].
  assert (Hr1 : 0 <= fst d / 10 <= 255).
  { rewrite Hd1. destruct ((delay_on =? 0) && (delay_off =? 0)).
    - change (500 / 10) with 50. lia.
    - split; [apply Z.div_pos; lia|].
      assert (Z.min delay_on 2550 / 10 < 256); [|lia].
      apply Z.div_lt_upper_bound; lia. }
  assert (Hr2 : 0 <= snd d / 10 <= 255).
  { rewrite Hd2. destruct ((delay_on =? 0) && (delay_off =? 0)).
    - change (500 / 10) with 50. lia.
    - split; [apply Z.div_pos; lia|].
      assert (Z.min delay_off 2550 / 10 < 256); [|lia].
      apply Z.div_lt_upper_bound; lia. }
  rewrite !to_u8_small by lia.
  set (new_on := fst d / 10) in *. set (new_off := snd d / 10) in *.
  rewrite <- Hd1, <- Hd2.
  destruct (negb (new_on =? arr_get (led_delay_on sc) n)
            || negb (new_off =? arr_get (led_delay_off sc) n)) eqn:Hchg.
  - set (sc1 := set_led_delay_off (arr_set (led_delay_off sc) n new_off)
                  (set_led_delay_on (arr_set (led_delay_on sc) n new_on) sc)).
    rewrite sony_schedule_work_spec.
    match goal with |- context [set_state_worker ?x sc1] => set (w := x) end.
    assert (Hf : leds (set_state_worker w sc1) = leds sc /\
                 led_count (set_state_worker w sc1) = led_count sc /\
                 mac_address (set_state_worker w sc1) = mac_address sc /\
                 led_state (set_state_worker w sc1) = led_state sc /\
                 hdev (set_state_worker w sc1) = hdev sc /\
                 led_delay_on (set_state_worker w sc1) = arr_set (led_delay_on sc) n new_on /\
                 led_delay_off (set_state_worker w sc1) = arr_set (led_delay_off sc) n new_off).
    { clearbody w. unfold sc1. destruct sc; repeat split. }
    clearbody w sc1.
    destruct Hf as (F1 & F2 & F3 & F4 & F5 & F6 & F7).
    assert (Hreg' : leds_registered (set_state_worker w sc1)).
    { unfold leds_registered, sc_arrays_sized.
      rewrite F1, F2, F3, F4, F6, F7. unfold arr_set. rewrite !length_insert.
      repeat split; try assumption; lia. }
    rewrite F4, F5, F6, F7. rewrite !arr_get_set_same by lia.
    repeat split; try reflexivity; try lia.
    + apply arr_get_set_other; lia.
    + apply arr_get_set_other; lia.
    + rewrite <- F1. rewrite sony_led_blink_set_registered by assumption.
      cbv zeta. fold d. rewrite !to_u8_small by lia. fold new_on new_off.
      rewrite F6, F7, !arr_get_set_same by lia.
      rewrite !Z.eqb_refl. reflexivity.
  - assert (Hsame := Hchg).
    apply orb_false_iff in Hsame as [Hs1 Hs2].
    apply negb_false_iff, Z.eqb_eq in Hs1. apply negb_false_iff, Z.eqb_eq in Hs2.
    assert (Hagain : sony_led_blink_set sc (arr_get (leds sc) n) delay_on delay_off
                     = (0, sc, fst d, snd d)).
    { rewrite sony_led_blink_set_registered by assumption.
      cbv zeta. fold d. rewrite !to_u8_small by lia. fold new_on new_off.
      rewrite Hchg. reflexivity. }
    repeat split; try reflexivity; try lia;
      solve [symmetry; assumption | exact Hagain].
Qed.

Lemma sony_led_blink_set_stored_witness :
  let sc := sixaxis_session SIXAXIS_CONTROLLER_BT 0 in
  let '(ret, sc', d_on, d_off) := sony_led_blink_set sc 102 3000 5 in
  ret = 0 /\ d_on = 2550 /\ d_off = 5 /\
  arr_get (led_delay_on sc') 1 = 255 /\ arr_get (led_delay_off sc') 1 = 0.
Proof.
  intros sc.
  pose proof (sony_led_blink_set_stored sc 1 3000 5 led_registered_example
                ltac:(lia) ltac:(lia) ltac:(lia)) as H.
  cbv zeta in H. change (arr_get (leds sc) 1) with 102 in H.
  destruct (sony_led_blink_set sc 102 3000 5) as [[[ret sc'] d_on] d_off].
  destruct H as (H1 & H2 & H3 & H4 & H5 & _).
  rewrite H4, H5, H2, H3. repeat split; assumption.
Defined.

(** ** More on the device list *)

Lemma memcmp_mac_zero_iff (m1 m2 : list Z) :
  length m1 = 6%nat -> length m2 = 6%nat -> memcmp m1 m2 6 = 0 <-> m1 = m2.
Proof.
  intros H1 H2. rewrite memcmp_zero_iff by lia.
  rewrite <- H1 at 1. rewrite <- H2 at 1. rewrite !firstn_all. reflexivity.
Qed.

Lemma dev_list_scan_none_iff (sc : sony_sc) (entries : list sony_sc) :
  length (mac_address sc) = 6%nat ->
  Forall (fun e => length (mac_address e) = 6%nat) entries ->
  dev_list_scan sc entries = None <->
  ~ In (mac_address sc) (map mac_address entries).
Proof.
  intros Hsc Hall. induction Hall as [|e entries He Hall IH]; simpl.
  - tauto.
  - rewrite truthy_c_not.
    destruct (Z.eqb_spec (memcmp (mac_address sc) (mac_address e) 6) 0) as [H0|H0];
      rewrite memcmp_mac_zero_iff in H0 by assumption.
    + split; [destruct (truthy _); discriminate|]. intros H. exfalso. apply H.
      left. symmetry. exact H0.
    + rewrite IH. split; [intros H [Heq|Hin]; [apply H0; symmetry|]; tauto | tauto].
Qed.

Lemma dev_list_scan_some (sc : sony_sc) (entries : list sony_sc) (ret : Z) :
  dev_list_scan sc entries = Some ret -> ret = 1 \/ ret = - EEXIST.
Proof.
  induction entries as [|e entries IH]; simpl; [discriminate|].
  destruct (truthy (c_not _)); [|exact IH].
  destruct (truthy _); intros H; injection H as <-; tauto.
Qed.

(** The device list never holds an address twice.  On a list of sessions
    with pairwise distinct six-byte addresses, [sony_check_add_dev_list]
    returns 0, 1 or [-EEXIST]; it returns 0 exactly when the address is
    not in the list yet, and then links the session at the head; in the
    two other cases the list is left as it is; and the addresses of the
    resulting list are again pairwise distinct. *)
Theorem sony_check_add_dev_list_distinct (sc : sony_sc) (entries : list sony_sc)
    (Hmac : length (mac_address sc) = 6%nat)
    (Hmacs : Forall (fun e => length (mac_address e) = 6%nat) entries)
    (Hdistinct : List.NoDup (map mac_address entries)) :
  let '(ret, entries') := sony_check_add_dev_list sc entries in
  (ret = 0 \/ ret = 1 \/ ret = - EEXIST) /\
  (ret = 0 <-> ~ In (mac_address sc) (map mac_address entries)) /\
  (ret = 0 -> entries' = sc :: entries) /\
  (ret <> 0 -> entries' = entries) /\
  List.NoDup (map mac_address entries') /\
  Forall (fun e => length (mac_address e) = 6%nat) entries'.
Proof.
  pose proof (dev_list_scan_none_iff sc entries Hmac Hmacs) as Hnone.
  unfold sony_check_add_dev_list.
  destruct (dev_list_scan sc entries) as [ret|] eqn:Hscan.
  - assert (Hin : In (mac_address sc) (map mac_address entries)).
    { destruct (List.in_dec (List.list_eq_dec Z.eq_dec) (mac_address sc)
                  (map mac_address entries)) as [Hin|Hnin]; [exact Hin|].
      apply Hnone in Hnin. discriminate Hnin. }
    assert (Hret : ret = 1 \/ ret = - EEXIST)
      by exact (dev_list_scan_some sc entries ret Hscan).
    assert (Hnz : ret <> 0) by (destruct Hret as [-> | ->]; discriminate).
    split; [right; exact Hret|]. split; [split; [intros H|intros H]; contradiction|].
    split; [intros H; contradiction|]. split; [intros _; reflexivity|].
    split; assumption.
  - assert (Hfresh : ~ In (mac_address sc) (map mac_address entries))
      by (apply Hnone; reflexivity).
    split; [left; reflexivity|]. split; [split; [intros _; exact Hfresh | reflexivity]|].
    split; [intros _; reflexivity|]. split; [intros H; contradiction H; reflexivity|].
    split.
    + simpl. apply List.NoDup_cons; assumption.
    + apply Forall_cons; split; assumption.
Qed.

Lemma sony_check_add_dev_list_distinct_witness :
  let a := session_with_mac SIXAXIS_CONTROLLER_USB [1; 2; 3; 4; 5; 6] in
  let b := session_with_mac SIXAXIS_CONTROLLER_BT [6; 5; 4; 3; 2; 1] in
  let '(ret, entries') := sony_check_add_dev_list b [a] in
  ret = 0 /\ entries' = [b; a] /\ List.NoDup (map mac_address entries').
Proof.
  intros a b.
  pose proof (sony_check_add_dev_list_distinct b [a]) as H.
  destruct (sony_check_add_dev_list b [a]) as [ret entries'] eqn:Hrun.
  destruct H as (_ & H0 & Hlist & _ & Hnd & _).
  - reflexivity.
  - repeat constructor.
  - repeat constructor. intros [].
  - assert (Hret : ret = 0).
    { apply H0. intros [Heq | []]. discriminate Heq. }
    split; [exact Hret|]. split; [apply Hlist, Hret | exact Hnd].
Defined.

(** ** Reading the address, [sony_check_add] *)

(** The address of a Sixaxis on USB is bytes 4..9 of feature report 0xf2
    in reverse order, and the registration is then decided by
    [sony_check_add_dev_list] on the session carrying that address. *)
Theorem sony_check_add_usb_address (sc : sony_sc) (bt_devaddr : Z * list Z)
    (buf : list Z) (sony_device_list : list sony_sc)
    (Hnot_bt : Z.land (quirks sc) SIXAXIS_CONTROLLER_BT = 0)
    (Husb : Z.land (quirks sc) SIXAXIS_CONTROLLER_USB <> 0)
    (Hmac : length (mac_address sc) = 6%nat)
    (Hbuf : (10 <= length buf)%nat) :
  let '(ret, sc', l) := sony_check_add sc bt_devaddr (Some (17, buf)) sony_device_list in
  mac_address sc' = rev (firstn 6 (skipn 4 buf)) /\
  quirks sc' = quirks sc /\
  (ret, l) = sony_check_add_dev_list sc' sony_device_list.
Proof.
  unfold sony_check_add. apply truthy_false in Hnot_bt. apply truthy_true in Husb.
  rewrite Hnot_bt, Husb. change (negb (17 =? 17)) with false. cbv iota.
  assert (Hm : mac_address (sixaxis_mac_of_report sc buf) = rev (firstn 6 (skipn 4 buf))
               /\ quirks (sixaxis_mac_of_report sc buf) = quirks sc).
  { unfold sixaxis_mac_of_report.
    destruct sc as [? ? ? ? ? ? ? ? ? mac ? ? ? ? ? ? ? ?]. simpl in Hmac.
    do 6 (destruct mac as [|? mac]; [discriminate Hmac|]).
    destruct mac; [|discriminate Hmac].
    do 10 (destruct buf as [|? buf]; [simpl in Hbuf; lia|]).
    split; reflexivity. }
  destruct Hm as [Hm Hq].
  destruct (sony_check_add_dev_list (sixaxis_mac_of_report sc buf) sony_device_list)
    as [ret l] eqn:Hrun.
  cbv beta iota zeta. repeat split; solve [assumption | symmetry; exact Hrun].
Qed.

Lemma sony_check_add_usb_address_witness :
  let sc := fresh_sc SIXAXIS_CONTROLLER_USB in
  let buf := [0xf2; 0xff; 0xff; 0x00; 0x00; 0x1b; 0xfb; 0x12; 0x34; 0x56;
              0; 0; 0; 0; 0; 0; 0] in
  let '(ret, sc', l) := sony_check_add sc (0, []) (Some (17, buf)) [] in
  mac_address sc' = [0x56; 0x34; 0x12; 0xfb; 0x1b; 0x00] /\ ret = 0 /\ l = [sc'].
Proof.
  intros sc buf.
  pose proof (sony_check_add_usb_address sc (0, []) buf []) as H.
  destruct (sony_check_add sc (0, []) (Some (17, buf)) []) as [[ret sc'] l].
  destruct H as (Hm & _ & Hrun); try reflexivity;
    try (vm_compute; congruence); try (simpl; lia).
  split; [exact Hm|].
  unfold sony_check_add_dev_list in Hrun. simpl in Hrun.
  injection Hrun as -> ->. split; reflexivity.
Defined.

(** [sony_check_add] leaves the device list alone whenever it does not
    get an address to check: for a device that is not a Sixaxis and for
    a Bluetooth Sixaxis whose address cannot be parsed it returns 0, the
    duplicate check skipped; when the buffer cannot be allocated it
    returns [-ENOMEM]; when the feature request does not return 17 bytes
    it returns the request's own error, or [-EINVAL] for a short answer. *)
Theorem sony_check_add_no_address (sc : sony_sc) (bt_devaddr : Z * list Z)
    (f2 : option (Z * list Z)) (sony_device_list : list sony_sc) :
  let '(ret, sc', l) := sony_check_add sc bt_devaddr f2 sony_device_list in
  (Z.land (quirks sc) SIXAXIS_CONTROLLER = 0 ->
     ret = 0 /\ sc' = sc /\ l = sony_device_list) /\
  (Z.land (quirks sc) SIXAXIS_CONTROLLER_BT <> 0 -> fst bt_devaddr < 0 ->
     ret = 0 /\ l = sony_device_list) /\
  (Z.land (quirks sc) SIXAXIS_CONTROLLER_BT = 0 ->
   Z.land (quirks sc) SIXAXIS_CONTROLLER_USB <> 0 ->
     (f2 = None -> ret = - ENOMEM /\ sc' = sc /\ l = sony_device_list) /\
     (forall r buf, f2 = Some (r, buf) -> r <> 17 ->
        ret < 0 /\ (r < 0 -> ret = r) /\ (0 <= r -> ret = - EINVAL) /\
        sc' = sc /\ l = sony_device_list)).
Proof.
  unfold sony_check_add.
  destruct (truthy (Z.land (quirks sc) SIXAXIS_CONTROLLER_BT)) eqn:Hbt.
  - apply truthy_true in Hbt.
    destruct (Z.ltb_spec (fst bt_devaddr) 0) as [Hneg|Hpos].
    + split; [|split].
      * intros H6. exfalso. apply Hbt.
        apply Z.bits_inj'. intros k Hk. rewrite Z.bits_0, Z.land_spec.
        assert (Hk6 : Z.testbit (Z.land (quirks sc) SIXAXIS_CONTROLLER) k = false)
          by (rewrite H6; apply Z.bits_0).
        rewrite Z.land_spec in Hk6.
        destruct (Z.eq_dec k 2) as [->|Hk2].
        -- change (Z.testbit SIXAXIS_CONTROLLER 2) with true in Hk6.
           change (Z.testbit SIXAXIS_CONTROLLER_BT 2) with true. exact Hk6.
        -- replace (Z.testbit SIXAXIS_CONTROLLER_BT k) with false;
             [apply andb_false_r|].
           symmetry. change SIXAXIS_CONTROLLER_BT with (2 ^ 2).
           apply Z.pow2_bits_false. congruence.
      * intros _ _. split; reflexivity.
      * intros H. contradiction.
    + destruct (sony_check_add_dev_list _ sony_device_list) as [ret l].
      split; [|split].
      * intros H6. exfalso. apply Hbt.
        apply Z.bits_inj'. intros k Hk. rewrite Z.bits_0, Z.land_spec.
        assert (Hk6 : Z.testbit (Z.land (quirks sc) SIXAXIS_CONTROLLER) k = false)
          by (rewrite H6; apply Z.bits_0).
        rewrite Z.land_spec in Hk6.
        destruct (Z.eq_dec k 2) as [->|Hk2].
        -- change (Z.testbit SIXAXIS_CONTROLLER 2) with true in Hk6.
           change (Z.testbit SIXAXIS_CONTROLLER_BT 2) with true. exact Hk6.
        -- replace (Z.testbit SIXAXIS_CONTROLLER_BT k) with false;
             [apply andb_false_r|].
           symmetry. change SIXAXIS_CONTROLLER_BT with (2 ^ 2).
           apply Z.pow2_bits_false. congruence.
      * intros _ H. lia.
      * intros H. contradiction.
  - apply truthy_false in Hbt.
    destruct (truthy (Z.land (quirks sc) SIXAXIS_CONTROLLER_USB)) eqn:Husb.
    + apply truthy_true in Husb.
      assert (H6 : Z.land (quirks sc) SIXAXIS_CONTROLLER <> 0).
      { intros H6. apply Husb.
        apply Z.bits_inj'. intros k Hk. rewrite Z.bits_0, Z.land_spec.
        assert (Hk6 : Z.testbit (Z.land (quirks sc) SIXAXIS_CONTROLLER) k = false)
          by (rewrite H6; apply Z.bits_0).
        rewrite Z.land_spec in Hk6.
        destruct (Z.eq_dec k 1) as [->|Hk1].
        - change (Z.testbit SIXAXIS_CONTROLLER 1) with true in Hk6.
          change (Z.testbit SIXAXIS_CONTROLLER_USB 1) with true. exact Hk6.
        - replace (Z.testbit SIXAXIS_CONTROLLER_USB k) with false;
            [apply andb_false_r|].
          symmetry. change SIXAXIS_CONTROLLER_USB with (2 ^ 1).
          apply Z.pow2_bits_false. congruence. }
      destruct f2 as [[r buf]|].
      * destruct (Z.eqb_spec r 17) as [->|Hne]; cbn [negb].
        -- destruct (sony_check_add_dev_list _ sony_device_list) as [ret l].
           split; [intros H; contradiction|]. split; [intros H; contradiction|].
           intros _ _. split; [discriminate|].
           intros r' buf' H Hr. injection H as <- _. contradiction.
        -- split; [intros H; contradiction|]. split; [intros H; contradiction|].
           intros _ _. split; [discriminate|].
           intros r' buf' H Hr. injection H as <- _.
           destruct (Z.ltb_spec r 0); repeat split; unfold EINVAL; lia.
      * split; [intros H; contradiction|]. split; [intros H; contradiction|].
        intros _ _. split; [intros _; repeat split|].
        intros r buf H. discriminate H.
    + split; [intros _; repeat split|]. split; [intros H; contradiction|].
      intros _ H. apply truthy_false in Husb. contradiction.
Qed.

(** ** Numeric ids: allocation *)

(** The search settles on the smallest free id from [id] on, provided
    the fuel covers the allocated ids from [id] on. *)
Lemma ida_first_free_spec (allocated : gset Z) (fuel : nat) (id : Z) :
  (size (filter (fun x => (id <= x)%Z) allocated) <= fuel)%nat ->
  let r := ida_first_free allocated fuel id in
  (r ∉ allocated) /\ id <= r /\ forall j, id <= j < r -> j ∈ allocated.
Proof.
  revert id. induction fuel as [|fuel IH]; intros id Hsize; cbn [ida_first_free].
  - assert (Hempty : filter (fun x => (id <= x)%Z) allocated ≡ ∅).
    { apply size_empty_inv. lia. }
    split; [|split; [lia | intros j Hj; lia]].
    intros Hin.
    assert (Hf : id ∈ filter (fun x => (id <= x)%Z) allocated)
      by (apply elem_of_filter; split; [lia | exact Hin]).
    apply Hempty in Hf. exact (not_elem_of_empty _ Hf).
  - destruct (decide (id ∈ allocated)) as [Hin|Hout].
    + assert (Hlt : (size (filter (fun x => (id + 1 <= x)%Z) allocated)
                     < size (filter (fun x => (id <= x)%Z) allocated))%nat).
      { apply subset_size. split.
        - intros x. rewrite !elem_of_filter. intros [Hx Hm]. split; [lia | exact Hm].
        - intros Hsub.
          assert (Hf : id ∈ filter (fun x => (id + 1 <= x)%Z) allocated).
          { apply Hsub. apply elem_of_filter. split; [lia | exact Hin]. }
          apply elem_of_filter in Hf. lia. }
      destruct (IH (id + 1) ltac:(lia)) as (Hr & Hle & Hbelow).
      split; [exact Hr|]. split; [lia|].
      intros j Hj. destruct (Z.eq_dec j id) as [->|Hne]; [exact Hin|].
      apply Hbelow. lia.
    + split; [exact Hout|]. split; [lia | intros j Hj; lia].
Qed.

(** A successful [sony_set_device_id] on a Sixaxis. *)
Lemma sony_set_device_id_alloc (sc : sony_sc) (a : ida) :
  Z.land (quirks sc) SIXAXIS_CONTROLLER <> 0 ->
  exists id,
    sony_set_device_id sc a None =
      (0, set_device_id id sc, mk_ida ({[id]} ∪ ida_allocated a) (ida_free_calls a)) /\
    id = ida_first_free (ida_allocated a) (size (ida_allocated a)) 0 /\
    0 <= id /\ (id ∉ ida_allocated a) /\
    (forall j, 0 <= j < id -> j ∈ ida_allocated a).
Proof.
  intros Hq. apply truthy_true in Hq.
  destruct (ida_first_free_spec (ida_allocated a) (size (ida_allocated a)) 0)
    as (Hfree & Hpos & Hbelow).
  { apply subseteq_size. intros x Hx. apply elem_of_filter in Hx. tauto. }
  eexists. split; [|split; [reflexivity | repeat split; eassumption]].
  unfold sony_set_device_id, ida_alloc. rewrite Hq.
  destruct (Z.ltb_spec (ida_first_free (ida_allocated a) (size (ida_allocated a)) 0) 0);
    [lia | reflexivity].
Qed.

(** A Sixaxis gets the smallest id that is not in use: the call succeeds,
    the id stored is non-negative, was free, every smaller id is taken,
    and the allocator gains exactly that id. *)
Theorem sony_set_device_id_smallest_free (sc : sony_sc) (allocator : ida)
    (Hquirk : Z.land (quirks sc) SIXAXIS_CONTROLLER <> 0) :
  let '(ret, sc', a') := sony_set_device_id sc allocator None in
  ret = 0 /\ 0 <= device_id sc' /\
  (device_id sc' ∉ ida_allocated allocator) /\
  (forall j, 0 <= j < device_id sc' -> j ∈ ida_allocated allocator) /\
  ida_allocated a' = {[device_id sc']} ∪ ida_allocated allocator /\
  ida_free_calls a' = ida_free_calls allocator.
Proof.
  destruct (sony_set_device_id_alloc sc allocator Hquirk)
    as (id & -> & _ & Hpos & Hfree & Hbelow).
  replace (device_id (set_device_id id sc)) with id by (destruct sc; reflexivity).
  repeat split; assumption.
Qed.

Lemma sony_set_device_id_smallest_free_witness :
  let sc := fresh_sc SIXAXIS_CONTROLLER_USB in
  let '(ret, sc', a') := sony_set_device_id sc (mk_ida {[0; 1; 3]} []) None in
  ret = 0 /\ device_id sc' = 2.
Proof.
  intros sc.
  pose proof (sony_set_device_id_smallest_free sc (mk_ida {[0; 1; 3]} [])) as H.
  destruct (sony_set_device_id sc (mk_ida {[0; 1; 3]} []) None) as [[ret sc'] a'] eqn:Hrun.
  destruct H as (Hret & _); [vm_compute; congruence|].
  split; [exact Hret|].
  vm_compute in Hrun. injection Hrun as _ <- _. reflexivity.
Defined.

(** No id leaks.  An id taken by [sony_set_device_id] and given back by
    [sony_release_device_id] leaves the set of ids in use as it was
    before, with one [ida_free] call on record; and the next session to
    ask gets that same id again. *)
Theorem device_id_set_release (sc next : sony_sc) (allocator : ida)
    (Hquirk : Z.land (quirks sc) SIXAXIS_CONTROLLER <> 0)
    (Hnext : Z.land (quirks next) SIXAXIS_CONTROLLER <> 0) :
  let '(_, sc1, a1) := sony_set_device_id sc allocator None in
  let '(sc2, a2) := sony_release_device_id sc1 a1 in
  let '(_, next', _) := sony_set_device_id next a2 None in
  ida_allocated a2 = ida_allocated allocator /\
  ida_free_calls a2 = ida_free_calls allocator ++ [device_id sc1] /\
  device_id sc2 = -1 /\
  device_id next' = device_id sc1.
Proof.
  destruct (sony_set_device_id_alloc sc allocator Hquirk)
    as (id & -> & Hid & Hpos & Hfree & _).
  unfold sony_release_device_id.
  replace (device_id (set_device_id id sc)) with id by (destruct sc; reflexivity).
  destruct (Z.geb_spec id 0) as [_|]; [|lia].
  set (a2 := ida_free _ id).
  assert (Ha2 : ida_allocated a2 = ida_allocated allocator).
  { unfold a2, ida_free. cbn [ida_allocated]. apply set_eq. intros x.
    rewrite elem_of_difference, elem_of_union, !elem_of_singleton. split.
    - intros [[Hx | Hx] Hne]; [contradiction | exact Hx].
    - intros Hx. split; [right; exact Hx | intros ->; exact (Hfree Hx)]. }
  destruct (sony_set_device_id_alloc next a2 Hnext) as (id' & -> & Hid' & _).
  replace (device_id (set_device_id id' next)) with id' by (destruct next; reflexivity).
  replace (device_id (set_device_id (-1) (set_device_id id sc))) with (-1)
    by (destruct sc; reflexivity).
  repeat split; [exact Ha2|]. rewrite Hid', Ha2. symmetry. exact Hid.
Qed.

Lemma device_id_set_release_witness :
  let sc := fresh_sc SIXAXIS_CONTROLLER_USB in
  let next := fresh_sc SIXAXIS_CONTROLLER_BT in
  let allocator := mk_ida {[0]} [] in
  let '(_, sc1, a1) := sony_set_device_id sc allocator None in
  let '(sc2, a2) := sony_release_device_id sc1 a1 in
  let '(_, next', _) := sony_set_device_id next a2 None in
  ida_allocated a2 = ida_allocated allocator /\
  ida_free_calls a2 = ida_free_calls allocator ++ [device_id sc1] /\
  device_id sc2 = -1 /\
  device_id next' = device_id sc1.
Proof.
  intros sc next allocator.
  apply (device_id_set_release sc next allocator); vm_compute; congruence.
Defined.

(** Two sessions that take an id one after the other, with no release in
    between, never hold the same id, and both ids are in use afterwards. *)
Theorem device_ids_distinct (sc1 sc2 : sony_sc) (allocator : ida)
    (Hquirk1 : Z.land (quirks sc1) SIXAXIS_CONTROLLER <> 0)
    (Hquirk2 : Z.land (quirks sc2) SIXAXIS_CONTROLLER <> 0) :
  let '(_, sc1', a1) := sony_set_device_id sc1 allocator None in
  let '(_, sc2', a2) := sony_set_device_id sc2 a1 None in
  device_id sc1' <> device_id sc2' /\
  (device_id sc1' ∈ ida_allocated a2) /\ (device_id sc2' ∈ ida_allocated a2).
Proof.
  destruct (sony_set_device_id_alloc sc1 allocator Hquirk1)
    as (id1 & -> & _ & _ & _ & _).
  destruct (sony_set_device_id_alloc sc2
              (mk_ida ({[id1]} ∪ ida_allocated allocator) (ida_free_calls allocator))
              Hquirk2)
    as (id2 & -> & _ & _ & Hfree2 & _).
  replace (device_id (set_device_id id1 sc1)) with id1 by (destruct sc1; reflexivity).
  replace (device_id (set_device_id id2 sc2)) with id2 by (destruct sc2; reflexivity).
  cbn [ida_allocated] in *. split; [|split].
  - intros ->. apply Hfree2. apply elem_of_union_l, elem_of_singleton. reflexivity.
  - apply elem_of_union_r, elem_of_union_l, elem_of_singleton. reflexivity.
  - apply elem_of_union_l, elem_of_singleton. reflexivity.
Qed.

Lemma device_ids_distinct_witness :
  let sc1 := fresh_sc SIXAXIS_CONTROLLER_USB in
  let sc2 := fresh_sc SIXAXIS_CONTROLLER_BT in
  let '(_, sc1', a1) := sony_set_device_id sc1 (mk_ida ∅ []) None in
  let '(_, sc2', a2) := sony_set_device_id sc2 a1 None in
  device_id sc1' <> device_id sc2' /\
  (device_id sc1' ∈ ida_allocated a2) /\ (device_id sc2' ∈ ida_allocated a2).
Proof.
  intros sc1 sc2.
  apply (device_ids_distinct sc1 sc2 (mk_ida ∅ [])); vm_compute; congruence.
Defined.

(** A session that gets no id holds -1 and costs the allocator nothing:
    a device that is not a Sixaxis, and a Sixaxis whose allocation fails
    (the error is returned as it is).  Releasing afterwards, as the error
    path of the attach does, is a no-op. *)
Theorem sony_set_device_id_none (sc : sony_sc) (allocator : ida)
    (failure : option Z)
    (Hnone : Z.land (quirks sc) SIXAXIS_CONTROLLER = 0 \/
             exists err, failure = Some err /\ err < 0) :
  let '(ret, sc', a') := sony_set_device_id sc allocator failure in
  device_id sc' = -1 /\ a' = allocator /\
  (Z.land (quirks sc) SIXAXIS_CONTROLLER = 0 -> ret = 0) /\
  (Z.land (quirks sc) SIXAXIS_CONTROLLER <> 0 -> failure = Some ret) /\
  sony_release_device_id sc' a' = (sc', a').
Proof.
  unfold sony_set_device_id.
  destruct (truthy (Z.land (quirks sc) SIXAXIS_CONTROLLER)) eqn:Hq.
  - apply truthy_true in Hq. destruct Hnone as [H0 | (err & -> & Herr)];
      [contradiction|].
    unfold ida_alloc. destruct (Z.ltb_spec err 0) as [_|]; [|lia].
    unfold sony_release_device_id.
    replace (device_id (set_device_id (-1) sc)) with (-1) by (destruct sc; reflexivity).
    repeat split; try reflexivity. intros H. contradiction.
  - apply truthy_false in Hq.
    unfold sony_release_device_id.
    replace (device_id (set_device_id (-1) sc)) with (-1) by (destruct sc; reflexivity).
    repeat split; try reflexivity. intros H. contradiction.
Qed.

Lemma sony_set_device_id_none_witness :
  let sc := fresh_sc GH_GUITAR_CONTROLLER in
  let allocator := mk_ida {[0]} [] in
  let '(ret, sc', a') := sony_set_device_id sc allocator None in
  device_id sc' = -1 /\ a' = allocator /\ ret = 0.
Proof.
  intros sc allocator.
  pose proof (sony_set_device_id_none sc allocator None) as H.
  destruct (sony_set_device_id sc allocator None) as [[ret sc'] a'].
  destruct H as (H1 & H2 & H3 & _); [left; reflexivity|].
  repeat split; try assumption. apply H3. reflexivity.
Defined.

(** ** Brightness changes and the transport *)

(** A brightness change of the LED registered at index [n] takes effect
    when the session is a Sixaxis on USB, or the value differs from the
    stored one, or the LED is blinking.  An effective change hands one
    request to the transport during the call, whose seven values are 0,
    then 0xff or 0 for each of the four LEDs as they are after the
    change, then 0 and 0; a change without effect leaves the session as
    it is.  Neither queues the state worker. *)
Theorem sony_led_set_brightness_sends (sc : sony_sc) (n value : Z)
    (Hreg : leds_registered sc) (Hn : 0 <= n < 4) :
  let sc' := sony_led_set_brightness sc (arr_get (leds sc) n) value in
  let level k := if arr_get (led_state sc') k =? 0 then 0x00 else 0xff in
  (Z.land (quirks sc) SIXAXIS_CONTROLLER_USB <> 0 \/
   value <> arr_get (led_state sc) n \/
   arr_get (led_delay_on sc) n <> 0 \/ arr_get (led_delay_off sc) n <> 0 ->
     hdev sc' =
       hdev sc ++ [Hw_request [0x00; level 0; level 1; level 2; level 3; 0x00; 0x00]]) /\
  (Z.land (quirks sc) SIXAXIS_CONTROLLER_USB = 0 ->
   value = arr_get (led_state sc) n ->
   arr_get (led_delay_on sc) n = 0 -> arr_get (led_delay_off sc) n = 0 ->
     sc' = sc) /\
  state_worker sc' = state_worker sc.
Proof.
  intros sc'. unfold sc'. rewrite sony_led_set_brightness_registered by assumption.
  assert (Hforce : truthy (c_not (c_not (Z.land (quirks sc) SIXAXIS_CONTROLLER_USB)))
                   = negb (Z.land (quirks sc) SIXAXIS_CONTROLLER_USB =? 0)).
  { unfold truthy, c_not.
    destruct (Z.land (quirks sc) SIXAXIS_CONTROLLER_USB =? 0); reflexivity. }
  rewrite Hforce. unfold truthy.
  destruct (Z.eqb_spec (Z.land (quirks sc) SIXAXIS_CONTROLLER_USB) 0) as [Hq|Hq];
    destruct (Z.eqb_spec value (arr_get (led_state sc) n)) as [Hv|Hv];
    destruct (Z.eqb_spec (arr_get (led_delay_on sc) n) 0) as [Hon|Hon];
    destruct (Z.eqb_spec (arr_get (led_delay_off sc) n) 0) as [Hoff|Hoff];
    cbn [negb orb];
    (split; [|split]);
    try (intros; contradiction);
    try (intros [H | [H | [H | H]]]; contradiction);
    try (intros; reflexivity);
    try (intros _; unfold sony_set_leds, buzz_set_leds, truthy;
         destruct sc; cbn [hdev set_hdev led_state set_led_state set_led_delay_on
                           set_led_delay_off];
         repeat f_equal;
         match goal with |- context [?a =? 0] => destruct (a =? 0); reflexivity end);
    try (destruct sc; reflexivity).
Qed.

Lemma sony_led_set_brightness_sends_witness :
  let sc := sixaxis_session SIXAXIS_CONTROLLER_BT 0 in
  let sc' := sony_led_set_brightness sc 102 1 in
  hdev sc' = [Hw_request [0; 0xff; 0xff; 0; 0; 0; 0]] /\
  state_worker sc' = state_worker sc.
Proof.
  intros sc sc'.
  destruct (sony_led_set_brightness_sends sc 1 1 led_registered_example ltac:(lia))
    as (Hsend & _ & Hw).
  split; [|exact Hw].
  exact (Hsend ltac:(right; left; vm_compute; congruence)).
Defined.

(** ** Worked instances *)

Lemma sony_report_fixup_frame_witness :
  let rdesc := repeat 0 23%nat ++ [0x95; 0x0D] ++ repeat 0 12%nat
               ++ [0x29; 0x0D] ++ repeat 0 4%nat ++ [0x95; 0x03] in
  length (sony_report_fixup (fresh_sc SIXAXIS_CONTROLLER_USB) rdesc) = 45%nat /\
  sony_report_fixup (fresh_sc SIXAXIS_CONTROLLER_USB) rdesc !! 23%nat = Some 0x95 /\
  sony_report_fixup (fresh_sc GH_GUITAR_CONTROLLER) rdesc = rdesc.
Proof.
  intros rdesc.
  destruct (sony_report_fixup_frame (fresh_sc SIXAXIS_CONTROLLER_USB) rdesc)
    as (Hlen & Hother & _).
  destruct (sony_report_fixup_frame (fresh_sc GH_GUITAR_CONTROLLER) rdesc)
    as (_ & _ & Hsame).
  split; [rewrite Hlen; reflexivity|]. split.
  - rewrite Hother by lia. reflexivity.
  - apply Hsame. left. reflexivity.
Defined.

Lemma sixaxis_swap_axes_involution_witness :
  let rd := buffer_of_list (report49 1 0 3 [1; 2; 3; 4; 5; 6; 7; 8]) (fun _ => 0) in
  sixaxis_swap_axes (sixaxis_swap_axes rd) 41 = 1 /\
  sixaxis_swap_axes rd 41 = 2 /\
  sixaxis_swap_axes rd 30 = rd 30.
Proof.
  intros rd.
  destruct (sixaxis_swap_axes_involution rd 41) as (H41 & _).
  destruct (sixaxis_swap_axes_involution rd 30) as (_ & H30).
  split; [rewrite H41; reflexivity|]. split; [reflexivity|].
  apply H30. left. lia.
Defined.

Lemma sixaxis_report_template_witness :
  let buf := buf_of_report
               (sixaxis_build_report true
                  (snd (sony_play_effect (sixaxis_session SIXAXIS_CONTROLLER_BT 0)
                          FF_RUMBLE 0xffff 0xffff))) in
  length buf = 36%nat /\ nth 12 buf 0 = 0x27 /\ nth 2 buf 0 = 0xff.
Proof.
  intros buf.
  destruct (sixaxis_report_template true
              (snd (sony_play_effect (sixaxis_session SIXAXIS_CONTROLLER_BT 0)
                      FF_RUMBLE 0xffff 0xffff))) as (Hlen & _ & Htemplate).
  unfold buf. split; [exact Hlen|]. split.
  - rewrite (Htemplate 12%nat); [reflexivity|].
    simpl. intros H. repeat (destruct H as [H|H]; [discriminate H|]). exact H.
  - rewrite (Htemplate 2%nat); [reflexivity|].
    simpl. intros H. repeat (destruct H as [H|H]; [discriminate H|]). exact H.
Defined.

Lemma sony_check_add_no_address_witness :
  let sc := fresh_sc SIXAXIS_CONTROLLER_USB in
  let other := session_with_mac SIXAXIS_CONTROLLER_BT [1; 2; 3; 4; 5; 6] in
  let '(ret, sc', l) := sony_check_add sc (0, []) (Some (-32, [])) [other] in
  ret = -32 /\ sc' = sc /\ l = [other].
Proof.
  intros sc other.
  pose proof (sony_check_add_no_address sc (0, []) (Some (-32, [])) [other]) as H.
  destruct (sony_check_add sc (0, []) (Some (-32, [])) [other]) as [[ret sc'] l].
  destruct H as (_ & _ & Husb).
  destruct Husb as (_ & Hshort); [reflexivity | vm_compute; congruence|].
  destruct (Hshort (-32) [] eq_refl ltac:(lia)) as (_ & Hret & _ & Hsc & Hl).
  split; [apply Hret; lia | split; assumption].
Defined.
